(** * BearCart analytics: the dashboard's KPI arithmetic, the API client and
      the pandas cleaning / metrics templates, embedded and verified.

    Three parts of the repository are modelled:
    - [Dashboard], [Ui], [Literals]: the KPI block, the two funnel
      breakdowns, the navigation, the channel selector and the literal
      drop-offs of [BearCartDashboard.tsx].  JavaScript numbers are IEEE
      binary64 values, so they are Rocq's primitive floats and every figure
      is computed exactly as the browser computes it.
    - [Api]: [ApiService.getDashboardData], an error/trace monad over the
      outcomes the network can produce.
    - [Pandas], [Pipeline], [DataExport]: [BearCartDataCleaner],
      [BearCartMetrics] and the funnel of [prepare_dashboard_data] of the
      code templates, over tables as lists of rows. *)

From Stdlib Require Import ZArith QArith String List Bool Lia.
From Stdlib Require Import PrimFloat FloatOps SpecFloat Uint63.
From stdpp Require Import gmap strings pretty.
Import ListNotations.

Set Default Proof Using "Type".
Set Warnings "-inexact-float,-register-all".

(** ** Results of fallible code *)

Inductive result (E A : Type) : Type :=
| Ok (a : A)
| Raise (e : E).
Arguments Ok {E A} a.
Arguments Raise {E A} e.

Definition rbind {E A B} (r : result E A) (k : A -> result E B) : result E B :=
  match r with
  | Ok a => k a
  | Raise e => Raise e
  end.

#[export] Instance result_ret {E} : MRet (result E) := fun _ a => Ok a.
#[export] Instance result_bind {E} : MBind (result E) :=
  fun _ _ k r => rbind r k.

(** ** JavaScript values shared by the dashboard and the API client *)

Module JS.

(** An [Error] object: its constructor name and its [message]. *)
Record Error := mkError { err_name : string; err_message : string }.

Definition new_Error (msg : string) : Error := mkError "Error" msg.
Definition TypeError (msg : string) : Error := mkError "TypeError" msg.

(** [arr[i]] then a property read: [undefined] has no properties. *)
Definition index_prop {A} (arr : list A) (i : Z) (prop : string)
  : result Error A :=
  match (if (0 <=? i)%Z then arr !! Z.to_nat i else None) with
  | Some x => Ok x
  | None =>
      Raise (TypeError
        ("Cannot read properties of undefined (reading '" +:+ prop +:+ "')"))
  end.

(** [arr.length] as a Number. *)
Definition length_number {A} (arr : list A) : float :=
  PrimFloat.of_uint63 (Uint63.of_Z (Z.of_nat (length arr))).

Definition js_length {A} (arr : list A) : Z := Z.of_nat (length arr).

(** *** [Number.prototype.toFixed]

    ECMA-262, 21.1.3.3: for a finite [x] below 10^21 the result is the
    decimal expansion of the integer [n] for which [n / 10^f - x] is as
    close to zero as possible (the larger [n] at a tie), with [f] digits
    after the point.  The exact value of a binary64 number is [m * 2^e],
    read off with [Prim2SF]. *)

Definition nearest_scaled (m : positive) (e : Z) (f : nat) : Z :=
  let num := (Z.pos m * 10 ^ Z.of_nat f)%Z in
  if (0 <=? e)%Z then (num * 2 ^ e)%Z
  else ((2 * num + 2 ^ (- e)) / (2 * 2 ^ (- e)))%Z.

Fixpoint zeros (k : nat) : string :=
  match k with
  | O => ""
  | S k' => "0" +:+ zeros k'
  end.

Definition fixed_string (n : Z) (f : nat) : string :=
  let m := pretty (Z.to_N n) in
  match f with
  | O => m
  | S _ =>
      let k := String.length m in
      let m' := if (k <=? f)%nat then zeros (f + 1 - k) +:+ m else m in
      let k' := String.length m' in
      substring 0 (k' - f) m' +:+ "." +:+ substring (k' - f) f m'
  end.

Section ToFixed.
(** [Number::toString] is only reached for magnitudes of 10^21 and
    above; it is left abstract. *)
Variable NumberToString : float -> string.

Definition toFixed (x : float) (f : nat) : string :=
  match Prim2SF x with
  | S754_nan => "NaN"
  | S754_infinity s => if s then "-Infinity" else "Infinity"
  | S754_zero _ => fixed_string 0 f
  | S754_finite s m e =>
      let sign := if s then "-" else "" in
      if (1e21 <=? PrimFloat.abs x)%float
      then sign +:+ NumberToString (PrimFloat.abs x)
      else sign +:+ fixed_string (nearest_scaled m e f) f
  end.
End ToFixed.

End JS.

(** ** The dashboard component *)

Module Dashboard.
Import JS.
Local Open Scope float_scope.

(** [BEARCART_COLORS] of BearCartTheme.tsx (the entries the data uses). *)
Module BEARCART_COLORS.
Definition primary_purple : string := "#7c3aed".
Definition primary_indigo : string := "#4f46e5".
Definition primary_blue : string := "#3b82f6".
Definition status_success : string := "#10b981".
Definition status_warning : string := "#f59e0b".
Definition status_danger : string := "#ef4444".
Definition status_info : string := "#06b6d4".
Definition channels_organic : string := "#8b5cf6".
Definition channels_paid : string := "#ec4899".
Definition channels_social : string := "#f59e0b".
Definition channels_direct : string := "#14b8a6".
Definition channels_referral : string := "#3b82f6".
End BEARCART_COLORS.

Record ChannelRow := mkChannel {
  channel_name : string;
  channel_revenue : float;
  channel_orders : float;
  channel_conversion : float;
  channel_color : string }.

Record FunnelRow := mkFunnel {
  funnel_stage : string;
  funnel_value : float;
  funnel_color : string }.

Record CategoryRow := mkCategory {
  category_name : string;
  category_revenue : float;
  category_trend : float;
  category_refundRate : float }.

Record RefundRow := mkRefund {
  refund_reason : string;
  refund_count : float;
  refund_percentage : float;
  refund_color : string }.

Definition generateChannelData : list ChannelRow :=
  [ mkChannel "Organic" 28450 342 4.2 BEARCART_COLORS.channels_organic;
    mkChannel "Paid Ads" 18920 156 2.1 BEARCART_COLORS.channels_paid;
    mkChannel "Social" 12340 98 1.8 BEARCART_COLORS.channels_social;
    mkChannel "Direct" 8920 67 1.2 BEARCART_COLORS.channels_direct;
    mkChannel "Referral" 5670 42 0.9 BEARCART_COLORS.channels_referral ].

Definition generateFunnelData : list FunnelRow :=
  [ mkFunnel "Sessions" 45000 BEARCART_COLORS.primary_purple;
    mkFunnel "Product View" 32400 BEARCART_COLORS.primary_indigo;
    mkFunnel "Add to Cart" 8100 BEARCART_COLORS.primary_blue;
    mkFunnel "Checkout" 2430 BEARCART_COLORS.status_warning;
    mkFunnel "Purchase" 1215 BEARCART_COLORS.status_success ].

Definition generateCategoryPerformance : list CategoryRow :=
  [ mkCategory "Electronics" 34500 12 6.2;
    mkCategory "Apparel" 28900 8 3.5;
    mkCategory "Furniture" 18450 (-2) 2.1;
    mkCategory "Accessories" 21240 15 1.8;
    mkCategory "Home Goods" 15600 5 2.8 ].

Definition generateRefundData : list RefundRow :=
  [ mkRefund "Damaged" 45 28 BEARCART_COLORS.status_danger;
    mkRefund "Wrong Size" 38 24 BEARCART_COLORS.status_warning;
    mkRefund "Not as Described" 32 20 BEARCART_COLORS.status_info;
    mkRefund "Changed Mind" 26 16 BEARCART_COLORS.status_info;
    mkRefund "Defective" 18 12 BEARCART_COLORS.status_danger ].

(** The UI state of the component ([useState] hooks). *)
Record UiState := mkUi {
  activeTab : string;
  mobileOpen : bool;
  timeRange : string;
  selectedChannel : option string;
  selectedCategory : option string }.

Definition initialState : UiState := mkUi "Overview" false "Week" None None.

Inductive Action :=
| setActiveTab (tab : string)
| setMobileOpen (b : bool)
| setTimeRange (r : string)
| setSelectedChannel (c : option string)
| setSelectedCategory (c : option string).

Definition dispatch (st : UiState) (a : Action) : UiState :=
  match a with
  | setActiveTab t =>
      mkUi t (mobileOpen st) (timeRange st) (selectedChannel st) (selectedCategory st)
  | setMobileOpen b =>
      mkUi (activeTab st) b (timeRange st) (selectedChannel st) (selectedCategory st)
  | setTimeRange r =>
      mkUi (activeTab st) (mobileOpen st) r (selectedChannel st) (selectedCategory st)
  | setSelectedChannel c =>
      mkUi (activeTab st) (mobileOpen st) (timeRange st) c (selectedCategory st)
  | setSelectedCategory c =>
      mkUi (activeTab st) (mobileOpen st) (timeRange st) (selectedChannel st) c
  end.

(** The memoised datasets the KPI block reads ([useMemo(..., [])]). *)
Record Datasets := mkData {
  channelData : list ChannelRow;
  funnelData : list FunnelRow;
  categoryPerformance : list CategoryRow;
  refundData : list RefundRow }.

Definition generated : Datasets :=
  mkData generateChannelData generateFunnelData
         generateCategoryPerformance generateRefundData.

(** What one render computes before the JSX (lines 374-391). *)
Record Derived := mkDerived {
  totalRevenue : float;
  totalOrders : float;
  avgConversion : string;
  totalSessions : float;
  conversionRate : string;
  avgOrderValue : string;
  totalRefunds : float;
  refundRate : string;
  filteredChannelData : list ChannelRow;
  filteredCategoryData : list CategoryRow }.

(** A [string | null] state used as a condition: [null] and the empty
    string are falsy. *)
Definition truthy (s : option string) : option string :=
  match s with
  | Some "" => None
  | Some name => Some name
  | None => None
  end.

Section Render.
Variable NumberToString : float -> string.
Let toFixed := JS.toFixed NumberToString.

Definition derive (d : Datasets) (st : UiState) : result Error Derived :=
  let totalRevenue :=
    fold_left (fun sum item => sum + channel_revenue item) (channelData d) 0 in
  let totalOrders :=
    fold_left (fun sum item => sum + channel_orders item) (channelData d) 0 in
  let avgConversion :=
    toFixed (fold_left (fun sum item => sum + channel_conversion item)
                       (channelData d) 0
             / length_number (channelData d)) 1 in
  first ← index_prop (funnelData d) 0 "value";
  let totalSessions := funnel_value first in
  last ← index_prop (funnelData d) (js_length (funnelData d) - 1) "value";
  let conversionRate :=
    toFixed ((funnel_value last / totalSessions) * 100) 2 in
  let avgOrderValue := toFixed (totalRevenue / totalOrders) 2 in
  let totalRefunds :=
    fold_left (fun sum item => sum + refund_count item) (refundData d) 0 in
  let refundRate := toFixed ((totalRefunds / totalOrders) * 100) 1 in
  let filteredChannelData :=
    match truthy (selectedChannel st) with
    | Some sel =>
        filter (fun item => channel_name item = sel) (channelData d)
    | None => channelData d
    end in
  let filteredCategoryData :=
    match truthy (selectedCategory st) with
    | Some sel =>
        filter (fun item => category_name item = sel) (categoryPerformance d)
    | None => categoryPerformance d
    end in
  mret (mkDerived totalRevenue totalOrders avgConversion totalSessions
                  conversionRate avgOrderValue totalRefunds refundRate
                  filteredChannelData filteredCategoryData).

(** One line of the funnel breakdown: the stage, the share of the first
    stage and the drop from the previous stage ([None] when the JSX shows
    no drop-off for that line). *)
Record StageLine := mkStageLine {
  line_stage : string;
  line_percentage : string;
  line_dropoff : option string }.

(** Overview tab, lines 640-642: [dropoff] is [null] for the first
    stage, and [{dropoff && ...}] shows it otherwise (a non-empty string
    is truthy).  The expression reads [funnelData[idx - 1]] twice. *)
Definition overviewFunnelLine (fd : list FunnelRow) (idx : nat) (stage : FunnelRow)
  : result Error StageLine :=
  first ← index_prop fd 0 "value";
  let percentage := toFixed ((funnel_value stage / funnel_value first) * 100) 1 in
  dropoff ←
    (if (0 <? Z.of_nat idx)%Z then
       prev ← index_prop fd (Z.of_nat idx - 1) "value";
       prev' ← index_prop fd (Z.of_nat idx - 1) "value";
       mret (Some (toFixed (((funnel_value prev - funnel_value stage)
                             / funnel_value prev') * 100) 1))
     else mret None);
  mret (mkStageLine (funnel_stage stage) percentage dropoff).

(** Funnel tab, lines 1050-1053: the drop is always computed, against
    the stage itself for the first line, and shown when [idx > 0]. *)
Definition stageAnalysisLine (fd : list FunnelRow) (idx : nat) (stage : FunnelRow)
  : result Error StageLine :=
  prevValue ←
    (if (0 <? Z.of_nat idx)%Z then
       prev ← index_prop fd (Z.of_nat idx - 1) "value";
       mret (funnel_value prev)
     else mret (funnel_value stage));
  let dropoff := toFixed ((prevValue - funnel_value stage) / prevValue * 100) 1 in
  first ← index_prop fd 0 "value";
  let percentage := toFixed ((funnel_value stage / funnel_value first) * 100) 1 in
  mret (mkStageLine (funnel_stage stage) percentage
          (if (0 <? Z.of_nat idx)%Z then Some dropoff else None)).

(** [arr.map((x, idx) => f)] for a callback that can throw. *)
Fixpoint map_indexed {A B} (f : nat -> A -> result Error B) (i : nat) (l : list A)
  : result Error (list B) :=
  match l with
  | [] => mret []
  | x :: rest =>
      y ← f i x;
      ys ← map_indexed f (S i) rest;
      mret (y :: ys)
  end.

Definition overviewFunnel (fd : list FunnelRow) : result Error (list StageLine) :=
  map_indexed (overviewFunnelLine fd) 0 fd.

Definition stageAnalysis (fd : list FunnelRow) : result Error (list StageLine) :=
  map_indexed (stageAnalysisLine fd) 0 fd.

(** The component as rendered: the datasets are the generators' output. *)
Definition BearCartDashboard (st : UiState) : result Error Derived :=
  derive generated st.
End Render.

End Dashboard.

(** ** The API client (config.ts and api.ts) *)

Module Api.
Import JS.

Module API_CONFIG.
(** Both arms of the [localhost] test are the same URL. *)
Definition BASE_URL : string := "https://bearcart.onrender.com".
End API_CONFIG.

(** A parsed JSON document. *)
Inductive JsVal :=
| JUndefined
| JNull
| JBool (b : bool)
| JNum (x : float)
| JStr (s : string)
| JArr (items : list JsVal)
| JObj (fields : list (string * JsVal)).

(** What the server answered: [text()] and [json()] are promises, each
    settles with a value or rejects. *)
Record Response := mkResponse {
  ok : bool;
  status : N;
  text : result Error string;
  json : result Error JsVal }.

Inductive Event :=
| Fetched (url : string)
| ConsoleError (label : string) (e : Error).

(** Computations that append to a log of observable events and either
    return or throw. *)
Definition Eff (A : Type) : Type := list Event -> result Error A * list Event.

Definition pure {A} (a : A) : Eff A := fun log => (Ok a, log).
Definition throw {A} (e : Error) : Eff A := fun log => (Raise e, log).
Definition bind {A B} (m : Eff A) (k : A -> Eff B) : Eff B :=
  fun log =>
    match m log with
    | (Ok a, log') => k a log'
    | (Raise e, log') => (Raise e, log')
    end.
Definition try_catch {A} (body : Eff A) (handler : Error -> Eff A) : Eff A :=
  fun log =>
    match body log with
    | (Ok a, log') => (Ok a, log')
    | (Raise e, log') => handler e log'
    end.
(** [await p] for a promise that has settled with [r]. *)
Definition await {A} (r : result Error A) : Eff A := fun log => (r, log).
Definition console_error (label : string) (e : Error) : Eff unit :=
  fun log => (Ok tt, log ++ [ConsoleError label e]).

#[export] Instance eff_ret : MRet Eff := @pure.
#[export] Instance eff_bind : MBind Eff := fun _ _ k m => bind m k.

Definition is_fetch (ev : Event) : bool :=
  match ev with
  | Fetched _ => true
  | ConsoleError _ _ => false
  end.

Definition fetch_count (log : list Event) : nat :=
  length (List.filter is_fetch log).

(** [json.detail]: reading a property of [null] or [undefined] throws. *)
Definition get_prop (v : JsVal) (name : string) : result Error JsVal :=
  match v with
  | JUndefined | JNull =>
      Raise (TypeError
        ("Cannot read properties of null (reading '" +:+ name +:+ "')"))
  | JObj fields =>
      match List.find (fun kv => String.eqb (fst kv) name) fields with
      | Some kv => Ok (snd kv)
      | None => Ok JUndefined
      end
  | _ => Ok JUndefined
  end.

(** ToBoolean. *)
Definition js_truthy (v : JsVal) : bool :=
  match v with
  | JUndefined | JNull => false
  | JBool b => b
  | JNum x => negb (PrimFloat.eqb x 0 || PrimFloat.is_nan x)
  | JStr s => negb (String.eqb s "")
  | JArr _ | JObj _ => true
  end.

Section ApiService.
(** The network: the outcome of the [n]-th [fetch] of a URL. *)
Variable network : nat -> string -> result Error Response.
(** Built-ins the method calls. *)
Variable JSON_parse : string -> result Error JsVal.
Variable ToString : JsVal -> string.

Definition fetch (url : string) : Eff Response :=
  fun log => (network (fetch_count log) url, log ++ [Fetched url]).

Definition http_error (response : Response) : string :=
  "HTTP error! status: " +:+ pretty (status response).

Definition getDashboardData (baseURL : string) : Eff JsVal :=
  try_catch
    (response ← fetch (baseURL +:+ "/api/dashboard");
     _ ← (if negb (ok response) then
            text ← await (text response);
            try_catch
              (json ← await (JSON_parse text);
               detail ← await (get_prop json "detail");
               throw (new_Error (if js_truthy detail then ToString detail
                                 else http_error response)))
              (fun e => throw (new_Error (http_error response)))
          else mret tt);
     await (json response))
    (fun error =>
       _ ← console_error "Failed to fetch dashboard data:" error;
       throw error).

(** [new ApiService().getDashboardData()], from an empty log. *)
Definition apiService_getDashboardData : result Error JsVal * list Event :=
  getDashboardData API_CONFIG.BASE_URL [].
End ApiService.

Definition dashboard_url : string := API_CONFIG.BASE_URL +:+ "/api/dashboard".

(** An upstream failure: the fetch rejected, or the answer is not ok. *)
Definition upstream_failure (outcome : result Error Response) : Prop :=
  match outcome with
  | Raise _ => True
  | Ok response => ok response = false
  end.

End Api.

(** ** The pandas templates (BearCart_Code_Templates.md) *)

Module Pandas.

(** A float64 cell ([None] is NaN) and a datetime64 cell in nanoseconds
    ([None] is NaT).  Rounding of float64 arithmetic is not modelled: the
    finite values are exact rationals. *)
Definition cell : Type := option Q.
Definition timestamp : Type := option Z.

(** A computed float64 scalar. *)
Inductive npfloat :=
| Fin (q : Q)
| PInf
| NInf
| NaN.

(** Python numbers by the type that decides how [/] behaves: built-in
    [int] and [float], and NumPy scalars (what [Series.sum] and
    [Series.mean] return). *)
Inductive pynum :=
| PyInt (z : Z)
| PyFloat (x : npfloat)
| NpInt (z : Z)
| NpFloat (x : npfloat).

Inductive PyExn :=
| ZeroDivisionError
| ValueError (msg : string)
| IndexingError (msg : string).

Definition Qlt_bool (x y : Q) : bool := negb (Qle_bool y x).

(** NumPy's [true_divide] on float64: a zero divisor gives nan or an
    infinity (with a RuntimeWarning), never an exception. *)
Definition np_true_divide (a b : npfloat) : npfloat :=
  match a, b with
  | NaN, _ | _, NaN => NaN
  | Fin x, Fin y =>
      if Qeq_bool y 0 then
        if Qeq_bool x 0 then NaN else if Qlt_bool 0 x then PInf else NInf
      else Fin (x / y)
  | Fin _, (PInf | NInf) => Fin 0
  | PInf, Fin y => if Qle_bool 0 y then PInf else NInf
  | NInf, Fin y => if Qle_bool 0 y then NInf else PInf
  | (PInf | NInf), (PInf | NInf) => NaN
  end.

Definition to_float (a : pynum) : npfloat :=
  match a with
  | PyInt z | NpInt z => Fin (inject_Z z)
  | PyFloat x | NpFloat x => x
  end.

Definition is_zero (a : pynum) : bool :=
  match to_float a with
  | Fin q => Qeq_bool q 0
  | _ => false
  end.

(** [a / b]: between built-in numbers a zero divisor raises; as soon as
    one operand is a NumPy scalar the NumPy rule applies. *)
Definition truediv (a b : pynum) : result PyExn pynum :=
  match a, b with
  | (PyInt _ | PyFloat _), (PyInt _ | PyFloat _) =>
      if is_zero b then Raise ZeroDivisionError
      else Ok (PyFloat (np_true_divide (to_float a) (to_float b)))
  | _, _ => Ok (NpFloat (np_true_divide (to_float a) (to_float b)))
  end.

(** [a > 0]; comparisons with nan are false. *)
Definition gt_zero (a : pynum) : bool :=
  match to_float a with
  | Fin q => Qlt_bool 0 q
  | PInf => true
  | NInf | NaN => false
  end.

(** *** Series reductions (skipna) and comparisons *)

Definition sum_float (col : list cell) : Q :=
  fold_right (fun c acc => match c with Some q => (q + acc)%Q | None => acc end)
             0%Q col.

Definition sum_int (col : list Z) : Z := fold_right Z.add 0%Z col.

Definition count_true (mask : list bool) : Z :=
  Z.of_nat (length (List.filter (fun b => b) mask)).

Definition py_len {A} (df : list A) : Z := Z.of_nat (length df).

Definition notna_count (col : list cell) : nat :=
  length (List.filter (fun c => match c with Some _ => true | None => false end) col).

Definition mean (col : list cell) : npfloat :=
  match notna_count col with
  | O => NaN
  | S _ as n => Fin (sum_float col / inject_Z (Z.of_nat n))
  end.

Definition cell_lt (c : cell) (q : Q) : bool :=
  match c with Some x => Qlt_bool x q | None => false end.
Definition cell_gt (c : cell) (q : Q) : bool :=
  match c with Some x => Qlt_bool q x | None => false end.
Definition cell_eq (c : cell) (q : Q) : bool :=
  match c with Some x => Qeq_bool x q | None => false end.
Definition cell_gt_cell (c d : cell) : bool :=
  match d with Some q => cell_gt c q | None => false end.

Definition ts_lt (a b : timestamp) : bool :=
  match a, b with Some x, Some y => (x <? y)%Z | _, _ => false end.
Definition ts_ge (a b : timestamp) : bool :=
  match a, b with Some x, Some y => (y <=? x)%Z | _, _ => false end.

(** *** Grouping *)

(** [Series.value_counts().to_dict()]: null keys are dropped. *)
Definition value_counts `{Countable K} (col : list (option K)) : gmap K nat :=
  foldr (fun c m =>
           match c with
           | Some k => <[k := S (default O (m !! k))]> m
           | None => m
           end) ∅ col.

(** [df.groupby(key)]: the rows of each non-null key, in table order. *)
Definition groupby {A} (key : A -> option string) (df : list A)
  : gmap string (list A) :=
  foldr (fun r m =>
           match key r with
           | Some k => <[k := r :: default [] (m !! k)]> m
           | None => m
           end) ∅ df.

(** [sum(d.values())]. *)
Definition dict_values_sum `{Countable K} (d : gmap K nat) : nat :=
  map_fold (fun _ v acc => v + acc) O d.

(** [how='left'] merge on one key; null keys match each other. *)
Definition merge_left {A B} (key_l : A -> option Z) (key_r : B -> option Z)
           (left : list A) (right : list B) : list (A * option B) :=
  flat_map
    (fun a =>
       match List.filter (fun b => bool_decide (key_r b = key_l a)) right with
       | [] => [(a, None)]
       | matches => map (fun b => (a, Some b)) matches
       end) left.

(** [df[mask]] with a boolean Series whose index is [0 .. length mask - 1]:
    the mask is re-indexed to the labels of [df]; a label it does not have
    is an error. *)
Definition boolean_index {A} (df : list (nat * A)) (mask : list bool)
  : result PyExn (list (nat * A)) :=
  if forallb (fun row => (fst row <? length mask)%nat) df
  then Ok (List.filter (fun row => default false (mask !! fst row)) df)
  else Raise (IndexingError "Unalignable boolean Series provided as indexer").

(** *** Raw cells as read from the CSV files *)

Inductive DateCell :=
| DNull
| DStr (s : string)
| DTime (t : Z).

Inductive ValueCell :=
| VNull
| VNum (q : Q)
| VStr (s : string).

Record Session := mkSession {
  session_id : option Z;
  user_id : option Z;
  session_date : DateCell;
  traffic_source : option string;
  device_type : option string;
  session_duration_clean : cell }.

Record RawOrder := mkRawOrder {
  raw_order_id : option Z;
  raw_session_id : option Z;
  raw_order_date : DateCell;
  raw_order_value : ValueCell }.

(** A row of the orders frame with its index label. *)
Record Order := mkOrder {
  order_label : nat;
  order_id : option Z;
  order_session_id : option Z;
  order_date : timestamp;
  order_value : cell;
  order_value_log : cell;
  high_value_order : Z }.

Record RawRefund := mkRawRefund {
  raw_refund_id : option Z;
  raw_refund_order_id : option Z;
  raw_refund_date : DateCell;
  raw_reason : option string }.

Record Refund := mkRefund {
  refund_id : option Z;
  refund_order_id : option Z;
  refund_date : timestamp;
  reason : option string;
  refund_order_date : timestamp;
  days_to_refund : option Z }.

Record Master := mkMaster {
  m_traffic_source : option string;
  m_device_type : option string;
  m_product_category : option string;
  m_session_duration_clean : cell;
  orders_in_session : cell;
  total_order_value : cell;
  avg_order_value : cell;
  converted : bool;
  conversion_flag : Z;
  was_refunded : cell;
  is_returning_customer : cell }.

(** [self.cleaning_report]. *)
Record Cleaner := mkCleaner { cleaning_report : gmap string Z }.

Definition report_set (self : Cleaner) (key : string) (v : Z) : Cleaner :=
  mkCleaner (<[key := v]> (cleaning_report self)).

Definition ns_per_day : Z := 86400000000000.

Section BearCartDataCleaner.
(** Library functions the cleaner calls: the date and number parsers
    behind [pd.to_datetime] and [pd.to_numeric], [np.log1p] and
    [Series.quantile]. *)
Variable parse_datetime : string -> option Z.
Variable parse_number : string -> option Q.
Variable log1p : Q -> cell.
Variable quantile : list cell -> Q -> cell.

(** [pd.to_datetime(col, errors='coerce')] on one cell. *)
Definition to_datetime_coerce (c : DateCell) : timestamp :=
  match c with
  | DNull => None
  | DStr s => parse_datetime s
  | DTime t => Some t
  end.

(** [pd.to_datetime(col)] on one cell: an unparseable string raises. *)
Definition to_datetime (c : DateCell) : result PyExn timestamp :=
  match c with
  | DNull => Ok None
  | DStr s =>
      match parse_datetime s with
      | Some t => Ok (Some t)
      | None => Raise (ValueError ("Unknown datetime string format: " +:+ s))
      end
  | DTime t => Ok (Some t)
  end.

(** [pd.to_numeric(col, errors='coerce')] on one cell. *)
Definition to_numeric_coerce (c : ValueCell) : cell :=
  match c with
  | VNull => None
  | VNum q => Some q
  | VStr s => parse_number s
  end.

(** The orders frame between the date fix and the value fix. *)
Record DatedOrder := mkDated {
  d_id : option Z;
  d_session_id : option Z;
  d_date : timestamp;
  d_value : ValueCell }.

Definition clean_orders (self : Cleaner)
           (df_orders : list RawOrder) (df_sessions : list Session)
  : result PyExn (list Order * Cleaner) :=
  (* Remove orders with null IDs; the rows keep their index labels *)
  let labelled := imap (fun i o => (i, o)) df_orders in
  let kept :=
    List.filter (fun row => bool_decide (is_Some (raw_order_id (snd row))))
                labelled in
  (* Fix dates *)
  let df_orders1 :=
    map (fun row =>
           (fst row,
            mkDated (raw_order_id (snd row)) (raw_session_id (snd row))
                    (to_datetime_coerce (raw_order_date (snd row)))
                    (raw_order_value (snd row)))) kept in
  session_dates ← mapM (fun s => to_datetime (session_date s)) df_sessions;
  let sessions := zip (map session_id df_sessions) session_dates in
  (* Validate order_date >= session_date (merge required) *)
  let df_merged :=
    merge_left (fun row => d_session_id (snd row)) fst df_orders1 sessions in
  let invalid_mask :=
    map (fun lr =>
           ts_lt (d_date (snd (fst lr)))
                 (match snd lr with Some s => snd s | None => None end))
        df_merged in
  let invalid_dates := count_true invalid_mask in
  df_orders2 ← boolean_index df_orders1 (map negb invalid_mask);
  (* Clean order_value *)
  let df_orders3 :=
    map (fun row => (row, to_numeric_coerce (d_value (snd row)))) df_orders2 in
  let negative_orders :=
    count_true (map (fun rv => cell_lt (snd rv) 0) df_orders3) in
  let df_orders4 := List.filter (fun rv => cell_gt (snd rv) 0) df_orders3 in
  (* Create order value features *)
  let q75 := quantile (map snd df_orders4) (3 # 4) in
  let out :=
    map (fun rv =>
           let row := fst rv in
           mkOrder (fst row) (d_id (snd row)) (d_session_id (snd row))
                   (d_date (snd row)) (snd rv)
                   (match snd rv with Some v => log1p v | None => None end)
                   (if cell_gt_cell (snd rv) q75 then 1 else 0)%Z)
        df_orders4 in
  mret (out, report_set self "orders_removed" (invalid_dates + negative_orders)%Z).

Definition clean_refunds (self : Cleaner)
           (df_refunds : list RawRefund) (df_orders : list Order)
  : result PyExn (list Refund * Cleaner) :=
  (* Validate refund_date >= order_date *)
  refund_dates ← mapM (fun r => to_datetime (raw_refund_date r)) df_refunds;
  let df_refunds1 := zip df_refunds refund_dates in
  let merged :=
    map (fun lr =>
           let r := fst (fst lr) in
           mkRefund (raw_refund_id r) (raw_refund_order_id r) (snd (fst lr))
                    (raw_reason r)
                    (match snd lr with Some o => order_date o | None => None end)
                    None)
        (merge_left (fun rd => raw_refund_order_id (fst rd)) order_id
                    df_refunds1 df_orders) in
  let invalid_refunds :=
    count_true (map (fun r => ts_lt (refund_date r) (refund_order_date r)) merged) in
  let valid :=
    List.filter (fun r => ts_ge (refund_date r) (refund_order_date r)) merged in
  (* Calculate days to refund *)
  let out :=
    map (fun r =>
           mkRefund (refund_id r) (refund_order_id r) (refund_date r) (reason r)
                    (refund_order_date r)
                    (match refund_date r, refund_order_date r with
                     | Some rd, Some od => Some ((rd - od) / ns_per_day)%Z
                     | _, _ => None
                     end)) valid in
  mret (out, report_set self "refunds_removed" invalid_refunds).
End BearCartDataCleaner.

(** *** BearCartMetrics *)

Record TrafficMetrics := mkTraffic {
  total_sessions : pynum;
  unique_users : nat;
  avg_session_duration : pynum;
  bounce_rate : pynum;
  sessions_by_channel : gmap string nat;
  sessions_by_device : gmap string nat }.

Definition nunique (col : list (option Z)) : nat :=
  size (list_to_set (omap id col) : gset Z).

Definition traffic_metrics (df_sessions : list Session)
  : result PyExn TrafficMetrics :=
  bounce_rate ←
    truediv (NpInt (count_true
               (map (fun s => cell_lt (session_duration_clean s) 5) df_sessions)))
            (PyInt (py_len df_sessions));
  mret (mkTraffic
          (PyInt (py_len df_sessions))
          (nunique (map user_id df_sessions))
          (NpFloat (mean (map session_duration_clean df_sessions)))
          bounce_rate
          (value_counts (map traffic_source df_sessions))
          (value_counts (map device_type df_sessions))).

Record ConversionMetrics := mkConversion {
  overall_conversion_rate : pynum;
  total_conversions : Z;
  conversion_by_channel : gmap string (Z * nat);
  conversion_by_device : gmap string (Z * nat);
  avg_time_to_conversion : pynum }.

(** [groupby(key)['conversion_flag'].agg(['sum', 'count'])]. *)
Definition sum_count (key : Master -> option string) (df : list Master)
  : gmap string (Z * nat) :=
  (fun rows => (sum_int (map conversion_flag rows), length rows))
    <$> groupby key df.

Definition conversion_metrics (df_master : list Master)
  : result PyExn ConversionMetrics :=
  let total_sessions := PyInt (py_len df_master) in
  let converted_sum := sum_int (map conversion_flag df_master) in
  rate ← truediv (NpInt converted_sum) total_sessions;
  mret (mkConversion
          rate
          converted_sum
          (sum_count m_traffic_source df_master)
          (sum_count m_device_type df_master)
          (NpFloat (mean (map m_session_duration_clean
                              (List.filter converted df_master))))).

Record QualityMetrics := mkQuality {
  overall_refund_rate : pynum;
  repeat_customer_rate : pynum;
  refund_rate_by_category : gmap string npfloat;
  at_risk_segments : gmap (string * string) nat }.

(** A row of [df[['traffic_source', 'device_type']]]; [value_counts]
    drops the rows where either is null. *)
Definition segment (r : Master) : option (string * string) :=
  match m_traffic_source r, m_device_type r with
  | Some source, Some device => Some (source, device)
  | _, _ => None
  end.

Definition total_orders (df_master : list Master) : Q :=
  sum_float (map orders_in_session df_master).

Definition refunded_orders (df_master : list Master) : Q :=
  sum_float (map was_refunded df_master).

Definition quality_metrics (df_master : list Master)
  : result PyExn QualityMetrics :=
  let total := NpFloat (Fin (total_orders df_master)) in
  let refunded := NpFloat (Fin (refunded_orders df_master)) in
  refund_rate ←
    (if gt_zero total then truediv refunded total else mret (PyInt 0));
  repeat_rate ←
    truediv (NpInt (count_true
               (map (fun r => cell_eq (is_returning_customer r) 1) df_master)))
            (PyInt (py_len df_master));
  mret (mkQuality
          refund_rate
          repeat_rate
          ((fun rows => mean (map was_refunded rows))
             <$> groupby m_product_category df_master)
          (value_counts
             (map segment
                  (List.filter (fun r => cell_eq (was_refunded r) 1) df_master)))).

End Pandas.

(** ** The specification's wording, for comparison with the code *)

Module Spec.
Import JS Dashboard.
Local Open Scope float_scope.

(** "Percentages are computed as ratio x 100, rounded to a fixed decimal
    precision for display." *)
Definition percentage_display (NumberToString : float -> string)
           (ratio : float) (digits : nat) : string :=
  toFixed NumberToString (ratio * 100) digits.

(** A ratio "bounded in [0, 1]", for a JavaScript number. *)
Definition in_unit_interval (x : float) : Prop :=
  (0 <=? x) = true /\ (x <=? 1) = true.

(** "Stage values are non-increasing along the stage sequence." *)
Definition non_increasing (values : list float) : Prop :=
  forall (i : nat) (earlier later : float),
    values !! i = Some earlier ->
    values !! S i = Some later ->
    (later <=? earlier) = true.

(** The shape both funnel breakdowns give to a line: the share of the
    first stage and, below the first line, the drop from the previous
    stage, each a ratio times 100 with one decimal. *)
Definition line_as_specified NumberToString (fd : list FunnelRow)
           (idx : nat) (stage : FunnelRow) (line : StageLine) : Prop :=
  (forall first, fd !! 0%nat = Some first ->
     line_percentage line =
       percentage_display NumberToString
         (funnel_value stage / funnel_value first) 1) /\
  (idx = 0%nat -> line_dropoff line = None) /\
  (forall prev, (0 < idx)%nat -> fd !! (idx - 1)%nat = Some prev ->
     line_dropoff line =
       Some (percentage_display NumberToString
               ((funnel_value prev - funnel_value stage) / funnel_value prev) 1)).

(** The figures the generated data puts on the screen. *)
Definition displayed_lines : list StageLine :=
  [ mkStageLine "Sessions" "100.0" None;
    mkStageLine "Product View" "72.0" (Some "28.0");
    mkStageLine "Add to Cart" "18.0" (Some "75.0");
    mkStageLine "Checkout" "5.4" (Some "70.0");
    mkStageLine "Purchase" "2.7" (Some "50.0") ].

(** The KPI values of a render, without the two filtered lists. *)
Definition kpis (r : Derived)
  : float * float * string * float * string * string * float * string :=
  (totalRevenue r, totalOrders r, avgConversion r, totalSessions r,
   conversionRate r, avgOrderValue r, totalRefunds r, refundRate r).

Definition kpis_of (res : result Error Derived) :=
  match res with
  | Ok r => Ok (kpis r)
  | Raise e => Raise e
  end.

(** [channelData.filter(item => item.name === selectedChannel)] when a
    channel is selected, the whole list otherwise. *)
Definition channels_shown (d : Datasets) (selected : option string)
  : list ChannelRow :=
  match truthy selected with
  | Some sel => filter (fun item => channel_name item = sel) (channelData d)
  | None => channelData d
  end.

Definition categories_shown (d : Datasets) (selected : option string)
  : list CategoryRow :=
  match truthy selected with
  | Some sel =>
      filter (fun item => category_name item = sel) (categoryPerformance d)
  | None => categoryPerformance d
  end.

(** *** Sample traffic for the API client *)

Definition log_label : string := "Failed to fetch dashboard data:".

(** A 500 answer whose body carries a [detail] message. *)
Definition server_error : Api.Response :=
  Api.mkResponse false 500 (Ok "{detail: Database down}")
                 (Ok (Api.JObj [("detail", Api.JStr "Database down")])).

(** A 503 answer whose body cannot be read (the connection drops). *)
Definition body_read_fails : Api.Response :=
  Api.mkResponse false 503 (Raise (TypeError "Failed to fetch"))
                 (Raise (TypeError "Failed to fetch")).

Definition always (response : Api.Response)
  : nat -> string -> result Error Api.Response :=
  fun _ _ => Ok response.

Definition parse_detail (body : string) : result Error Api.JsVal :=
  Ok (Api.JObj [("detail", Api.JStr "Database down")]).

Definition show (v : Api.JsVal) : string :=
  match v with
  | Api.JStr s => s
  | _ => "[object Object]"
  end.

(** *** The pandas side *)

(** "A defined sentinel (0 or not-a-number)". *)
Definition is_sentinel (v : Pandas.pynum) : Prop :=
  v = Pandas.PyInt 0 \/ v = Pandas.NpFloat Pandas.NaN.

(** A rate "bounded in [0, 1]", for a Python number. *)
Definition rate_in_unit_interval (v : Pandas.pynum) : Prop :=
  match v with
  | Pandas.PyInt z | Pandas.NpInt z => (0 <= z <= 1)%Z
  | Pandas.PyFloat (Pandas.Fin q) | Pandas.NpFloat (Pandas.Fin q) =>
      (0 <= q)%Q /\ (q <= 1)%Q
  | _ => False
  end.

(** The number of non-null cells of a column. *)
Definition non_null {A} (col : list (option A)) : nat :=
  length (List.filter (fun c => match c with Some _ => true | None => false end)
                      col).

(** A raw date cell [pd.to_datetime] accepts. *)
Definition date_parses (parse_datetime : string -> option Z)
           (c : Pandas.DateCell) : Prop :=
  match c with
  | Pandas.DStr s => is_Some (parse_datetime s)
  | _ => True
  end.

(** *** Sample tables *)

Definition no_dates (s : string) : option Z := None.
Definition no_numbers (s : string) : option Q := None.
Definition no_log (q : Q) : Pandas.cell := None.
Definition no_quantile (col : list Pandas.cell) (q : Q) : Pandas.cell := None.

Definition new_cleaner : Pandas.Cleaner := Pandas.mkCleaner ∅.

(** One session without a device type. *)
Definition sessions_missing_device : list Pandas.Session :=
  [ Pandas.mkSession (Some 1%Z) (Some 7%Z) (Pandas.DTime 0)
                     (Some "Direct") None (Some 30%Q) ].

Definition sample_sessions : list Pandas.Session :=
  [ Pandas.mkSession (Some 1%Z) (Some 7%Z) (Pandas.DTime 0)
                     (Some "Organic") (Some "Mobile") (Some 30%Q);
    Pandas.mkSession (Some 2%Z) (Some 8%Z) (Pandas.DTime 5)
                     (Some "Direct") (Some "Desktop") (Some 3%Q) ].

(** Five orders of session 1: a positive value, a zero value, a value
    that is not a number, a negative value and a missing value. *)
Definition sample_orders : list Pandas.RawOrder :=
  [ Pandas.mkRawOrder (Some 1%Z) (Some 1%Z) (Pandas.DTime 10) (Pandas.VNum 10);
    Pandas.mkRawOrder (Some 2%Z) (Some 1%Z) (Pandas.DTime 10) (Pandas.VNum 0);
    Pandas.mkRawOrder (Some 3%Z) (Some 1%Z) (Pandas.DTime 10) (Pandas.VStr "abc");
    Pandas.mkRawOrder (Some 4%Z) (Some 1%Z) (Pandas.DTime 10) (Pandas.VNum (-5));
    Pandas.mkRawOrder (Some 5%Z) (Some 1%Z) (Pandas.DTime 10) Pandas.VNull ].

Definition cleaned_orders : list Pandas.Order :=
  [ Pandas.mkOrder 0 (Some 1%Z) (Some 1%Z) (Some 10%Z) (Some 10%Q) None 0 ].

(** Refunds of order 1 (placed at time 10): one two days later, one dated
    before the order, one without a date, and one of an unknown order. *)
Definition sample_refunds : list Pandas.RawRefund :=
  [ Pandas.mkRawRefund (Some 1%Z) (Some 1%Z)
                       (Pandas.DTime (10 + 2 * Pandas.ns_per_day)) (Some "Damaged");
    Pandas.mkRawRefund (Some 2%Z) (Some 1%Z) (Pandas.DTime 4) (Some "Defective");
    Pandas.mkRawRefund (Some 3%Z) (Some 1%Z) Pandas.DNull None;
    Pandas.mkRawRefund (Some 4%Z) (Some 9%Z) (Pandas.DTime 50) (Some "Wrong Size") ].

Definition cleaned_refunds : list Pandas.Refund :=
  [ Pandas.mkRefund (Some 1%Z) (Some 1%Z) (Some (10 + 2 * Pandas.ns_per_day)%Z)
                    (Some "Damaged") (Some 10%Z) (Some 2%Z) ].

(** A master table of two sessions: one with two orders, one of them
    refunded; one that did not convert. *)
Definition sample_master : list Pandas.Master :=
  [ Pandas.mkMaster (Some "Organic") (Some "Mobile") (Some "Apparel") (Some 30%Q)
                    (Some 2%Q) (Some 50%Q) (Some 25%Q) true 1 (Some 1%Q) (Some 1%Q);
    Pandas.mkMaster (Some "Direct") (Some "Desktop") None (Some 3%Q)
                    None None None false 0 (Some 0%Q) (Some 0%Q) ].

End Spec.

(** ** The rest of the cleaning pipeline: sessions and the master table *)

Module Pipeline.
Import Pandas.

(** A row of sessions.csv.  [product_category] and [is_returning_customer]
    are columns the metrics read from the master table; the cleaner passes
    them through. *)
Record RawSession := mkRawSession {
  rs_session_id : option Z;
  rs_user_id : option Z;
  rs_session_date : DateCell;
  rs_traffic_source : option string;
  rs_device_type : option string;
  rs_session_duration : ValueCell;
  rs_product_category : option string;
  rs_is_returning_customer : cell }.

Record CleanSession := mkCleanSession {
  cs_session_id : option Z;
  cs_user_id : option Z;
  cs_session_date : timestamp;
  cs_traffic_source : option string;
  cs_device_type : option string;
  cs_session_duration : cell;
  cs_session_duration_clean : cell;
  cs_product_category : option string;
  cs_is_returning_customer : cell }.

(** [df.duplicated(subset=[key])] with keep='first': a key seen before
    marks the row; null keys count as equal to each other. *)
Fixpoint duplicated (seen keys : list (option Z)) : list bool :=
  match keys with
  | [] => []
  | k :: rest => bool_decide (k ∈ seen) :: duplicated (k :: seen) rest
  end.

(** [df.drop_duplicates(subset=[key])]: the rows [duplicated] does not mark. *)
Definition drop_duplicates {A} (key : A -> option Z) (df : list A) : list A :=
  map fst (List.filter (fun rm => negb (snd rm))
                       (zip df (duplicated [] (map key df)))).

(** [Series.clip(upper=u)]: a missing value stays missing and a missing
    threshold clips nothing. *)
Definition clip_upper (c u : cell) : cell :=
  match c, u with
  | Some x, Some q => Some (if Qle_bool x q then x else q)
  | _, _ => c
  end.

(** The bot rule: shorter than a second or longer than eight hours. *)
Definition is_bot (duration : cell) : bool :=
  cell_lt duration 1 || cell_gt duration 28800.

Section BearCartDataCleaner.
Variable parse_datetime : string -> option Z.
Variable parse_number : string -> option Q.
Variable quantile : list cell -> Q -> cell.

Definition clean_sessions (self : Cleaner) (df_sessions : list RawSession)
  : list CleanSession * Cleaner :=
  (* Remove duplicates *)
  let duplicates :=
    count_true (duplicated [] (map rs_session_id df_sessions)) in
  let df1 := drop_duplicates rs_session_id df_sessions in
  (* Fix date columns, handle traffic source nulls, parse the duration *)
  let df2 :=
    map (fun r =>
           mkCleanSession
             (rs_session_id r) (rs_user_id r)
             (to_datetime_coerce parse_datetime (rs_session_date r))
             (Some (default "Direct" (rs_traffic_source r)))
             (rs_device_type r)
             (to_numeric_coerce parse_number (rs_session_duration r))
             None
             (rs_product_category r) (rs_is_returning_customer r)) df1 in
  (* Remove bot traffic (< 1 second or > 8 hours) *)
  let bot_mask := map (fun s => is_bot (cs_session_duration s)) df2 in
  let bots_removed := count_true bot_mask in
  let df3 := List.filter (fun s => negb (is_bot (cs_session_duration s))) df2 in
  (* Outlier handling for session_duration *)
  let q95 := quantile (map cs_session_duration df3) (95 # 100) in
  let out :=
    map (fun s =>
           mkCleanSession
             (cs_session_id s) (cs_user_id s) (cs_session_date s)
             (cs_traffic_source s) (cs_device_type s) (cs_session_duration s)
             (clip_upper (cs_session_duration s) q95)
             (cs_product_category s) (cs_is_returning_customer s)) df3 in
  (out, report_set self "sessions_removed" (duplicates + bots_removed)%Z).
End BearCartDataCleaner.

(** The columns of a cleaned session that [traffic_metrics] and
    [clean_orders] read. *)
Definition as_session (s : CleanSession) : Session :=
  mkSession (cs_session_id s) (cs_user_id s)
            (match cs_session_date s with Some t => DTime t | None => DNull end)
            (cs_traffic_source s) (cs_device_type s)
            (cs_session_duration_clean s).

(** *** [create_master_dataset] *)

(** [df.groupby(key)] for an integer key: the rows of each non-null key,
    in table order. *)
Definition groupby_id {A} (key : A -> option Z) (df : list A) : gmap Z (list A) :=
  foldr (fun r m =>
           match key r with
           | Some k => <[k := r :: default [] (m !! k)]> m
           | None => m
           end) ∅ df.

(** A row of [df_order_agg]. *)
Record OrderAgg := mkOrderAgg {
  agg_orders_in_session : nat;
  agg_total_order_value : Q;
  agg_avg_order_value : cell;
  agg_first_order_date : timestamp }.

Definition npfloat_cell (x : npfloat) : cell :=
  match x with
  | Fin q => Some q
  | _ => None
  end.

(** ['order_id': 'count'], ['order_value': ['sum', 'mean']],
    ['order_date': 'first'] over one group. *)
Definition aggregate_orders (rows : list Order) : OrderAgg :=
  mkOrderAgg
    (length (omap order_id rows))
    (sum_float (map order_value rows))
    (npfloat_cell (mean (map order_value rows)))
    (head (omap order_date rows)).

(** [Series.max] of a group: the largest value, NaN for no values. *)
Definition series_max (values : list Q) : cell :=
  match values with
  | [] => None
  | v :: rest =>
      Some (fold_left (fun acc x => if Qle_bool x acc then acc else x) rest v)
  end.

Record MasterRow := mkMasterRow {
  mr_session : CleanSession;
  mr_orders_in_session : cell;
  mr_total_order_value : cell;
  mr_avg_order_value : cell;
  mr_first_order_date : timestamp;
  mr_converted : bool;
  mr_conversion_flag : Z;
  mr_was_refunded : cell }.

Definition create_master_dataset
           (df_sessions : list CleanSession) (df_orders : list Order)
           (df_refunds : list Refund) : list MasterRow :=
  (* Sessions -> Orders join *)
  let df_order_agg : list (Z * OrderAgg) :=
    map_to_list (aggregate_orders <$> groupby_id order_session_id df_orders) in
  let df_master :=
    merge_left cs_session_id (fun kv : Z * OrderAgg => Some (fst kv))
               df_sessions df_order_agg in
  (* Refunds join *)
  let df_refund_flag : list (Z * Q) :=
    map_to_list ((fun _ : list Refund => 1%Q)
                   <$> groupby_id refund_order_id df_refunds) in
  let df_orders_refund : list (Order * Q) :=
    map (fun row => (fst row, default 0%Q (snd <$> snd row)))
        (merge_left order_id (fun kv : Z * Q => Some (fst kv))
                    df_orders df_refund_flag) in
  let df_refund_agg : list (Z * cell) :=
    map_to_list ((fun rows : list (Order * Q) => series_max (map snd rows))
                   <$> groupby_id (fun row => order_session_id (fst row))
                                  df_orders_refund) in
  map (fun row =>
         let s := fst (fst row) in
         let agg := snd (fst row) in
         let orders_in_session :=
           (fun kv => inject_Z (Z.of_nat (agg_orders_in_session (snd kv)))) <$> agg in
         let converted :=
           Qlt_bool 0 (default 0%Q orders_in_session) in
         mkMasterRow
           s
           orders_in_session
           ((fun kv => agg_total_order_value (snd kv)) <$> agg)
           (agg ≫= fun kv => agg_avg_order_value (snd kv))
           (agg ≫= fun kv => agg_first_order_date (snd kv))
           converted
           (if converted then 1 else 0)%Z
           (Some (default 0%Q (snd row ≫= snd))))
      (merge_left (fun sa => cs_session_id (fst sa))
                  (fun kv : Z * cell => Some (fst kv))
                  df_master df_refund_agg).

(** The columns of the master table the metrics read. *)
Definition as_master (r : MasterRow) : Master :=
  mkMaster (cs_traffic_source (mr_session r)) (cs_device_type (mr_session r))
           (cs_product_category (mr_session r))
           (cs_session_duration_clean (mr_session r))
           (mr_orders_in_session r) (mr_total_order_value r)
           (mr_avg_order_value r) (mr_converted r) (mr_conversion_flag r)
           (mr_was_refunded r) (cs_is_returning_customer (mr_session r)).

End Pipeline.

(** *** Sample tables for the pipeline *)

Module PipelineSamples.
Import Pandas Pipeline Spec.

(** Session 1 twice, a half-second visit, a visit without a source and
    without a readable duration, and a long visit. *)
Definition raw_sessions : list RawSession :=
  [ mkRawSession (Some 1%Z) (Some 7%Z) (DTime 0) (Some "Organic") (Some "Mobile")
                 (VNum 30) (Some "Apparel") (Some 1%Q);
    mkRawSession (Some 1%Z) (Some 7%Z) (DTime 0) (Some "Organic") (Some "Mobile")
                 (VNum 30) (Some "Apparel") (Some 1%Q);
    mkRawSession (Some 2%Z) (Some 8%Z) (DTime 5) (Some "Paid Ads") (Some "Desktop")
                 (VNum (1 # 2)) None (Some 0%Q);
    mkRawSession (Some 3%Z) (Some 9%Z) (DStr "yesterday") None None
                 (VStr "n/a") None None;
    mkRawSession (Some 4%Z) (Some 7%Z) (DTime 9) (Some "Direct") (Some "Tablet")
                 (VNum 900) (Some "Furniture") (Some 0%Q) ].

(** A quantile that answers 600 whatever the column. *)
Definition q600 (col : list cell) (q : Q) : cell := Some 600%Q.

Definition clean_sample : list CleanSession :=
  [ mkCleanSession (Some 1%Z) (Some 7%Z) (Some 0%Z) (Some "Organic") (Some "Mobile")
                   (Some 30%Q) (Some 30%Q) (Some "Apparel") (Some 1%Q);
    mkCleanSession (Some 3%Z) (Some 9%Z) None (Some "Direct") None
                   None None None None;
    mkCleanSession (Some 4%Z) (Some 7%Z) (Some 9%Z) (Some "Direct") (Some "Tablet")
                   (Some 900%Q) (Some 600%Q) (Some "Furniture") (Some 0%Q) ].

Definition direct_row : CleanSession :=
  mkCleanSession (Some 3%Z) (Some 9%Z) None (Some "Direct") None
                 None None None None.

Definition clipped_row : CleanSession :=
  mkCleanSession (Some 4%Z) (Some 7%Z) (Some 9%Z) (Some "Direct") (Some "Tablet")
                 (Some 900%Q) (Some 600%Q) (Some "Furniture") (Some 0%Q).

(** Two orders of session 1 and one of session 4; order 1 was refunded. *)
Definition orders_sample : list Order :=
  [ mkOrder 0 (Some 1%Z) (Some 1%Z) (Some 10%Z) (Some 10%Q) None 0;
    mkOrder 1 (Some 2%Z) (Some 1%Z) (Some 12%Z) (Some 40%Q) None 1;
    mkOrder 2 (Some 3%Z) (Some 4%Z) (Some 20%Z) (Some 5%Q) None 0 ].

(** The master row of session 1 over the samples: two orders, one refunded. *)
Definition refunded_row : MasterRow :=
  mkMasterRow
    (mkCleanSession (Some 1%Z) (Some 7%Z) (Some 0%Z) (Some "Organic") (Some "Mobile")
                    (Some 30%Q) (Some 30%Q) (Some "Apparel") (Some 1%Q))
    (Some 2%Q) (Some 50%Q) (Some (50 # 2)) (Some 10%Z) true 1 (Some 1%Q).

(** An order without an id ahead of a good one. *)
Definition orders_with_null_id : list RawOrder :=
  [ mkRawOrder None (Some 1%Z) (DTime 10) (VNum 5);
    mkRawOrder (Some 2%Z) (Some 1%Z) (DTime 10) (VNum 7) ].

(** Session 1 listed twice, and two of its orders: one placed after the
    session started (time 100), one dated before it. *)
Definition sessions_listed_twice : list Session :=
  [ mkSession (Some 1%Z) (Some 7%Z) (DTime 100) (Some "Direct") None (Some 30%Q);
    mkSession (Some 1%Z) (Some 7%Z) (DTime 100) (Some "Direct") None (Some 30%Q) ].

Definition orders_late_and_early : list RawOrder :=
  [ mkRawOrder (Some 1%Z) (Some 1%Z) (DTime 200) (VNum 10);
    mkRawOrder (Some 2%Z) (Some 1%Z) (DTime 50) (VNum 20) ].

(** Order 1 listed twice, and one refund of it. *)
Definition orders_listed_twice : list Order :=
  [ mkOrder 0 (Some 1%Z) (Some 1%Z) (Some 10%Z) (Some 10%Q) None 0;
    mkOrder 1 (Some 1%Z) (Some 1%Z) (Some 10%Z) (Some 10%Q) None 0 ].

Definition one_refund : list RawRefund :=
  [ mkRawRefund (Some 1%Z) (Some 1%Z) (DTime 20) (Some "Damaged") ].

(** A session of three seconds that still placed an order. *)
Definition quick_buyer : list Master :=
  [ mkMaster (Some "Direct") (Some "Mobile") None (Some 3%Q)
             (Some 1%Q) (Some 20%Q) (Some 20%Q) true 1 (Some 0%Q) (Some 0%Q) ].

End PipelineSamples.

(** *** The master table, said row by row *)

Module PipelineSpec.
Import Pandas Pipeline.

(** The orders placed in a session. *)
Definition session_orders (df_orders : list Order) (s : CleanSession) : list Order :=
  match cs_session_id s with
  | Some k =>
      List.filter (fun o => bool_decide (order_session_id o = Some k)) df_orders
  | None => []
  end.

(** An order with an id that some refund names. *)
Definition has_refund (df_refunds : list Refund) (o : Order) : bool :=
  match order_id o with
  | Some oid =>
      existsb (fun r => bool_decide (refund_order_id r = Some oid)) df_refunds
  | None => false
  end.

Definition refund_flag (df_refunds : list Refund) (o : Order) : Q :=
  if has_refund df_refunds o then 1%Q else 0%Q.

(** The master row of one session: the aggregates of its orders, or the
    fill values when it has none. *)
Definition master_row (df_orders : list Order) (df_refunds : list Refund)
           (s : CleanSession) : MasterRow :=
  match session_orders df_orders s with
  | [] => mkMasterRow s None None None None false 0 (Some 0%Q)
  | rows =>
      let n := inject_Z (Z.of_nat (length (omap order_id rows))) in
      mkMasterRow s
        (Some n)
        (Some (sum_float (map order_value rows)))
        (npfloat_cell (mean (map order_value rows)))
        (head (omap order_date rows))
        (Qlt_bool 0 n)
        (if Qlt_bool 0 n then 1 else 0)%Z
        (Some (default 0%Q (series_max (map (refund_flag df_refunds) rows))))
  end.

End PipelineSpec.

(** ** The funnel of [prepare_dashboard_data] *)

Module DataExport.
Import Pandas.

(** The ['funnel']['values'] entry of the exported dictionary, under the
    stages Sessions, Browsed, Added to Cart, Purchased. *)
Definition funnel_stages : list string :=
  ["Sessions"; "Browsed"; "Added to Cart"; "Purchased"].

Definition funnel_values (df_master : list Master) : list Z :=
  [ py_len df_master;
    py_len (List.filter (fun r => cell_gt (m_session_duration_clean r) 5) df_master);
    py_len (List.filter (fun r => bool_decide (is_Some (total_order_value r)))
                        df_master);
    sum_int (map conversion_flag df_master) ].

End DataExport.

(** ** Navigation and the channel selector of the dashboard *)

Module Ui.
Import Dashboard.

(** The sidebar entries (lines 433-440) and the tab panels
    ([activeTab === "..." && ...]). *)
Definition navItems : list string :=
  ["Overview"; "Channels"; "Products"; "Funnel"; "Reports"; "Settings"].

Definition tabPanels : list string :=
  ["Overview"; "Channels"; "Products"; "Funnel"; "Reports"; "Settings"].

(** [onClick] of a sidebar entry. *)
Definition navClick (id : string) (st : UiState) : UiState :=
  dispatch (dispatch st (setActiveTab id)) (setMobileOpen false).

(** [active={activeTab === item.id}]. *)
Definition navActive (st : UiState) (id : string) : bool :=
  String.eqb (activeTab st) id.

(** The panels whose condition holds. *)
Definition visiblePanels (st : UiState) : list string :=
  List.filter (fun id => String.eqb (activeTab st) id) tabPanels.

(** The "All Channels" button: highlighted when [!selectedChannel]. *)
Definition allChannelsHighlighted (st : UiState) : bool :=
  match truthy (selectedChannel st) with
  | Some _ => false
  | None => true
  end.

(** A channel button: highlighted when [selectedChannel === channel.name]. *)
Definition channelHighlighted (st : UiState) (channel : ChannelRow) : bool :=
  match selectedChannel st with
  | Some sel => String.eqb sel (channel_name channel)
  | None => false
  end.

Definition clickAllChannels (st : UiState) : UiState :=
  dispatch st (setSelectedChannel None).

Definition clickChannel (channel : ChannelRow) (st : UiState) : UiState :=
  dispatch st (setSelectedChannel (Some (channel_name channel))).

End Ui.

(** *** A good answer of the server *)

Module ApiSamples.
Import JS Api.

Definition dashboard_body : JsVal :=
  JObj [("traffic", JNull); ("conversion", JNull); ("revenue", JNull);
        ("quality", JNull); ("products", JArr [])].

Definition ok_response : Response :=
  mkResponse true 200 (Ok "{...}") (Ok dashboard_body).

End ApiSamples.

(** ** The percentages the dashboard shows as written *)

Module Literals.
Import JS Dashboard.
Local Open Scope float_scope.

(** The array of the "Optimization Opportunities" card on the Funnel tab
    (lines 1091-1095). *)
Record Opportunity := mkOpportunity {
  opp_step : string;
  opp_dropoff : float;
  opp_impact : string }.

Definition opportunities : list Opportunity :=
  [ mkOpportunity "Product Page" 28.6 "High";
    mkOpportunity "Add to Cart" 74.1 "Critical";
    mkOpportunity "Checkout" 50.0 "High" ].

Section Text.
(** A number placed in JSX is shown as [String(n)]. *)
Variable NumberToString : float -> string.

(** Line 1112: [{opp.dropoff}% users drop off]. *)
Definition opportunityText (opp : Opportunity) : string :=
  NumberToString (opp_dropoff opp) +:+ "% users drop off".
End Text.

End Literals.

(** ** The refund rate of [quality_metrics], column by column *)

Module RefundRate.
Import Pandas Pipeline.

(** The total of a float column; a null adds nothing. *)
Definition column_total (col : list cell) : Q :=
  fold_left (fun acc c => (acc + default 0 c)%Q) col 0%Q.

(** The orders of the master table: orders_in_session added up. *)
Definition orders_counted (df_master : list Master) : Q :=
  column_total (map orders_in_session df_master).

Definition refund_flags_total (df_master : list Master) : Q :=
  column_total (map was_refunded df_master).

(** was_refunded as [create_master_dataset] fills it: 0 or 1. *)
Definition is_flag (c : cell) : bool := cell_eq c 0 || cell_eq c 1.

(** The sessions flagged as refunded. *)
Definition refunded_sessions (df_master : list Master) : nat :=
  length (List.filter (fun r => cell_eq (was_refunded r) 1) df_master).

(** One session with two orders, each refunded once. *)
Definition one_buyer : list CleanSession :=
  [ mkCleanSession (Some 1%Z) (Some 7%Z) (Some 0%Z) (Some "Organic") (Some "Mobile")
                   (Some 30%Q) (Some 30%Q) (Some "Apparel") (Some 1%Q) ].

Definition both_orders : list Order :=
  [ mkOrder 0 (Some 1%Z) (Some 1%Z) (Some 10%Z) (Some 10%Q) None 0;
    mkOrder 1 (Some 2%Z) (Some 1%Z) (Some 12%Z) (Some 40%Q) None 1 ].

Definition both_refunds : list Refund :=
  [ mkRefund (Some 1%Z) (Some 1%Z) (Some 20%Z) (Some "Damaged") (Some 10%Z) (Some 0%Z);
    mkRefund (Some 2%Z) (Some 2%Z) (Some 30%Z) (Some "Defective") (Some 12%Z) (Some 0%Z) ].

End RefundRate.

(** * Properties of the dashboard *)

Module DashboardProofs.
Import JS Dashboard Spec.
Local Open Scope float_scope.

Lemma index_prop_Ok {A} (arr : list A) (i : Z) (prop : string) (x : A) :
  index_prop arr i prop = Ok x ->
  (0 <= i)%Z /\ arr !! Z.to_nat i = Some x.
Proof.
  unfold index_prop. destruct (0 <=? i)%Z eqn:Hi.
  - destruct (arr !! Z.to_nat i) eqn:Hl; [|discriminate].
    intros [= ->]. split; [lia | reflexivity].
  - discriminate.
Qed.

Lemma rbind_Ok {E A B} (r : result E A) (k : A -> result E B) (b : B) :
  rbind r k = Ok b -> exists a, r = Ok a /\ k a = Ok b.
Proof. destruct r; simpl; [eauto | discriminate]. Qed.

(** What a render that completes has computed, field by field. *)
Lemma derive_Ok NumberToString (d : Datasets) (st : UiState) (r : Derived) :
  derive NumberToString d st = Ok r ->
  exists first last,
    funnelData d !! 0%nat = Some first /\
    funnelData d !! (length (funnelData d) - 1)%nat = Some last /\
    totalOrders r =
      fold_left (fun sum item => sum + channel_orders item) (channelData d) 0 /\
    totalRefunds r =
      fold_left (fun sum item => sum + refund_count item) (refundData d) 0 /\
    totalSessions r = funnel_value first /\
    conversionRate r =
      toFixed NumberToString ((funnel_value last / funnel_value first) * 100) 2 /\
    refundRate r =
      toFixed NumberToString ((totalRefunds r / totalOrders r) * 100) 1.
Proof.
  unfold derive, mbind, result_bind. intros H.
  apply rbind_Ok in H as (first & Hfirst & H).
  apply rbind_Ok in H as (last & Hlast & H).
  apply index_prop_Ok in Hfirst as [_ Hfirst].
  apply index_prop_Ok in Hlast as [Hpos Hlast].
  unfold js_length in *.
  replace (Z.to_nat (Z.of_nat (length (funnelData d)) - 1))
    with (length (funnelData d) - 1)%nat in Hlast by lia.
  injection H as <-. exists first, last. simpl. repeat split; assumption.
Qed.

Lemma generated_render NumberToString (st : UiState) :
  exists r, BearCartDashboard NumberToString st = Ok r /\
            totalRefunds r = 159 /\ totalOrders r = 705 /\
            conversionRate r = "2.70" /\ refundRate r = "22.6".
Proof.
  unfold BearCartDashboard, derive. eexists. split; [reflexivity|].
  repeat split; vm_compute; reflexivity.
Qed.

(** [toFixed] rounds to the nearest multiple of 10^-f, the upper one at a
    tie: with [d = 2^(-e)], the chosen [n] has [n * d] within [d / 2] of
    the exact scaled value [m * 10^f]. *)
Lemma nearest_scaled_is_nearest (m : positive) (e : Z) (f : nat) :
  (e < 0)%Z ->
  let d := (2 ^ (- e))%Z in
  let n := nearest_scaled m e f in
  (- d < 2 * (n * d - Z.pos m * 10 ^ Z.of_nat f) <= d)%Z.
Proof.
  intros He d n. subst n. unfold nearest_scaled.
  destruct (0 <=? e)%Z eqn:Hle; [lia|]. fold d.
  assert (0 < d)%Z as Hd by (apply Z.pow_pos_nonneg; lia).
  set (num := (Z.pos m * 10 ^ Z.of_nat f)%Z).
  pose proof (Z.div_mod (2 * num + d) (2 * d) ltac:(lia)) as Hdiv.
  pose proof (Z.mod_pos_bound (2 * num + d) (2 * d) ltac:(lia)) as Hmod.
  lia.
Qed.

(** 22.553... is shown as 22.6 and 2.7 as 2.70. *)
Example toFixed_samples NumberToString :
  toFixed NumberToString (159 / 705 * 100) 1 = "22.6" /\
  toFixed NumberToString (1215 / 45000 * 100) 2 = "2.70" /\
  toFixed NumberToString (-0.04) 1 = "-0.0" /\
  toFixed NumberToString 0.05 1 = "0.1" /\
  toFixed NumberToString 1.005 2 = "1.00" /\
  toFixed NumberToString (0 / 0) 1 = "NaN".
Proof. repeat split; vm_compute; reflexivity. Qed.

(** C4. The funnel produced by [generateFunnelData] has the stages
    Sessions, Product View, Add to Cart, Checkout, Purchase, and for every
    pair of consecutive stages the later stage's value is less than or
    equal to the earlier stage's value. *)
Theorem funnel_values_non_increasing :
  map funnel_stage generateFunnelData =
    ["Sessions"; "Product View"; "Add to Cart"; "Checkout"; "Purchase"] /\
  non_increasing (map funnel_value generateFunnelData).
Proof.
  split; [reflexivity|].
  intros i earlier later Hi Hs.
  do 5 (destruct i as [|i];
        [vm_compute in Hi, Hs; inversion Hi; inversion Hs; subst;
         vm_compute; reflexivity|]).
  simpl in Hi. discriminate.
Qed.

Lemma map_indexed_lookup {A B} (f : nat -> A -> result Error B)
      (l : list A) (i : nat) (out : list B) :
  map_indexed f i l = Ok out ->
  forall (k : nat) (x : A), l !! k = Some x ->
    exists y, out !! k = Some y /\ f (i + k)%nat x = Ok y.
Proof.
  revert i out. induction l as [|a l IH]; intros i out H k x Hk.
  - destruct k; discriminate.
  - simpl in H. unfold mbind, result_bind in H.
    apply rbind_Ok in H as (y & Hy & H).
    apply rbind_Ok in H as (ys & Hys & H).
    injection H as <-.
    destruct k as [|k]; simpl in Hk.
    + injection Hk as <-. exists y. rewrite Nat.add_0_r. auto.
    + destruct (IH _ _ Hys k x Hk) as (z & Hz & Hf).
      exists z. split; [exact Hz|].
      replace (i + S k)%nat with (S i + k)%nat by lia. exact Hf.
Qed.

Lemma index_prev (fd : list FunnelRow) (idx : nat) (prev : FunnelRow) :
  (0 < idx)%nat -> fd !! (idx - 1)%nat = Some prev ->
  index_prop fd (Z.of_nat idx - 1) "value" = Ok prev.
Proof.
  intros Hpos Hprev. unfold index_prop.
  destruct (0 <=? Z.of_nat idx - 1)%Z eqn:Hle; [|lia].
  replace (Z.to_nat (Z.of_nat idx - 1)) with (idx - 1)%nat by lia.
  rewrite Hprev. reflexivity.
Qed.

Lemma stageAnalysisLine_spec NumberToString fd idx stage line :
  stageAnalysisLine NumberToString fd idx stage = Ok line ->
  line_as_specified NumberToString fd idx stage line.
Proof.
  unfold stageAnalysisLine, line_as_specified, percentage_display,
    mbind, result_bind.
  intros H. apply rbind_Ok in H as (prevValue & Hprev & H).
  apply rbind_Ok in H as (first & Hfirst & H).
  apply index_prop_Ok in Hfirst as [_ Hfirst].
  change (Z.to_nat 0) with 0%nat in Hfirst.
  injection H as <-. simpl. split; [|split].
  - intros first' Hf. congruence.
  - intros ->. reflexivity.
  - intros prev Hpos Hp.
    destruct (0 <? Z.of_nat idx)%Z eqn:Hlt; [|lia].
    rewrite (index_prev fd idx prev Hpos Hp) in Hprev. simpl in Hprev.
    injection Hprev as <-. reflexivity.
Qed.

Lemma overviewFunnelLine_spec NumberToString fd idx stage line :
  overviewFunnelLine NumberToString fd idx stage = Ok line ->
  line_as_specified NumberToString fd idx stage line.
Proof.
  unfold overviewFunnelLine, line_as_specified, percentage_display,
    mbind, result_bind.
  intros H. apply rbind_Ok in H as (first & Hfirst & H).
  apply index_prop_Ok in Hfirst as [_ Hfirst].
  change (Z.to_nat 0) with 0%nat in Hfirst.
  apply rbind_Ok in H as (dropoff & Hdrop & H).
  injection H as <-. simpl. split; [|split].
  - intros first' Hf. congruence.
  - intros ->. simpl in Hdrop. injection Hdrop as <-. reflexivity.
  - intros prev Hpos Hp.
    destruct (0 <? Z.of_nat idx)%Z eqn:Hlt; [|lia].
    rewrite (index_prev fd idx prev Hpos Hp) in Hdrop. simpl in Hdrop.
    injection Hdrop as <-. reflexivity.
Qed.

(** C6, as the code has it. The percentages the dashboard computes --
    the conversion rate, the refund rate and, in the Overview funnel card
    and in the Stage Analysis, each funnel stage's percentage and each
    stage's drop-off from the previous stage -- are the corresponding
    ratio multiplied by 100 and passed through [toFixed] with a fixed
    number of decimals (2 for the conversion rate, 1 for the others).
    The percentages that are literals of the data are not among them. *)
Theorem percentages_are_ratio_times_100 NumberToString
        (d : Datasets) (st : UiState) (r : Derived)
        (overview analysis : list StageLine) :
  derive NumberToString d st = Ok r ->
  overviewFunnel NumberToString (funnelData d) = Ok overview ->
  stageAnalysis NumberToString (funnelData d) = Ok analysis ->
  (exists first last,
      funnelData d !! 0%nat = Some first /\
      funnelData d !! (length (funnelData d) - 1)%nat = Some last /\
      conversionRate r =
        percentage_display NumberToString
          (funnel_value last / funnel_value first) 2) /\
  refundRate r =
    percentage_display NumberToString (totalRefunds r / totalOrders r) 1 /\
  (forall idx stage, funnelData d !! idx = Some stage ->
     exists line1 line2,
       overview !! idx = Some line1 /\ analysis !! idx = Some line2 /\
       line_as_specified NumberToString (funnelData d) idx stage line1 /\
       line_as_specified NumberToString (funnelData d) idx stage line2).
Proof.
  intros Hr Ho Ha.
  destruct (derive_Ok _ _ _ _ Hr)
    as (first & last & Hf & Hl & _ & _ & _ & Hconv & Hrefund).
  split; [|split].
  - exists first, last. auto.
  - exact Hrefund.
  - intros idx stage Hs.
    destruct (map_indexed_lookup _ _ _ _ Ho idx stage Hs) as (l1 & Hl1 & Hf1).
    destruct (map_indexed_lookup _ _ _ _ Ha idx stage Hs) as (l2 & Hl2 & Hf2).
    exists l1, l2. simpl in Hf1, Hf2.
    split; [exact Hl1|]. split; [exact Hl2|]. split.
    + apply overviewFunnelLine_spec. exact Hf1.
    + apply stageAnalysisLine_spec. exact Hf2.
Qed.

Lemma generated_funnel_lines NumberToString :
  overviewFunnel NumberToString generateFunnelData = Ok displayed_lines /\
  stageAnalysis NumberToString generateFunnelData = Ok displayed_lines.
Proof. split; vm_compute; reflexivity. Qed.

Lemma percentages_are_ratio_times_100_witness :
  exists r,
    conversionRate r = "2.70" /\ refundRate r = "22.6" /\
    ((exists first last,
         generateFunnelData !! 0%nat = Some first /\
         generateFunnelData !! (length generateFunnelData - 1)%nat = Some last /\
         conversionRate r =
           percentage_display (fun _ => "")
             (funnel_value last / funnel_value first) 2) /\
     refundRate r =
       percentage_display (fun _ => "") (totalRefunds r / totalOrders r) 1 /\
     (forall idx stage, generateFunnelData !! idx = Some stage ->
        exists line1 line2,
          displayed_lines !! idx = Some line1 /\
          displayed_lines !! idx = Some line2 /\
          line_as_specified (fun _ => "") generateFunnelData idx stage line1 /\
          line_as_specified (fun _ => "") generateFunnelData idx stage line2)).
Proof.
  eexists. split; [|split];
    [| | apply (percentages_are_ratio_times_100 (fun _ => "") generated
                  initialState _ displayed_lines displayed_lines);
         [ reflexivity | vm_compute; reflexivity | vm_compute; reflexivity ] ];
    vm_compute; reflexivity.
Defined.

(** C6, as stated, fails on the Funnel tab: the first line of the
    "Optimization Opportunities" card shows the literal 28.6 as its
    drop-off, printed as the number is and not through [toFixed].  It is
    the drop of no pair of consecutive funnel stages, whose drops are shown
    as 28.0, 75.0, 70.0 and 50.0: not as a number, and not after rounding
    to one or to two decimals. *)
Lemma literal_dropoff_is_not_computed :
  exists opp,
    Literals.opportunities !! 0%nat = Some opp /\
    Literals.opp_step opp = "Product Page" /\
    Literals.opp_dropoff opp = 28.6 /\
    (forall NumberToString,
        Literals.opportunityText NumberToString opp =
          NumberToString 28.6 +:+ "% users drop off") /\
    (forall NumberToString,
        exists lines,
          stageAnalysis NumberToString generateFunnelData = Ok lines /\
          map line_dropoff lines =
            [None; Some "28.0"; Some "75.0"; Some "70.0"; Some "50.0"]) /\
    (forall NumberToString (idx : nat) (prev stage : FunnelRow),
        generateFunnelData !! idx = Some prev ->
        generateFunnelData !! S idx = Some stage ->
        (Literals.opp_dropoff opp
           =? (funnel_value prev - funnel_value stage) / funnel_value prev * 100)
          = false /\
        toFixed NumberToString (Literals.opp_dropoff opp) 1 <>
          percentage_display NumberToString
            ((funnel_value prev - funnel_value stage) / funnel_value prev) 1 /\
        toFixed NumberToString (Literals.opp_dropoff opp) 2 <>
          percentage_display NumberToString
            ((funnel_value prev - funnel_value stage) / funnel_value prev) 2).
Proof.
  eexists. split; [reflexivity|]. split; [reflexivity|]. split; [reflexivity|].
  split; [intros ns; reflexivity|]. split.
  - intros ns. eexists. split; vm_compute; reflexivity.
  - intros ns idx prev stage Hprev Hstage.
    do 4 (destruct idx as [|idx];
          [vm_compute in Hprev, Hstage; inversion Hprev; inversion Hstage; subst;
           split; [vm_compute; reflexivity|];
           split; vm_compute; discriminate|]).
    destruct idx; simpl in Hstage; discriminate.
Qed.

(** C9. Setting or clearing the channel and category filters changes
    only [filteredChannelData] and [filteredCategoryData]: the KPI values
    (totalRevenue, totalOrders, avgConversion, totalSessions,
    conversionRate, avgOrderValue, totalRefunds, refundRate) are computed
    from the unfiltered datasets and are the same in every UI state, and
    the two filtered lists are the datasets restricted to the selection. *)
Theorem filters_leave_kpis_unchanged NumberToString (d : Datasets)
        (st other : UiState) (channel category : option string) :
  let st' := dispatch (dispatch st (setSelectedChannel channel))
                      (setSelectedCategory category) in
  kpis_of (derive NumberToString d st') = kpis_of (derive NumberToString d st) /\
  kpis_of (derive NumberToString d other) = kpis_of (derive NumberToString d st) /\
  (forall r, derive NumberToString d st = Ok r ->
     exists r', derive NumberToString d st' = Ok r' /\
                filteredChannelData r' = channels_shown d channel /\
                filteredCategoryData r' = categories_shown d category).
Proof.
  unfold derive, mbind, result_bind, channels_shown, categories_shown.
  destruct (index_prop (funnelData d) 0 "value") as [first|e]; simpl;
    [|repeat split; discriminate].
  destruct (index_prop (funnelData d) (js_length (funnelData d) - 1) "value")
    as [last|e]; simpl; [|repeat split; discriminate].
  repeat split. intros r _. eexists. split; [reflexivity|]. split; reflexivity.
Qed.

(** Selecting a channel does change what the channel list shows. *)
Example organic_filter_changes_list NumberToString :
  exists r r',
    BearCartDashboard NumberToString initialState = Ok r /\
    BearCartDashboard NumberToString
      (dispatch initialState (setSelectedChannel (Some "Organic"))) = Ok r' /\
    length (filteredChannelData r) = 5%nat /\
    length (filteredChannelData r') = 1%nat /\
    kpis r = kpis r'.
Proof.
  do 2 eexists. split; [reflexivity|]. split; [reflexivity|].
  repeat split; vm_compute; reflexivity.
Qed.

End DashboardProofs.

(** * Properties of the API client *)

Module ApiProofs.
Import JS Api Spec.

Section Client.
Variable network : nat -> string -> result Error Response.
Variable JSON_parse : string -> result Error JsVal.
Variable ToString : JsVal -> string.

Let run := apiService_getDashboardData network JSON_parse ToString.

(** The non-ok branch always throws, and what it throws is the generic
    status error: the [Error] built from [json.detail] is raised inside
    the inner [try] and replaced by its [catch]. *)
Lemma inner_try_always_generic (response : Response) (body : string)
      (log : list Event) :
  try_catch
    (json ← await (JSON_parse body);
     detail ← await (get_prop json "detail");
     throw (new_Error (if js_truthy detail then ToString detail
                       else http_error response)))
    (fun e => throw (A := unit) (new_Error (http_error response))) log
  = (Raise (new_Error (http_error response)), log).
Proof.
  unfold try_catch, mbind, eff_bind, bind, await, throw.
  destruct (JSON_parse body) as [json|e]; [|reflexivity].
  destruct (get_prop json "detail") as [detail|e]; reflexivity.
Qed.

(** The four ways an invocation can go. *)
Lemma run_cases :
  match network 0%nat dashboard_url with
  | Raise e =>
      run = (Raise e, [Fetched dashboard_url; ConsoleError log_label e])
  | Ok response =>
      if ok response then
        match json response with
        | Ok data => run = (Ok data, [Fetched dashboard_url])
        | Raise e =>
            run = (Raise e, [Fetched dashboard_url; ConsoleError log_label e])
        end
      else
        match text response with
        | Ok _ =>
            run = (Raise (new_Error (http_error response)),
                   [Fetched dashboard_url;
                    ConsoleError log_label (new_Error (http_error response))])
        | Raise e =>
            run = (Raise e, [Fetched dashboard_url; ConsoleError log_label e])
        end
  end.
Proof.
  unfold run, apiService_getDashboardData, getDashboardData.
  cbv [try_catch mbind eff_bind bind fetch await throw console_error
       mret eff_ret pure].
  change (fetch_count []) with 0%nat.
  change (API_CONFIG.BASE_URL +:+ "/api/dashboard") with dashboard_url.
  destruct (network 0%nat dashboard_url) as [response|e]; [|reflexivity].
  destruct (ok response); simpl.
  - destruct (json response); reflexivity.
  - destruct (text response) as [body|e]; [|reflexivity].
    destruct (JSON_parse body) as [json|e]; [|reflexivity].
    destruct (get_prop json "detail") as [detail|e]; reflexivity.
Qed.

(** Every invocation issues exactly one fetch, whatever the outcome. *)
Lemma one_fetch_per_invocation : fetch_count (snd run) = 1%nat.
Proof.
  pose proof run_cases as H.
  destruct (network 0%nat dashboard_url) as [response|e];
    [destruct (ok response);
     [destruct (json response)|destruct (text response)]|];
    rewrite H; reflexivity.
Qed.
End Client.

(** C2. On every upstream fetch failure (the fetch rejects, or the
    response is not ok) [getDashboardData] rejects: the error is caught,
    logged once with [console.error] and that same error is re-thrown; a
    rejected fetch surfaces its own error.  Exactly one fetch is issued
    (no retry) and no value is returned in place of the failure. *)
Theorem fetch_failure_is_logged_and_rethrown
        (network : nat -> string -> result Error Response)
        (JSON_parse : string -> result Error JsVal)
        (ToString : JsVal -> string) :
  upstream_failure (network 0%nat dashboard_url) ->
  exists e,
    apiService_getDashboardData network JSON_parse ToString =
      (Raise e, [Fetched dashboard_url; ConsoleError log_label e]) /\
    (forall e0, network 0%nat dashboard_url = Raise e0 -> e = e0) /\
    fetch_count (snd (apiService_getDashboardData network JSON_parse ToString))
      = 1%nat.
Proof.
  intros Hfail.
  pose proof (run_cases network JSON_parse ToString) as H.
  pose proof (one_fetch_per_invocation network JSON_parse ToString) as Hone.
  destruct (network 0%nat dashboard_url) as [response|e]; simpl in Hfail.
  - rewrite Hfail in H. destruct (text response) as [body|e].
    + eexists. split; [exact H|]. split; [discriminate | exact Hone].
    + exists e. split; [exact H|]. split; [discriminate | exact Hone].
  - exists e. split; [exact H|]. split; [congruence | exact Hone].
Qed.

Lemma fetch_failure_is_logged_and_rethrown_witness :
  upstream_failure (always server_error 0%nat dashboard_url) /\
  exists e,
    apiService_getDashboardData (always server_error) parse_detail show =
      (Raise e, [Fetched dashboard_url; ConsoleError log_label e]) /\
    (forall e0, always server_error 0%nat dashboard_url = Raise e0 -> e = e0) /\
    fetch_count
      (snd (apiService_getDashboardData (always server_error) parse_detail show))
      = 1%nat.
Proof.
  split; [reflexivity|].
  apply (fetch_failure_is_logged_and_rethrown (always server_error)
           parse_detail show).
  reflexivity.
Defined.

(** A rejected fetch, for comparison: the network error itself comes back. *)
Example network_error_is_rethrown (e : Error) JSON_parse ToString :
  apiService_getDashboardData (fun _ _ => Raise e) JSON_parse ToString =
    (Raise e, [Fetched dashboard_url; ConsoleError log_label e]).
Proof. reflexivity. Qed.

(** C8, as the code has it. For every non-ok HTTP response whose body
    text can be read, [getDashboardData] rejects with an [Error] whose
    message is exactly "HTTP error! status: <status>", whatever the body
    parses to: the error carrying [json.detail] never reaches the caller. *)
Theorem non_ok_response_has_generic_message
        (network : nat -> string -> result Error Response)
        (JSON_parse : string -> result Error JsVal)
        (ToString : JsVal -> string)
        (response : Response) (body : string) :
  network 0%nat dashboard_url = Ok response ->
  ok response = false ->
  text response = Ok body ->
  fst (apiService_getDashboardData network JSON_parse ToString) =
    Raise (new_Error ("HTTP error! status: " +:+ pretty (status response))).
Proof.
  intros Hnet Hok Htext.
  pose proof (run_cases network JSON_parse ToString) as H.
  rewrite Hnet, Hok, Htext in H. rewrite H. reflexivity.
Qed.

Lemma non_ok_response_has_generic_message_witness :
  fst (apiService_getDashboardData (always server_error) parse_detail show) =
    Raise (new_Error "HTTP error! status: 500").
Proof.
  apply (non_ok_response_has_generic_message (always server_error)
           parse_detail show server_error "{detail: Database down}");
    reflexivity.
Defined.

(** C8, as stated, fails when the body of the non-ok response cannot be
    read: [await response.text()] is outside the inner [try], so its
    rejection is what the caller gets, not the status message. *)
Lemma body_read_failure_keeps_its_error :
  ok body_read_fails = false /\
  fst (apiService_getDashboardData (always body_read_fails) parse_detail show) =
    Raise (TypeError "Failed to fetch") /\
  fst (apiService_getDashboardData (always body_read_fails) parse_detail show) <>
    Raise (new_Error ("HTTP error! status: " +:+ pretty (status body_read_fails))).
Proof.
  split; [reflexivity|]. split; [reflexivity|].
  vm_compute. discriminate.
Qed.

End ApiProofs.

(** * Properties of the pandas templates *)

Module PandasProofs.
Import Pandas Spec.

Lemma result_bind_Ok {E A B} (r : result E A) (k : A -> result E B) (b : B) :
  (r ≫= k) = Ok b -> exists a, r = Ok a /\ k a = Ok b.
Proof. destruct r; simpl; [eauto | discriminate]. Qed.

(** *** Division *)

Lemma truediv_numpy_int (z : Z) (b : pynum) :
  truediv (NpInt z) b = Ok (NpFloat (np_true_divide (Fin (inject_Z z)) (to_float b))).
Proof. destruct b; reflexivity. Qed.

Lemma truediv_numpy_float (x : npfloat) (b : pynum) :
  truediv (NpFloat x) b = Ok (NpFloat (np_true_divide x (to_float b))).
Proof. destruct b; reflexivity. Qed.

Lemma Qlt_bool_true (x y : Q) : Qlt_bool x y = true <-> (x < y)%Q.
Proof.
  unfold Qlt_bool. rewrite negb_true_iff. split.
  - intros H. apply Qnot_le_lt. intros Hle.
    apply Qle_bool_iff in Hle. congruence.
  - intros H. destruct (Qle_bool y x) eqn:E; [|reflexivity].
    apply Qle_bool_iff in E. exfalso. exact (Qlt_not_le _ _ H E).
Qed.

Lemma Qlt_bool_false (x y : Q) : Qlt_bool x y = false <-> (y <= x)%Q.
Proof.
  unfold Qlt_bool. rewrite negb_false_iff. apply Qle_bool_iff.
Qed.

(** *** The metrics never raise *)

Lemma traffic_metrics_Ok (df : list Session) :
  traffic_metrics df =
    Ok (mkTraffic
          (PyInt (py_len df))
          (nunique (map user_id df))
          (NpFloat (mean (map session_duration_clean df)))
          (NpFloat (np_true_divide
             (Fin (inject_Z (count_true
                (map (fun s => cell_lt (session_duration_clean s) 5) df))))
             (Fin (inject_Z (py_len df)))))
          (value_counts (map traffic_source df))
          (value_counts (map device_type df))).
Proof. unfold traffic_metrics. rewrite truediv_numpy_int. reflexivity. Qed.

Lemma conversion_metrics_Ok (df : list Master) :
  conversion_metrics df =
    Ok (mkConversion
          (NpFloat (np_true_divide
             (Fin (inject_Z (sum_int (map conversion_flag df))))
             (Fin (inject_Z (py_len df)))))
          (sum_int (map conversion_flag df))
          (sum_count m_traffic_source df)
          (sum_count m_device_type df)
          (NpFloat (mean (map m_session_duration_clean
                              (List.filter converted df))))).
Proof. unfold conversion_metrics. rewrite truediv_numpy_int. reflexivity. Qed.

Lemma quality_metrics_Ok (df : list Master) :
  exists q, quality_metrics df = Ok q /\
    overall_refund_rate q =
      (if Qlt_bool 0 (total_orders df)
       then NpFloat (np_true_divide (Fin (refunded_orders df))
                                    (Fin (total_orders df)))
       else PyInt 0).
Proof.
  unfold quality_metrics. rewrite truediv_numpy_int.
  change (gt_zero (NpFloat (Fin (total_orders df))))
    with (Qlt_bool 0 (total_orders df)).
  destruct (Qlt_bool 0 (total_orders df)).
  - rewrite truediv_numpy_float. eexists. split; reflexivity.
  - eexists. split; reflexivity.
Qed.

Lemma mean_all_null (col : list cell) : notna_count col = O -> mean col = NaN.
Proof. unfold mean. intros ->. reflexivity. Qed.

(** C1. Computing a mean or a rate over an empty group gives a defined
    sentinel and raises nothing: the three metric functions return for
    every table; [quality_metrics] gives 0 for overall_refund_rate when
    total_orders is 0; on a table without sessions [conversion_metrics]
    gives not-a-number for overall_conversion_rate and for the mean time
    to conversion, and [traffic_metrics] gives not-a-number for the mean
    duration and the bounce rate; the mean of a column without values is
    not-a-number. *)
Theorem empty_group_yields_sentinel
        (df_master : list Master) (df_sessions : list Session) (col : list cell) :
  (exists q, quality_metrics df_master = Ok q /\
             ((total_orders df_master == 0)%Q ->
              overall_refund_rate q = PyInt 0 /\
              is_sentinel (overall_refund_rate q))) /\
  (exists c, conversion_metrics df_master = Ok c /\
             (df_master = [] ->
              overall_conversion_rate c = NpFloat NaN /\
              avg_time_to_conversion c = NpFloat NaN /\
              is_sentinel (overall_conversion_rate c))) /\
  (exists t, traffic_metrics df_sessions = Ok t /\
             (df_sessions = [] ->
              avg_session_duration t = NpFloat NaN /\
              bounce_rate t = NpFloat NaN)) /\
  (notna_count col = O -> mean col = NaN).
Proof.
  split; [|split; [|split]].
  - destruct (quality_metrics_Ok df_master) as (q & Hq & Hrate).
    exists q. split; [exact Hq|]. intros Hzero.
    assert (Qlt_bool 0 (total_orders df_master) = false) as Hlt.
    { apply Qlt_bool_false. rewrite Hzero. apply Qle_refl. }
    rewrite Hlt in Hrate. split; [exact Hrate|]. left. exact Hrate.
  - eexists. split; [apply conversion_metrics_Ok|].
    intros ->. simpl. repeat split. right. reflexivity.
  - eexists. split; [apply traffic_metrics_Ok|].
    intros ->. simpl. split; reflexivity.
  - apply mean_all_null.
Qed.

(** The same on concrete tables. *)
Example empty_master_metrics :
  exists q c,
    quality_metrics [] = Ok q /\ overall_refund_rate q = PyInt 0 /\
    repeat_customer_rate q = NpFloat NaN /\
    conversion_metrics [] = Ok c /\ overall_conversion_rate c = NpFloat NaN.
Proof. do 2 eexists. repeat split; reflexivity. Qed.

(** *** Merging and filtering *)

Lemma merge_left_In {A B} (key_l : A -> option Z) (key_r : B -> option Z)
      (left : list A) (right : list B) (a : A) (ob : option B) :
  In (a, ob) (merge_left key_l key_r left right) ->
  In a left /\
  match ob with
  | Some b => In b right /\ key_r b = key_l a
  | None => True
  end.
Proof.
  unfold merge_left. rewrite in_flat_map. intros (a' & Ha' & Hin).
  destruct (List.filter (fun b => bool_decide (key_r b = key_l a')) right)
    as [|b0 bs] eqn:Hf.
  - destruct Hin as [[= <- <-]|[]]. auto.
  - apply in_map_iff in Hin as (b & [= <- <-] & Hb).
    split; [exact Ha'|]. rewrite <- Hf in Hb.
    apply filter_In in Hb as [Hb Hkey].
    apply bool_decide_eq_true in Hkey. auto.
Qed.

Lemma ts_ge_true (a b : timestamp) :
  ts_ge a b = true ->
  exists x y, a = Some x /\ b = Some y /\ (y <= x)%Z.
Proof.
  destruct a as [x|], b as [y|]; simpl; try discriminate.
  intros H. exists x, y. repeat split. lia.
Qed.

Lemma cell_gt_true (c : cell) (q : Q) :
  cell_gt c q = true -> exists v, c = Some v /\ (q < v)%Q.
Proof.
  destruct c as [v|]; simpl; [|discriminate].
  intros H. exists v. split; [reflexivity|]. apply Qlt_bool_true. exact H.
Qed.

(** *** The cleaners return *)

Lemma to_datetime_Ok (parse_datetime : string -> option Z) (c : DateCell) :
  date_parses parse_datetime c -> exists t, to_datetime parse_datetime c = Ok t.
Proof.
  destruct c as [|s|t]; simpl; eauto.
  intros [t Ht]. rewrite Ht. eauto.
Qed.

Lemma mapM_Ok {A B} (f : A -> result PyExn B) (l : list A) :
  Forall (fun x => exists y, f x = Ok y) l ->
  exists ys, mapM f l = Ok ys.
Proof.
  induction 1 as [|x l [y Hy] _ [ys Hys]]; simpl.
  - eexists. reflexivity.
  - rewrite Hy. simpl. rewrite Hys. simpl. eexists. reflexivity.
Qed.

Lemma merge_left_length {A B} (key_l : A -> option Z) (key_r : B -> option Z)
      (left : list A) (right : list B) :
  (length left <= length (merge_left key_l key_r left right))%nat.
Proof.
  unfold merge_left.
  match goal with |- context [flat_map ?f _] => set (g := f) end.
  assert (forall a, (1 <= length (g a))%nat) as Hg.
  { intros a. unfold g.
    destruct (List.filter (fun b => bool_decide (key_r b = key_l a)) right);
      simpl; lia. }
  induction left as [|a left IH]; simpl; [lia|].
  rewrite length_app. specialize (Hg a). lia.
Qed.

Lemma filter_all {A} (p : A -> bool) (l : list A) :
  (forall x, In x l -> p x = true) -> List.filter p l = l.
Proof.
  induction l as [|a l IH]; intros Hall; simpl; [reflexivity|].
  rewrite (Hall a (or_introl eq_refl)). f_equal.
  apply IH. intros x Hx. apply Hall. right. exact Hx.
Qed.

(** [clean_refunds] returns as soon as every refund date can be parsed. *)
Lemma clean_refunds_returns (parse_datetime : string -> option Z)
      (self : Cleaner) (df_refunds : list RawRefund) (df_orders : list Order) :
  Forall (fun r => date_parses parse_datetime (raw_refund_date r)) df_refunds ->
  exists out self',
    clean_refunds parse_datetime self df_refunds df_orders = Ok (out, self').
Proof.
  intros Hdates. unfold clean_refunds.
  destruct (mapM_Ok (fun r => to_datetime parse_datetime (raw_refund_date r))
                    df_refunds) as [dates Hd].
  { eapply Forall_impl; [exact Hdates|]. intros r. apply to_datetime_Ok. }
  rewrite Hd. simpl. do 2 eexists. reflexivity.
Qed.

(** [clean_orders] returns when every order has an id (so that no index
    label is lost before the mask is applied) and every session date can
    be parsed. *)
Lemma clean_orders_returns
      (parse_datetime : string -> option Z) (parse_number : string -> option Q)
      (log1p : Q -> cell) (quantile : list cell -> Q -> cell)
      (self : Cleaner) (df_orders : list RawOrder) (df_sessions : list Session) :
  Forall (fun o => is_Some (raw_order_id o)) df_orders ->
  Forall (fun s => date_parses parse_datetime (session_date s)) df_sessions ->
  exists out self',
    clean_orders parse_datetime parse_number log1p quantile
                 self df_orders df_sessions = Ok (out, self').
Proof.
  intros Hids Hdates. unfold clean_orders.
  destruct (mapM_Ok (fun s => to_datetime parse_datetime (session_date s))
                    df_sessions) as [dates Hd].
  { eapply Forall_impl; [exact Hdates|]. intros r. apply to_datetime_Ok. }
  rewrite Hd. simpl.
  rewrite (filter_all _ (imap (fun i o => (i, o)) df_orders)).
  2:{ intros [i o] Hin. apply list_elem_of_In, elem_of_lookup_imap in Hin
        as (j & o' & [= -> ->] & Hlook).
      apply bool_decide_eq_true. simpl.
      rewrite Forall_forall in Hids. apply Hids.
      eapply list_elem_of_lookup_2. exact Hlook. }
  match goal with
  | |- context [boolean_index ?df ?mask] =>
      assert (forallb (fun row => (fst row <? length mask)%nat) df = true) as Hall
  end.
  { apply forallb_forall. intros row Hrow. apply Nat.ltb_lt.
    apply in_map_iff in Hrow as ([i o] & <- & Hin). simpl.
    apply list_elem_of_In, elem_of_lookup_imap in Hin
      as (j & o' & [= -> ->] & Hlook).
    apply lookup_lt_Some in Hlook.
    rewrite !length_map.
    eapply Nat.lt_le_trans; [exact Hlook|].
    etransitivity; [|apply merge_left_length].
    rewrite length_map, length_imap. lia. }
  unfold boolean_index. rewrite Hall. simpl. do 2 eexists. reflexivity.
Qed.

(** C7. After [clean_refunds] has run, every refund left in its output
    has a refund date and the date of a matching order (same order_id) of
    the orders table, with refund_date >= order_date; days_to_refund is
    the whole number of days between the two. *)
Theorem clean_refunds_dates_ordered
        (parse_datetime : string -> option Z) (self : Cleaner)
        (df_refunds : list RawRefund) (df_orders : list Order)
        (out : list Refund) (self' : Cleaner) :
  clean_refunds parse_datetime self df_refunds df_orders = Ok (out, self') ->
  forall r, In r out ->
    exists rd od,
      refund_date r = Some rd /\
      refund_order_date r = Some od /\
      (od <= rd)%Z /\
      (exists o, In o df_orders /\ order_id o = refund_order_id r /\
                 order_date o = Some od) /\
      days_to_refund r = Some ((rd - od) / ns_per_day)%Z.
Proof.
  unfold clean_refunds. intros H r Hr.
  apply result_bind_Ok in H as (dates & _ & H).
  injection H as <- _.
  apply in_map_iff in Hr as (m & <- & Hm).
  apply filter_In in Hm as [Hm Hge].
  apply in_map_iff in Hm as ([[raw rdate] ob] & <- & Hmerged).
  apply merge_left_In in Hmerged as [_ Hob].
  simpl in *.
  apply ts_ge_true in Hge as (rd & od & Hrd & Hod & Hle).
  exists rd, od. rewrite Hrd, Hod. repeat split; try assumption.
  destruct ob as [o|]; [|discriminate].
  destruct Hob as [Ho Hkey]. exists o. auto.
Qed.

Lemma clean_refunds_dates_ordered_witness :
  clean_refunds no_dates new_cleaner sample_refunds cleaned_orders =
    Ok (cleaned_refunds, report_set new_cleaner "refunds_removed" 1) /\
  forall r, In r cleaned_refunds ->
    exists rd od,
      refund_date r = Some rd /\
      refund_order_date r = Some od /\
      (od <= rd)%Z /\
      (exists o, In o cleaned_orders /\ order_id o = refund_order_id r /\
                 order_date o = Some od) /\
      days_to_refund r = Some ((rd - od) / ns_per_day)%Z.
Proof.
  split; [vm_compute; reflexivity|].
  apply (clean_refunds_dates_ordered no_dates new_cleaner sample_refunds
           cleaned_orders cleaned_refunds
           (report_set new_cleaner "refunds_removed" 1)).
  vm_compute. reflexivity.
Defined.

(** C10. After [clean_orders] has run, every remaining order has a
    numeric, strictly positive order_value: the filter [order_value > 0]
    drops the orders whose value is zero or did not parse as a number
    along with the negative ones. *)
Theorem clean_orders_values_positive
        (parse_datetime : string -> option Z) (parse_number : string -> option Q)
        (log1p : Q -> cell) (quantile : list cell -> Q -> cell)
        (self : Cleaner) (df_orders : list RawOrder) (df_sessions : list Session)
        (out : list Order) (self' : Cleaner) :
  clean_orders parse_datetime parse_number log1p quantile
               self df_orders df_sessions = Ok (out, self') ->
  forall o, In o out ->
    exists v, order_value o = Some v /\ (0 < v)%Q.
Proof.
  unfold clean_orders. intros H o Ho.
  apply result_bind_Ok in H as (dates & _ & H).
  apply result_bind_Ok in H as (kept & _ & H).
  injection H as <- _.
  apply in_map_iff in Ho as (rv & <- & Hrv).
  apply filter_In in Hrv as [_ Hgt]. simpl.
  apply cell_gt_true. exact Hgt.
Qed.

(** On the sample: of five orders only the positive one is left, while
    the report counts a single removal (the negative value). *)
Lemma clean_orders_values_positive_witness :
  clean_orders no_dates no_numbers no_log no_quantile
               new_cleaner sample_orders sample_sessions =
    Ok (cleaned_orders, report_set new_cleaner "orders_removed" 1) /\
  forall o, In o cleaned_orders ->
    exists v, order_value o = Some v /\ (0 < v)%Q.
Proof.
  split; [vm_compute; reflexivity|].
  apply (clean_orders_values_positive no_dates no_numbers no_log no_quantile
           new_cleaner sample_orders sample_sessions cleaned_orders
           (report_set new_cleaner "orders_removed" 1)).
  vm_compute. reflexivity.
Defined.

End PandasProofs.

(** * Counts and rates, on both sides of the repository *)

Module MetricsProofs.
Import JS Dashboard Pandas Spec PandasProofs.

(** *** Group counts *)

Lemma dict_values_sum_insert `{Countable K} (m : gmap K nat) (k : K) (v : nat) :
  (dict_values_sum (<[k:=v]> m) + default O (m !! k) = v + dict_values_sum m)%nat.
Proof.
  unfold dict_values_sum. destruct (m !! k) as [x|] eqn:Hk; simpl.
  - rewrite <- (insert_delete_eq m k v).
    rewrite map_fold_insert_L; [|intros; lia|apply lookup_delete_eq].
    rewrite (map_fold_delete_L _ _ k x m); [lia|intros; lia|exact Hk].
  - rewrite map_fold_insert_L; [lia|intros; lia|exact Hk].
Qed.

(** The counts of [value_counts] add up to the number of non-null cells. *)
Lemma value_counts_sum `{Countable K} (col : list (option K)) :
  dict_values_sum (value_counts col) = non_null col.
Proof.
  unfold non_null. induction col as [|c col IH]; [reflexivity|].
  destruct c as [k|]; simpl; [|exact IH].
  pose proof (dict_values_sum_insert (value_counts col) k
                (S (default O (value_counts col !! k)))) as Hins.
  unfold value_counts in *. lia.
Qed.

Lemma non_null_all {A} (col : list (option A)) :
  Forall is_Some col -> non_null col = length col.
Proof.
  unfold non_null. induction 1 as [|c col [x ->] _ IH]; simpl; [reflexivity|].
  rewrite IH. reflexivity.
Qed.

Lemma non_null_le {A} (col : list (option A)) : (non_null col <= length col)%nat.
Proof. unfold non_null. apply filter_length_le. Qed.

(** C5, as the code has it. For every sessions table the values of
    sessions_by_channel (of sessions_by_device) sum to the number of
    sessions whose traffic_source (device_type) is not null, which is
    total_sessions when no session has a null there; in the dashboard the
    refund-reason counts of [generateRefundData] sum to the displayed
    totalRefunds, 159. *)
Theorem group_counts_sum_to_non_null_total
        (NumberToString : float -> string) (st : UiState)
        (df_sessions : list Session) :
  (exists t,
      traffic_metrics df_sessions = Ok t /\
      total_sessions t = PyInt (Z.of_nat (length df_sessions)) /\
      dict_values_sum (sessions_by_channel t) =
        non_null (map traffic_source df_sessions) /\
      dict_values_sum (sessions_by_device t) =
        non_null (map device_type df_sessions) /\
      (Forall (fun s => is_Some (traffic_source s)) df_sessions ->
       PyInt (Z.of_nat (dict_values_sum (sessions_by_channel t))) =
         total_sessions t) /\
      (Forall (fun s => is_Some (device_type s)) df_sessions ->
       PyInt (Z.of_nat (dict_values_sum (sessions_by_device t))) =
         total_sessions t)) /\
  (exists r,
      BearCartDashboard NumberToString st = Ok r /\
      totalRefunds r =
        fold_left (fun sum item => sum + refund_count item)%float
                  generateRefundData 0%float /\
      totalRefunds r = (45 + 38 + 32 + 26 + 18)%float /\
      totalRefunds r = 159%float).
Proof.
  split.
  - eexists. split; [apply traffic_metrics_Ok|]. simpl.
    rewrite !value_counts_sum. repeat split.
    + intros Hall. rewrite non_null_all, length_map; [reflexivity|].
      apply Forall_map. exact Hall.
    + intros Hall. rewrite non_null_all, length_map; [reflexivity|].
      apply Forall_map. exact Hall.
  - eexists. split; [reflexivity|]. repeat split; vm_compute; reflexivity.
Qed.

(** C5, as stated, fails on a table with a session whose device_type is
    null: total_sessions is 1 and the counts of sessions_by_device sum to 0. *)
Lemma null_device_is_not_counted :
  exists t,
    traffic_metrics sessions_missing_device = Ok t /\
    total_sessions t = PyInt 1 /\
    dict_values_sum (sessions_by_device t) = 0%nat /\
    PyInt (Z.of_nat (dict_values_sum (sessions_by_device t))) <> total_sessions t.
Proof.
  eexists. split; [apply traffic_metrics_Ok|]. simpl.
  split; [reflexivity|]. split; [reflexivity|].
  vm_compute. discriminate.
Qed.

(** *** The refund rate *)

Lemma ratio_in_unit_interval (r t : Q) :
  (0 <= r)%Q -> (r <= t)%Q -> (0 < t)%Q ->
  (0 <= r / t)%Q /\ (r / t <= 1)%Q.
Proof.
  intros Hr Hrt Ht. split.
  - apply Qle_shift_div_l; [exact Ht|]. rewrite Qmult_0_l. exact Hr.
  - apply Qle_shift_div_r; [exact Ht|]. rewrite Qmult_1_l. exact Hrt.
Qed.

Lemma np_true_divide_pos (r t : Q) :
  (0 < t)%Q -> np_true_divide (Fin r) (Fin t) = Fin (r / t).
Proof.
  intros Ht. simpl. destruct (Qeq_bool t 0) eqn:E; [|reflexivity].
  apply Qeq_bool_iff in E. rewrite E in Ht. exfalso.
  exact (Qlt_irrefl _ Ht).
Qed.

Lemma column_total_from (col : list cell) (acc : Q) :
  (fold_left (fun acc c => acc + default 0 c) col acc == acc + sum_float col)%Q.
Proof.
  revert acc. induction col as [|c col IH]; intros acc; simpl.
  - ring.
  - rewrite IH. destruct c as [x|]; simpl; ring.
Qed.

(** [Series.sum] adds the column up, whichever way round. *)
Lemma sum_float_column_total (col : list cell) :
  (sum_float col == RefundRate.column_total col)%Q.
Proof.
  unfold RefundRate.column_total. rewrite column_total_from. ring.
Qed.

(** Over 0/1 flags the sum is the number of rows flagged 1. *)
Lemma sum_of_flags (df : list Master) :
  Forall (fun r => RefundRate.is_flag (was_refunded r) = true) df ->
  (sum_float (map was_refunded df)
   == inject_Z (Z.of_nat (RefundRate.refunded_sessions df)))%Q.
Proof.
  unfold RefundRate.refunded_sessions.
  induction 1 as [|r df Hr _ IH]; [reflexivity|].
  cbn [map sum_float fold_right List.filter].
  change (fold_right
            (fun c acc => match c with Some q => (q + acc)%Q | None => acc end)
            0%Q (map was_refunded df))
    with (sum_float (map was_refunded df)).
  unfold RefundRate.is_flag, cell_eq in Hr. unfold cell_eq.
  destruct (was_refunded r) as [x|]; [|discriminate].
  destruct (Qeq_bool x 1) eqn:E1.
  - apply Qeq_bool_iff in E1. rewrite E1, IH. cbn [length].
    rewrite Nat2Z.inj_succ, <- Z.add_1_l, inject_Z_plus. reflexivity.
  - rewrite orb_false_r in Hr. apply Qeq_bool_iff in Hr.
    rewrite Hr, IH. apply Qplus_0_l.
Qed.

(** C3, as the code has it. In the dashboard totalRefunds is the sum of
    the refund-reason counts, totalOrders the sum of the per-channel
    orders, their ratio is within [0, 1] and refundRate is that ratio times
    100 with one decimal.  In [quality_metrics], for every master table,
    overall_refund_rate is the total of the was_refunded column over the
    total of the orders_in_session column when there are orders and 0
    otherwise; was_refunded being a 0/1 flag of the session, the numerator
    is the number of sessions flagged as refunded (not the number of
    refunds), and the rate is within [0, 1] whenever the refunded sessions
    do not exceed the orders. *)
Theorem refund_rate_is_refunded_sessions_over_orders
        (NumberToString : float -> string) (st : UiState)
        (df_master : list Master) :
  (exists r,
      BearCartDashboard NumberToString st = Ok r /\
      totalRefunds r =
        fold_left (fun sum item => sum + refund_count item)%float
                  generateRefundData 0%float /\
      totalOrders r =
        fold_left (fun sum item => sum + channel_orders item)%float
                  generateChannelData 0%float /\
      in_unit_interval (totalRefunds r / totalOrders r)%float /\
      refundRate r =
        toFixed NumberToString ((totalRefunds r / totalOrders r) * 100)%float 1) /\
  (exists q,
      quality_metrics df_master = Ok q /\
      ((0 < RefundRate.orders_counted df_master)%Q ->
       exists rate,
         overall_refund_rate q = NpFloat (Fin rate) /\
         (rate == RefundRate.refund_flags_total df_master
                  / RefundRate.orders_counted df_master)%Q) /\
      (~ (0 < RefundRate.orders_counted df_master)%Q ->
       overall_refund_rate q = PyInt 0) /\
      (Forall (fun r => RefundRate.is_flag (was_refunded r) = true) df_master ->
       (RefundRate.refund_flags_total df_master
        == inject_Z (Z.of_nat (RefundRate.refunded_sessions df_master)))%Q /\
       ((inject_Z (Z.of_nat (RefundRate.refunded_sessions df_master))
         <= RefundRate.orders_counted df_master)%Q ->
        rate_in_unit_interval (overall_refund_rate q)))).
Proof.
  split.
  - eexists. split; [reflexivity|]. simpl.
    repeat split; vm_compute; reflexivity.
  - destruct (quality_metrics_Ok df_master) as (q & Hq & Hrate).
    exists q. split; [exact Hq|].
    pose proof (sum_float_column_total (map orders_in_session df_master)) as Ht.
    pose proof (sum_float_column_total (map was_refunded df_master)) as Hr.
    fold (total_orders df_master) in Ht.
    fold (RefundRate.orders_counted df_master) in Ht.
    fold (refunded_orders df_master) in Hr.
    fold (RefundRate.refund_flags_total df_master) in Hr.
    destruct (Qlt_bool 0 (total_orders df_master)) eqn:Hpos.
    + apply Qlt_bool_true in Hpos.
      rewrite (np_true_divide_pos _ _ Hpos) in Hrate.
      split; [|split].
      * intros _. eexists. split; [exact Hrate|]. rewrite Hr, Ht. reflexivity.
      * intros Hn. exfalso. apply Hn. rewrite <- Ht. exact Hpos.
      * intros Hflags. apply sum_of_flags in Hflags.
        fold (refunded_orders df_master) in Hflags.
        split; [rewrite <- Hr; exact Hflags|].
        intros Hle. rewrite Hrate. simpl.
        apply ratio_in_unit_interval; [| |exact Hpos].
        -- rewrite Hflags.
           change (inject_Z 0 <= inject_Z
                     (Z.of_nat (RefundRate.refunded_sessions df_master)))%Q.
           rewrite <- Zle_Qle. lia.
        -- rewrite Hflags, Ht. exact Hle.
    + apply Qlt_bool_false in Hpos. rewrite Hrate.
      split; [|split].
      * intros Hlt. exfalso. rewrite <- Ht in Hlt.
        exact (Qlt_not_le _ _ Hlt Hpos).
      * intros _. reflexivity.
      * intros Hflags. apply sum_of_flags in Hflags.
        fold (refunded_orders df_master) in Hflags.
        split; [rewrite <- Hr; exact Hflags|].
        intros _. simpl. lia.
Qed.

Lemma refund_rate_is_refunded_sessions_over_orders_witness :
  exists q,
    quality_metrics sample_master = Ok q /\
    RefundRate.refunded_sessions sample_master = 1%nat /\
    (RefundRate.orders_counted sample_master == 2)%Q /\
    (exists rate,
        overall_refund_rate q = NpFloat (Fin rate) /\ (rate == 1 # 2)%Q) /\
    rate_in_unit_interval (overall_refund_rate q).
Proof.
  destruct (refund_rate_is_refunded_sessions_over_orders
              (fun _ => "") initialState sample_master)
    as (_ & q & Hq & Hrate & _ & Hflags).
  exists q. split; [exact Hq|]. split; [reflexivity|].
  split; [vm_compute; reflexivity|]. split.
  - destruct Hrate as (rate & Hr & Heq); [vm_compute; reflexivity|].
    exists rate. split; [exact Hr|].
    eapply Qeq_trans; [exact Heq|]. vm_compute. reflexivity.
  - apply Hflags.
    + repeat constructor.
    + apply Qle_bool_imp_le. vm_compute. reflexivity.
Defined.

(** C3, as stated, fails on the master table of one session with two
    orders, each refunded once: there are two refunds and two orders, so
    refunds over orders is 1, while was_refunded marks the session once and
    overall_refund_rate is 1/2. *)
Lemma two_refunds_of_one_session_count_once :
  exists q rate,
    map Pandas.refund_order_id RefundRate.both_refunds =
      map order_id RefundRate.both_orders /\
    length RefundRate.both_refunds = 2%nat /\
    length RefundRate.both_orders = 2%nat /\
    quality_metrics
      (map Pipeline.as_master
           (Pipeline.create_master_dataset
              RefundRate.one_buyer RefundRate.both_orders
              RefundRate.both_refunds)) = Ok q /\
    overall_refund_rate q = NpFloat (Fin rate) /\
    (rate == 1 # 2)%Q /\
    ~ (rate == inject_Z (Z.of_nat (length RefundRate.both_refunds))
               / inject_Z (Z.of_nat (length RefundRate.both_orders)))%Q.
Proof.
  do 2 eexists. split; [reflexivity|]. split; [reflexivity|].
  split; [reflexivity|]. split; [vm_compute; reflexivity|].
  split; [reflexivity|]. split; [vm_compute; reflexivity|].
  vm_compute. discriminate.
Qed.

(** The sample master table has two orders and one refunded session. *)
Example sample_refund_rate :
  exists q, quality_metrics sample_master = Ok q /\
            overall_refund_rate q = NpFloat (Fin (1 # 2)).
Proof. eexists. split; vm_compute; reflexivity. Qed.

End MetricsProofs.

(** * Properties of the session cleaner *)

Module SessionProofs.
Import Pandas Pipeline Spec PipelineSamples PandasProofs MetricsProofs.

(** *** Duplicates *)

(** The rows kept when the keys of [seen] count as seen already. *)
Lemma drop_duplicates_from {A} (key : A -> option Z) (seen : list (option Z))
      (df : list A) :
  let kept := map fst (List.filter (fun rm => negb (snd rm))
                         (zip df (duplicated seen (map key df)))) in
  NoDup (map key kept) /\
  (forall x, In x kept -> (key x ∉ seen) /\ In x df) /\
  (forall x, In x df -> (key x ∈ seen) \/ In (key x) (map key kept)) /\
  (length kept + length (List.filter (fun b => b) (duplicated seen (map key df)))
   = length df)%nat.
Proof.
  revert seen. induction df as [|r df IH]; intros seen; simpl.
  - split; [constructor|]. split; [intros x []|]. split; [intros x []|reflexivity].
  - destruct (IH (key r :: seen)) as (Hnd & Hin & Hcov & Hlen).
    destruct (bool_decide (key r ∈ seen)) eqn:Hseen; simpl.
    + apply bool_decide_eq_true in Hseen. split; [|split; [|split]].
      * exact Hnd.
      * intros x Hx. destruct (Hin x Hx) as [Hns Hdf].
        split; [|right; exact Hdf]. intros Hc. apply Hns. right. exact Hc.
      * intros x [<-|Hx]; [left; exact Hseen|].
        destruct (Hcov x Hx) as [Hs|Hk]; [|right; exact Hk].
        apply elem_of_cons in Hs as [->|Hs]; left; assumption.
      * lia.
    + apply bool_decide_eq_false in Hseen. split; [|split; [|split]].
      * constructor; [|exact Hnd].
        intros Hc. apply list_elem_of_In, in_map_iff in Hc as (x & Hkx & Hx).
        destruct (Hin x Hx) as [Hns _]. apply Hns. rewrite Hkx. left.
      * intros x [<-|Hx]; [split; [exact Hseen|left; reflexivity]|].
        destruct (Hin x Hx) as [Hns Hdf].
        split; [|right; exact Hdf]. intros Hc. apply Hns. right. exact Hc.
      * intros x [<-|Hx]; [right; left; reflexivity|].
        destruct (Hcov x Hx) as [Hs|Hk]; [|right; right; exact Hk].
        apply elem_of_cons in Hs as [->|Hs]; [right; left; reflexivity|].
        left. exact Hs.
      * lia.
Qed.

Lemma drop_duplicates_NoDup {A} (key : A -> option Z) (df : list A) :
  NoDup (map key (drop_duplicates key df)).
Proof. apply (drop_duplicates_from key [] df). Qed.

Lemma NoDup_map_filter {A B} (f : A -> B) (p : A -> bool) (l : list A) :
  NoDup (map f l) -> NoDup (map f (List.filter p l)).
Proof.
  induction l as [|a l IH]; simpl; [auto|].
  intros Hnd. apply NoDup_cons in Hnd as [Hnotin Hnd].
  destruct (p a); simpl; [|auto].
  constructor; [|auto]. intros Hc. apply Hnotin.
  apply list_elem_of_In, in_map_iff in Hc as (x & Hfx & Hx).
  apply filter_In in Hx as [Hx _].
  apply list_elem_of_In, in_map_iff. eauto.
Qed.

Lemma count_true_filter {A} (p : A -> bool) (l : list A) :
  (Z.of_nat (length (List.filter (fun x => negb (p x)) l)) + count_true (map p l)
   = Z.of_nat (length l))%Z.
Proof.
  unfold count_true. induction l as [|a l IH]; simpl; [reflexivity|].
  destruct (p a); simpl; lia.
Qed.

Section CleanSessions.
Variable parse_datetime : string -> option Z.
Variable parse_number : string -> option Q.
Variable quantile : list cell -> Q -> cell.
Variable self : Cleaner.
Variable df_sessions : list RawSession.

Let cleaned : list CleanSession :=
  fst (clean_sessions parse_datetime parse_number quantile self df_sessions).

(** Where a cleaned row comes from. *)
Lemma cleaned_row (s : CleanSession) :
  In s cleaned ->
  exists r,
    In r (drop_duplicates rs_session_id df_sessions) /\
    is_bot (to_numeric_coerce parse_number (rs_session_duration r)) = false /\
    cs_session_id s = rs_session_id r /\
    cs_user_id s = rs_user_id r /\
    cs_traffic_source s = Some (default "Direct" (rs_traffic_source r)) /\
    cs_device_type s = rs_device_type r /\
    cs_session_duration s = to_numeric_coerce parse_number (rs_session_duration r) /\
    cs_session_duration_clean s =
      clip_upper (cs_session_duration s)
                 (quantile (map cs_session_duration cleaned) (95 # 100)).
Proof.
  unfold cleaned, clean_sessions. simpl. intros Hs.
  apply in_map_iff in Hs as (s3 & <- & Hs3).
  apply filter_In in Hs3 as [Hs2 Hbot].
  apply in_map_iff in Hs2 as (r & <- & Hr).
  simpl in *. exists r. rewrite map_map. simpl.
  apply negb_true_iff in Hbot. repeat split; try assumption; reflexivity.
Qed.

(** X1. After [clean_sessions] no two sessions share a session_id (a null
    id counts as one value), and every id left is the id of an input
    session. *)
Theorem clean_sessions_ids_unique :
  NoDup (map cs_session_id cleaned) /\
  (forall s, In s cleaned ->
     exists r, In r df_sessions /\ rs_session_id r = cs_session_id s).
Proof.
  split.
  - unfold cleaned, clean_sessions. simpl.
    rewrite map_map. simpl.
    apply NoDup_map_filter. rewrite map_map. simpl.
    apply drop_duplicates_NoDup.
  - intros s Hs. destruct (cleaned_row s Hs) as (r & Hr & _ & Hid & _).
    exists r. split; [|symmetry; exact Hid].
    apply (drop_duplicates_from rs_session_id [] df_sessions). exact Hr.
Qed.

(** X2. Every cleaned session has a traffic source: the one it came with,
    or "Direct" where the input had none; device_type is passed through
    unchanged, nulls included. *)
Theorem clean_sessions_traffic_source_filled (s : CleanSession) :
  In s cleaned ->
  exists r,
    In r df_sessions /\
    rs_session_id r = cs_session_id s /\
    cs_traffic_source s = Some (default "Direct" (rs_traffic_source r)) /\
    (forall source, rs_traffic_source r = Some source ->
       cs_traffic_source s = Some source) /\
    (rs_traffic_source r = None -> cs_traffic_source s = Some "Direct") /\
    cs_device_type s = rs_device_type r.
Proof.
  intros Hs. destruct (cleaned_row s Hs)
    as (r & Hr & _ & Hid & _ & Hsrc & Hdev & _).
  exists r. split.
  { apply (drop_duplicates_from rs_session_id [] df_sessions). exact Hr. }
  split; [symmetry; exact Hid|]. split; [exact Hsrc|].
  split; [|split; [|exact Hdev]].
  - intros source Hsome. rewrite Hsrc, Hsome. reflexivity.
  - intros Hnone. rewrite Hsrc, Hnone. reflexivity.
Qed.

(** X3. A cleaned session's duration, when it is a number, lies between
    1 second and 8 hours; session_duration_clean is that duration clipped
    at the 95th percentile of the cleaned durations: missing exactly when
    the duration is missing, never above the duration, never above the
    percentile. *)
Theorem clean_sessions_duration_bounds (s : CleanSession) :
  In s cleaned ->
  let q95 := quantile (map cs_session_duration cleaned) (95 # 100) in
  (forall d, cs_session_duration s = Some d -> (1 <= d)%Q /\ (d <= 28800)%Q) /\
  cs_session_duration_clean s = clip_upper (cs_session_duration s) q95 /\
  (cs_session_duration_clean s = None <-> cs_session_duration s = None) /\
  (forall c, cs_session_duration_clean s = Some c ->
     (exists d, cs_session_duration s = Some d /\ (c <= d)%Q) /\
     (forall q, q95 = Some q -> (c <= q)%Q)).
Proof.
  intros Hs q95. destruct (cleaned_row s Hs)
    as (r & _ & Hbot & _ & _ & _ & _ & Hdur & Hclean).
  fold q95 in Hclean. rewrite <- Hdur in Hbot.
  split; [|split; [exact Hclean|split]].
  - intros d Hd. rewrite Hd in Hbot. unfold is_bot in Hbot. simpl in Hbot.
    apply orb_false_iff in Hbot as [Hlt Hgt].
    apply Qlt_bool_false in Hlt. apply Qlt_bool_false in Hgt. auto.
  - rewrite Hclean. destruct (cs_session_duration s), q95; simpl;
      split; congruence.
  - intros c Hc. rewrite Hclean in Hc.
    destruct (cs_session_duration s) as [d|]; [|discriminate].
    destruct q95 as [q|]; simpl in Hc.
    + destruct (Qle_bool d q) eqn:Hle; injection Hc as <-.
      * apply Qle_bool_iff in Hle. split.
        -- exists d. split; [reflexivity|apply Qle_refl].
        -- intros q' [= <-]. exact Hle.
      * assert (q < d)%Q as Hlt.
        { apply Qlt_bool_true. unfold Qlt_bool. rewrite Hle. reflexivity. }
        split.
        -- exists d. split; [reflexivity|apply Qlt_le_weak; exact Hlt].
        -- intros q' [= <-]. apply Qle_refl.
    + injection Hc as <-. split.
      * exists d. split; [reflexivity|apply Qle_refl].
      * intros q' Hq. discriminate.
Qed.

(** X4. The report entry sessions_removed is exactly the number of rows
    [clean_sessions] dropped: input rows minus output rows. *)
Theorem clean_sessions_report_counts_removed :
  cleaning_report
    (snd (clean_sessions parse_datetime parse_number quantile self df_sessions))
    !! "sessions_removed" =
  Some (Z.of_nat (length df_sessions) - Z.of_nat (length cleaned))%Z.
Proof.
  unfold cleaned, clean_sessions, report_set. simpl.
  rewrite lookup_insert_eq. f_equal.
  rewrite length_map.
  match goal with
  | |- context [List.filter ?p (map ?g ?l)] =>
      pose proof (count_true_filter
                    (fun s => is_bot (cs_session_duration s)) (map g l)) as Hbots
  end.
  rewrite length_map in Hbots.
  destruct (drop_duplicates_from rs_session_id [] df_sessions)
    as (_ & _ & _ & Hdup).
  fold (drop_duplicates rs_session_id df_sessions) in Hdup.
  unfold count_true at 1. lia.
Qed.

(** X5. On a cleaned sessions table the per-channel counts of
    [traffic_metrics] do sum to total_sessions: no session is left without
    a traffic source. *)
Theorem cleaned_channel_counts_sum_to_total :
  exists t,
    traffic_metrics (map as_session cleaned) = Ok t /\
    total_sessions t = PyInt (Z.of_nat (length cleaned)) /\
    PyInt (Z.of_nat (dict_values_sum (sessions_by_channel t))) = total_sessions t.
Proof.
  eexists. split; [apply traffic_metrics_Ok|]. simpl.
  unfold py_len. rewrite length_map. split; [reflexivity|].
  rewrite value_counts_sum, map_map. simpl.
  rewrite non_null_all, length_map; [reflexivity|].
  apply Forall_forall. intros c Hc.
  apply list_elem_of_In, in_map_iff in Hc as (s & <- & Hs).
  destruct (cleaned_row s Hs) as (r & _ & _ & _ & _ & Hsrc & _).
  rewrite Hsrc. eexists. reflexivity.
Qed.
End CleanSessions.

Lemma clean_sessions_traffic_source_filled_witness :
  In direct_row
     (fst (clean_sessions no_dates no_numbers q600 new_cleaner raw_sessions)) /\
  exists r,
    In r raw_sessions /\
    rs_session_id r = cs_session_id direct_row /\
    cs_traffic_source direct_row = Some (default "Direct" (rs_traffic_source r)) /\
    (forall source, rs_traffic_source r = Some source ->
       cs_traffic_source direct_row = Some source) /\
    (rs_traffic_source r = None -> cs_traffic_source direct_row = Some "Direct") /\
    cs_device_type direct_row = rs_device_type r.
Proof.
  assert (In direct_row
            (fst (clean_sessions no_dates no_numbers q600 new_cleaner raw_sessions)))
    as Hin by (vm_compute; right; left; reflexivity).
  split; [exact Hin|].
  exact (clean_sessions_traffic_source_filled no_dates no_numbers q600
           new_cleaner raw_sessions direct_row Hin).
Defined.

Lemma clean_sessions_duration_bounds_witness :
  In clipped_row
     (fst (clean_sessions no_dates no_numbers q600 new_cleaner raw_sessions)) /\
  cs_session_duration clipped_row = Some 900%Q /\
  cs_session_duration_clean clipped_row = Some 600%Q /\
  (forall c, cs_session_duration_clean clipped_row = Some c ->
     (exists d, cs_session_duration clipped_row = Some d /\ (c <= d)%Q) /\
     (forall q, q600 (map cs_session_duration
                          (fst (clean_sessions no_dates no_numbers q600
                                  new_cleaner raw_sessions))) (95 # 100) = Some q ->
                (c <= q)%Q)).
Proof.
  assert (In clipped_row
            (fst (clean_sessions no_dates no_numbers q600 new_cleaner raw_sessions)))
    as Hin by (vm_compute; right; right; left; reflexivity).
  split; [exact Hin|]. split; [reflexivity|]. split; [reflexivity|].
  exact (proj2 (proj2 (proj2
           (clean_sessions_duration_bounds no_dates no_numbers q600
              new_cleaner raw_sessions clipped_row Hin)))).
Defined.

(** On the sample: the duplicate of session 1 and the half-second visit go,
    the session with an unreadable duration stays, and 900 s is clipped. *)
Example clean_sessions_sample :
  clean_sessions no_dates no_numbers q600 new_cleaner raw_sessions =
    (clean_sample, report_set new_cleaner "sessions_removed" 2).
Proof. vm_compute. reflexivity. Qed.

End SessionProofs.

(** * Merges, index labels and what the cleaners keep *)

Module CleanerProofs.
Import Pandas Pipeline Spec PipelineSamples PandasProofs SessionProofs.

(** *** Merging on a key that is unique on the right *)

Lemma filter_unique_key {B} (key_r : B -> option Z) (k : option Z) (right : list B) :
  NoDup (map key_r right) ->
  List.filter (fun b => bool_decide (key_r b = k)) right =
    match List.find (fun b => bool_decide (key_r b = k)) right with
    | Some b => [b]
    | None => []
    end.
Proof.
  induction right as [|b right IH]; simpl; [reflexivity|].
  intros Hnd. apply NoDup_cons in Hnd as [Hnotin Hnd].
  destruct (bool_decide (key_r b = k)) eqn:Hk.
  - apply bool_decide_eq_true in Hk. f_equal.
    rewrite (IH Hnd).
    destruct (List.find (fun b0 => bool_decide (key_r b0 = k)) right)
      as [b'|] eqn:Hfind; [|reflexivity].
    apply find_some in Hfind as [Hin Hk'].
    apply bool_decide_eq_true in Hk'. exfalso. apply Hnotin.
    rewrite Hk, <- Hk'. apply list_elem_of_In, in_map. exact Hin.
  - apply IH. exact Hnd.
Qed.

(** With unique keys on the right a left merge keeps the left rows one for
    one, each with its match if there is one. *)
Lemma merge_left_unique {A B} (key_l : A -> option Z) (key_r : B -> option Z)
      (left : list A) (right : list B) :
  NoDup (map key_r right) ->
  merge_left key_l key_r left right =
    map (fun a => (a, List.find (fun b => bool_decide (key_r b = key_l a)) right))
        left.
Proof.
  intros Hnd. unfold merge_left.
  match goal with |- flat_map ?f _ = _ => set (g := f) end.
  assert (forall a, g a =
            [(a, List.find (fun b => bool_decide (key_r b = key_l a)) right)])
    as Hg.
  { intros a. unfold g.
    rewrite (filter_unique_key key_r (key_l a) right Hnd).
    destruct (List.find (fun b => bool_decide (key_r b = key_l a)) right);
      reflexivity. }
  induction left as [|a left IH]; [reflexivity|].
  change (flat_map g (a :: left)) with (g a ++ flat_map g left).
  rewrite IH, Hg. reflexivity.
Qed.

Lemma merge_left_In_intro {A B} (key_l : A -> option Z) (key_r : B -> option Z)
      (left : list A) (right : list B) (a : A) (b : B) :
  In a left -> In b right -> key_r b = key_l a ->
  In (a, Some b) (merge_left key_l key_r left right).
Proof.
  intros Ha Hb Hkey. unfold merge_left. apply in_flat_map.
  exists a. split; [exact Ha|].
  assert (In b (List.filter (fun b0 => bool_decide (key_r b0 = key_l a)) right))
    as Hf.
  { apply filter_In. split; [exact Hb|]. apply bool_decide_eq_true. exact Hkey. }
  destruct (List.filter (fun b0 => bool_decide (key_r b0 = key_l a)) right)
    as [|b0 bs]; [destruct Hf|].
  apply in_map_iff. exists b. auto.
Qed.

(** *** [mapM] over a column *)

Lemma mapM_Forall2 {A B} (f : A -> result PyExn B) (l : list A) (ys : list B) :
  mapM f l = Ok ys -> Forall2 (fun x y => f x = Ok y) l ys.
Proof.
  revert ys. induction l as [|x l IH]; simpl; intros ys H.
  - injection H as <-. constructor.
  - apply result_bind_Ok in H as (y & Hy & H).
    apply result_bind_Ok in H as (ys' & Hys & H).
    injection H as <-. constructor; auto.
Qed.

Lemma Forall2_zip_In {A B} (P : A -> B -> Prop) (l : list A) (ys : list B) (x : A) :
  Forall2 P l ys -> In x l -> exists y, In (x, y) (zip l ys) /\ P x y.
Proof.
  induction 1 as [|a b l ys Hab _ IH]; simpl; [intros []|].
  intros [<-|Hx].
  - exists b. auto.
  - destruct (IH Hx) as (y & Hy & HP). exists y. auto.
Qed.

Lemma Forall2_zip_fst {A B} (P : A -> B -> Prop) (f : A -> option Z)
      (l : list A) (ys : list B) :
  Forall2 P l ys -> map fst (zip (map f l) ys) = map f l.
Proof. induction 1; simpl; [reflexivity|]. f_equal. assumption. Qed.

Lemma NoDup_fst_functional {B} (l : list (option Z * B)) (k : option Z) (y1 y2 : B) :
  NoDup (map fst l) -> In (k, y1) l -> In (k, y2) l -> y1 = y2.
Proof.
  induction l as [|[k0 y0] l IH]; simpl; [intros _ []|].
  intros Hnd. apply NoDup_cons in Hnd as [Hnotin Hnd].
  intros [H1|H1] [H2|H2].
  - congruence.
  - injection H1 as -> ->. exfalso. apply Hnotin.
    apply list_elem_of_In, in_map_iff. exists (k, y2). auto.
  - injection H2 as -> ->. exfalso. apply Hnotin.
    apply list_elem_of_In, in_map_iff. exists (k, y1). auto.
  - eauto.
Qed.

Lemma Forall2_zip_map_In {A B} (P : A -> B -> Prop) (f : A -> option Z)
      (l : list A) (ys : list B) (x : A) :
  Forall2 P l ys -> In x l -> exists y, In (f x, y) (zip (map f l) ys) /\ P x y.
Proof.
  induction 1 as [|a b l ys Hab _ IH]; simpl; [intros []|].
  intros [<-|Hx].
  - exists b. auto.
  - destruct (IH Hx) as (y & Hy & HP). exists y. auto.
Qed.

Lemma filter_length_lt {A} (p : A -> bool) (l : list A) (x : A) :
  In x l -> p x = false -> (length (List.filter p l) < length l)%nat.
Proof.
  induction l as [|a l IH]; simpl; [intros []|].
  intros [<-|Hx] Hp.
  - rewrite Hp. pose proof (filter_length_le p l). lia.
  - specialize (IH Hx Hp). destruct (p a); simpl; lia.
Qed.

(** *** Index labels *)

Lemma imap_labels {A} (l : list A) (n : nat) :
  map fst (imap (fun i o => ((n + i)%nat, o)) l) = seq n (length l).
Proof.
  revert n. induction l as [|x l IH]; intros n; simpl; [reflexivity|].
  rewrite Nat.add_0_r. f_equal.
  rewrite <- (IH (S n)). f_equal. apply imap_ext. intros i y _. simpl.
  f_equal. lia.
Qed.

Lemma labelled_NoDup {A} (l : list A) :
  NoDup (map fst (imap (fun i o => (i, o)) l)).
Proof.
  change (fun (i : nat) (o : A) => (i, o))
    with (fun (i : nat) (o : A) => ((0 + i)%nat, o)).
  rewrite (imap_labels l 0). apply NoDup_ListNoDup, seq_NoDup.
Qed.

Lemma boolean_index_Ok {A} (df df' : list (nat * A)) (mask : list bool) :
  boolean_index df mask = Ok df' ->
  df' = List.filter (fun row => default false (mask !! fst row)) df /\
  (forall row, In row df -> (fst row < length mask)%nat).
Proof.
  unfold boolean_index.
  destruct (forallb (fun row => (fst row <? length mask)%nat) df) eqn:Hall;
    [|discriminate].
  intros [= <-]. split; [reflexivity|].
  intros row Hrow. rewrite forallb_forall in Hall.
  apply Nat.ltb_lt. apply Hall. exact Hrow.
Qed.

(** *** [clean_orders] *)

Section CleanOrders.
Variable parse_datetime : string -> option Z.
Variable parse_number : string -> option Q.
Variable log1p : Q -> cell.
Variable quantile : list cell -> Q -> cell.
Variable self : Cleaner.
Variable df_orders : list RawOrder.
Variable df_sessions : list Session.

(** The frame after the null ids are dropped and the dates fixed. *)
Let df_orders1 : list (nat * DatedOrder) :=
  map (fun row =>
         (fst row,
          mkDated (raw_order_id (snd row)) (raw_session_id (snd row))
                  (to_datetime_coerce parse_datetime (raw_order_date (snd row)))
                  (raw_order_value (snd row))))
      (List.filter (fun row => bool_decide (is_Some (raw_order_id (snd row))))
                   (imap (fun i o => (i, o)) df_orders)).

(** The mask [~(order_date < session_date)] over the merged frame. *)
Let keep_mask (dates : list timestamp) : list bool :=
  map negb
      (map (fun lr =>
              ts_lt (d_date (snd (fst lr)))
                    (match snd lr with Some s => snd s | None => None end))
           (merge_left (fun row : nat * DatedOrder => d_session_id (snd row)) fst
                       df_orders1 (zip (map session_id df_sessions) dates))).

Let finish (q75 : cell) (rv : nat * DatedOrder * cell) : Order :=
  mkOrder (fst (fst rv)) (d_id (snd (fst rv))) (d_session_id (snd (fst rv)))
          (d_date (snd (fst rv))) (snd rv)
          (match snd rv with Some v => log1p v | None => None end)
          (if cell_gt_cell (snd rv) q75 then 1 else 0)%Z.

Lemma clean_orders_shape (out : list Order) (self' : Cleaner) :
  clean_orders parse_datetime parse_number log1p quantile
               self df_orders df_sessions = Ok (out, self') ->
  exists dates df_orders2 q75,
    mapM (fun s => to_datetime parse_datetime (session_date s)) df_sessions
      = Ok dates /\
    boolean_index df_orders1 (keep_mask dates) = Ok df_orders2 /\
    out = map (finish q75)
              (List.filter (fun rv => cell_gt (snd rv) 0)
                 (map (fun row => (row, to_numeric_coerce parse_number
                                          (d_value (snd row)))) df_orders2)).
Proof.
  unfold clean_orders. intros H.
  apply result_bind_Ok in H as (dates & Hd & H).
  apply result_bind_Ok in H as (df2 & Hb & H).
  injection H as <- _.
  exists dates, df2. eexists. split; [exact Hd|]. split; [exact Hb|]. reflexivity.
Qed.

Lemma df_orders1_row (row : nat * DatedOrder) :
  In row df_orders1 ->
  exists raw,
    df_orders !! fst row = Some raw /\
    is_Some (raw_order_id raw) /\
    d_id (snd row) = raw_order_id raw /\
    d_session_id (snd row) = raw_session_id raw /\
    d_date (snd row) = to_datetime_coerce parse_datetime (raw_order_date raw) /\
    d_value (snd row) = raw_order_value raw.
Proof.
  unfold df_orders1. intros Hrow.
  apply in_map_iff in Hrow as ([i raw] & <- & Hkept).
  apply filter_In in Hkept as [Hin Hid]. apply bool_decide_eq_true in Hid.
  apply list_elem_of_In, elem_of_lookup_imap in Hin
    as (j & raw' & [= -> ->] & Hlook).
  exists raw'. simpl in *. repeat split; assumption.
Qed.

Lemma df_orders1_labels : NoDup (map fst df_orders1).
Proof.
  unfold df_orders1. rewrite map_map. simpl.
  apply NoDup_map_filter. apply labelled_NoDup.
Qed.

(** X6. Whatever [clean_orders] returns is made of input orders: every
    remaining order is the input row at its index label, it has an
    order_id, its date and value are the parsed date and value of that
    row, and no input row appears twice. *)
Theorem clean_orders_keeps_input_rows (out : list Order) (self' : Cleaner) :
  clean_orders parse_datetime parse_number log1p quantile
               self df_orders df_sessions = Ok (out, self') ->
  NoDup (map order_label out) /\
  (length out <= length df_orders)%nat /\
  (forall o, In o out ->
     exists raw,
       df_orders !! order_label o = Some raw /\
       is_Some (order_id o) /\
       order_id o = raw_order_id raw /\
       order_session_id o = raw_session_id raw /\
       order_date o = to_datetime_coerce parse_datetime (raw_order_date raw) /\
       order_value o = to_numeric_coerce parse_number (raw_order_value raw)).
Proof.
  intros H. destruct (clean_orders_shape out self' H)
    as (dates & df2 & q75 & _ & Hb & ->).
  apply boolean_index_Ok in Hb as [-> _].
  assert (NoDup (map order_label
            (map (finish q75)
               (List.filter (fun rv => cell_gt (snd rv) 0)
                  (map (fun row => (row, to_numeric_coerce parse_number
                                           (d_value (snd row))))
                       (List.filter
                          (fun row => default false (keep_mask dates !! fst row))
                          df_orders1)))))) as Hnd.
  { rewrite map_map. simpl.
    change (fun x : nat * DatedOrder * cell => fst (fst x))
      with (fun x : nat * DatedOrder * cell => (fun y => fst (fst y)) x).
    apply NoDup_map_filter. rewrite map_map. simpl.
    apply NoDup_map_filter. apply df_orders1_labels. }
  split; [exact Hnd|]. split.
  - apply NoDup_ListNoDup in Hnd.
    rewrite <- (length_map order_label).
    pose proof (NoDup_incl_length Hnd (l' := seq 0 (length df_orders))) as Hlen.
    rewrite length_seq in Hlen. apply Hlen.
    intros label Hl. apply in_map_iff in Hl as (o & <- & Ho).
    apply in_map_iff in Ho as (rv & <- & Hrv).
    apply filter_In in Hrv as [Hrv _].
    apply in_map_iff in Hrv as (row & <- & Hrow).
    apply filter_In in Hrow as [Hrow _].
    destruct (df_orders1_row row Hrow) as (raw & Hlook & _).
    apply lookup_lt_Some in Hlook. simpl. apply in_seq. lia.
  - intros o Ho.
    apply in_map_iff in Ho as (rv & <- & Hrv).
    apply filter_In in Hrv as [Hrv _].
    apply in_map_iff in Hrv as (row & <- & Hrow).
    apply filter_In in Hrow as [Hrow _].
    destruct (df_orders1_row row Hrow)
      as (raw & Hlook & Hid & Hdid & Hsid & Hdate & Hval).
    exists raw. simpl. rewrite Hdid, Hsid, Hdate, Hval.
    repeat split; assumption.
Qed.
(** The mask, once the session ids are known to be unique: one entry per
    order of [df_orders1], in order. *)
Lemma keep_mask_unique (dates : list timestamp) :
  NoDup (map fst (zip (map session_id df_sessions) dates)) ->
  keep_mask dates =
    map (fun row : nat * DatedOrder =>
           negb (ts_lt (d_date (snd row))
                   (match List.find
                            (fun s : option Z * timestamp =>
                               bool_decide (fst s = d_session_id (snd row)))
                            (zip (map session_id df_sessions) dates) with
                    | Some s => snd s
                    | None => None
                    end)))
        df_orders1.
Proof.
  intros Hnd. unfold keep_mask.
  rewrite (merge_left_unique _ fst _ _ Hnd), !map_map. reflexivity.
Qed.

(** Without null ids the index labels are the row positions. *)
Lemma df_orders1_positions :
  Forall (fun o => is_Some (raw_order_id o)) df_orders ->
  length df_orders1 = length df_orders /\
  (forall i row, df_orders1 !! i = Some row -> fst row = i).
Proof.
  intros Hids. unfold df_orders1.
  rewrite (filter_all _ (imap (fun i o => (i, o)) df_orders)).
  2:{ intros [i o] Hin. apply list_elem_of_In, elem_of_lookup_imap in Hin
        as (j & o' & [= -> ->] & Hlook).
      apply bool_decide_eq_true. simpl.
      rewrite Forall_forall in Hids. apply Hids.
      eapply list_elem_of_lookup_2. exact Hlook. }
  split; [rewrite length_map, length_imap; reflexivity|].
  intros i row Hrow.
  change (map ?f ?l) with (f <$> l) in Hrow.
  rewrite list_lookup_fmap, list_lookup_imap in Hrow.
  destruct (df_orders !! i); simpl in Hrow; [|discriminate].
  injection Hrow as <-. reflexivity.
Qed.

(** X7. When every order has an order_id and no two sessions share a
    session_id, the date check of [clean_orders] does its job: no remaining
    order is dated before the session it belongs to. *)
Theorem clean_orders_dates_validated (out : list Order) (self' : Cleaner) :
  Forall (fun o => is_Some (raw_order_id o)) df_orders ->
  NoDup (map session_id df_sessions) ->
  clean_orders parse_datetime parse_number log1p quantile
               self df_orders df_sessions = Ok (out, self') ->
  forall o s sd,
    In o out -> In s df_sessions ->
    session_id s = order_session_id o ->
    to_datetime parse_datetime (session_date s) = Ok sd ->
    ts_lt (order_date o) sd = false.
Proof.
  intros Hids Hnd H o s sd Ho Hs Hkey Hsd.
  destruct (clean_orders_shape out self' H) as (dates & df2 & q75 & Hd & Hb & ->).
  apply boolean_index_Ok in Hb as [-> _].
  apply mapM_Forall2 in Hd.
  assert (NoDup (map fst (zip (map session_id df_sessions) dates))) as Hnd'.
  { rewrite (Forall2_zip_fst _ session_id _ _ Hd). exact Hnd. }
  apply in_map_iff in Ho as (rv & <- & Hrv).
  apply filter_In in Hrv as [Hrv _].
  apply in_map_iff in Hrv as (row & <- & Hrow).
  apply filter_In in Hrow as [Hrow Hkeep].
  simpl in *.
  destruct (df_orders1_positions Hids) as [_ Hpos].
  apply list_elem_of_In, list_elem_of_lookup_1 in Hrow as [i Hi].
  rewrite (Hpos i row Hi), (keep_mask_unique dates Hnd') in Hkeep.
  change (map ?f ?l) with (f <$> l) in Hkeep.
  rewrite list_lookup_fmap, Hi in Hkeep. simpl in Hkeep.
  apply negb_true_iff in Hkeep.
  destruct (Forall2_zip_map_In _ session_id _ _ s Hd Hs) as (sd' & Hin & Hsd').
  assert (sd' = sd) as -> by congruence.
  destruct (List.find
              (fun s0 : option Z * timestamp =>
                 bool_decide (fst s0 = d_session_id (snd row)))
              (zip (map session_id df_sessions) dates)) as [[k d]|] eqn:Hfind.
  - apply find_some in Hfind as [Hin' Hk].
    apply bool_decide_eq_true in Hk. simpl in Hk. subst k.
    rewrite <- Hkey in Hin'.
    rewrite (NoDup_fst_functional _ _ _ _ Hnd' Hin Hin'). exact Hkeep.
  - exfalso. apply (find_none _ _ Hfind) in Hin.
    apply bool_decide_eq_false in Hin. apply Hin. exact Hkey.
Qed.

(** X8. When session ids are unique and their dates parse, an order
    without an order_id anywhere in a table whose last order has one makes
    [clean_orders] fail: the rows keep their index labels after the null
    ids are dropped, the mask built from the merged frame is shorter, and
    indexing with it raises IndexingError. *)
Theorem clean_orders_null_id_misaligns (null_row last_row : RawOrder) :
  Forall (fun s => date_parses parse_datetime (session_date s)) df_sessions ->
  NoDup (map session_id df_sessions) ->
  In null_row df_orders -> raw_order_id null_row = None ->
  last df_orders = Some last_row -> is_Some (raw_order_id last_row) ->
  clean_orders parse_datetime parse_number log1p quantile
               self df_orders df_sessions =
    Raise (IndexingError "Unalignable boolean Series provided as indexer").
Proof.
  intros Hdates Hnd Hnull Hnone Hlast Hsome.
  destruct (mapM_Ok (fun s => to_datetime parse_datetime (session_date s))
                    df_sessions) as [dates Hd].
  { eapply Forall_impl; [exact Hdates|]. intros r. apply to_datetime_Ok. }
  unfold clean_orders. rewrite Hd. simpl.
  fold df_orders1. fold (keep_mask dates).
  unfold boolean_index.
  destruct (forallb (fun row : nat * DatedOrder =>
                       (fst row <? length (keep_mask dates))%nat) df_orders1)
    eqn:Hall; [|reflexivity].
  exfalso. rewrite forallb_forall in Hall.
  assert (NoDup (map fst (zip (map session_id df_sessions) dates))) as Hnd'.
  { rewrite (Forall2_zip_fst _ session_id _ _ (mapM_Forall2 _ _ _ Hd)).
    exact Hnd. }
  rewrite (keep_mask_unique dates Hnd'), length_map in Hall.
  assert (length df_orders1 < length df_orders)%nat as Hshort.
  { unfold df_orders1. rewrite length_map.
    rewrite <- (length_imap (fun i o => (i, o)) df_orders).
    apply list_elem_of_In, list_elem_of_lookup_1 in Hnull as [j Hj].
    apply (filter_length_lt _ _ (j, null_row)).
    - apply list_elem_of_In. apply (elem_of_lookup_imap_2 (fun i o => (i, o))).
      exact Hj.
    - simpl. rewrite Hnone. reflexivity. }
  rewrite last_lookup in Hlast.
  set (g := fun row : nat * RawOrder =>
         (fst row,
          mkDated (raw_order_id (snd row)) (raw_session_id (snd row))
                  (to_datetime_coerce parse_datetime (raw_order_date (snd row)))
                  (raw_order_value (snd row)))).
  assert (In (g (pred (length df_orders), last_row)) df_orders1) as Hin.
  { unfold df_orders1. apply in_map. apply filter_In. split.
    - apply list_elem_of_In. apply (elem_of_lookup_imap_2 (fun i o => (i, o))).
      exact Hlast.
    - apply bool_decide_eq_true. exact Hsome. }
  apply Hall in Hin. apply Nat.ltb_lt in Hin. simpl in Hin. lia.
Qed.
End CleanOrders.

Lemma clean_orders_keeps_input_rows_witness :
  NoDup (map order_label cleaned_orders) /\
  (length cleaned_orders <= length sample_orders)%nat /\
  (forall o, In o cleaned_orders ->
     exists raw,
       sample_orders !! order_label o = Some raw /\
       is_Some (order_id o) /\
       order_id o = raw_order_id raw /\
       order_session_id o = raw_session_id raw /\
       order_date o = to_datetime_coerce no_dates (raw_order_date raw) /\
       order_value o = to_numeric_coerce no_numbers (raw_order_value raw)).
Proof.
  apply (clean_orders_keeps_input_rows no_dates no_numbers no_log no_quantile
           new_cleaner sample_orders sample_sessions cleaned_orders
           (report_set new_cleaner "orders_removed" 1)).
  vm_compute. reflexivity.
Defined.

Lemma clean_orders_dates_validated_witness :
  ts_lt (Some 10%Z) (Some 0%Z) = false.
Proof.
  apply (clean_orders_dates_validated no_dates no_numbers no_log no_quantile
           new_cleaner sample_orders sample_sessions cleaned_orders
           (report_set new_cleaner "orders_removed" 1)
           ltac:(repeat (constructor; [eexists; reflexivity|]); constructor)
           ltac:(apply (bool_decide_unpack _); vm_compute; reflexivity)
           ltac:(vm_compute; reflexivity)
           (mkOrder 0 (Some 1%Z) (Some 1%Z) (Some 10%Z) (Some 10%Q) None 0)
           (mkSession (Some 1%Z) (Some 7%Z) (DTime 0)
                      (Some "Organic") (Some "Mobile") (Some 30%Q))
           (Some 0%Z));
    [left; reflexivity | left; reflexivity | reflexivity | reflexivity].
Defined.

Lemma clean_orders_null_id_misaligns_witness :
  clean_orders no_dates no_numbers no_log no_quantile
               new_cleaner orders_with_null_id sample_sessions =
    Raise (IndexingError "Unalignable boolean Series provided as indexer").
Proof.
  apply (clean_orders_null_id_misaligns no_dates no_numbers no_log no_quantile
           new_cleaner orders_with_null_id sample_sessions
           (mkRawOrder None (Some 1%Z) (DTime 10) (VNum 5))
           (mkRawOrder (Some 2%Z) (Some 1%Z) (DTime 10) (VNum 7))).
  - repeat constructor.
  - apply (bool_decide_unpack _). vm_compute. reflexivity.
  - left. reflexivity.
  - reflexivity.
  - reflexivity.
  - eexists. reflexivity.
Defined.

(** Why X7 asks for unique session ids: with session 1 listed twice the
    merged frame has two rows per order, the mask no longer lines up with
    the orders, and the order dated before its session stays. *)
Example duplicate_sessions_defeat_the_date_check :
  exists out self',
    clean_orders no_dates no_numbers no_log no_quantile
                 new_cleaner orders_late_and_early sessions_listed_twice
      = Ok (out, self') /\
    map order_date out = [Some 200%Z; Some 50%Z] /\
    cleaning_report self' !! "orders_removed" = Some 2%Z.
Proof. do 2 eexists. split; [vm_compute; reflexivity|]. split; vm_compute; reflexivity. Qed.

(** *** [clean_refunds] *)

Lemma lt_ge_count (rows : list Refund) :
  (count_true (map (fun r => ts_lt (refund_date r) (refund_order_date r)) rows)
   + Z.of_nat (length (List.filter
                         (fun r => ts_ge (refund_date r) (refund_order_date r))
                         rows))
   <= Z.of_nat (length rows))%Z.
Proof.
  unfold count_true. induction rows as [|r rows IH]; simpl; [lia|].
  destruct (refund_date r) as [x|], (refund_order_date r) as [y|]; simpl;
    try lia.
  destruct (x <? y)%Z eqn:Hlt, (y <=? x)%Z eqn:Hle; simpl; lia.
Qed.

(** X9. [clean_refunds] never drops a valid refund: a refund whose date
    parses and is not before the date of an order with the same order_id is
    in the output, with that order's date and the whole days between. *)
Theorem clean_refunds_keeps_valid_refunds
        (parse_datetime : string -> option Z) (self : Cleaner)
        (df_refunds : list RawRefund) (df_orders : list Order)
        (out : list Refund) (self' : Cleaner)
        (raw : RawRefund) (o : Order) (rd od : Z) :
  clean_refunds parse_datetime self df_refunds df_orders = Ok (out, self') ->
  In raw df_refunds ->
  to_datetime parse_datetime (raw_refund_date raw) = Ok (Some rd) ->
  In o df_orders ->
  order_id o = raw_refund_order_id raw ->
  order_date o = Some od ->
  (od <= rd)%Z ->
  In (mkRefund (raw_refund_id raw) (raw_refund_order_id raw) (Some rd)
               (raw_reason raw) (Some od) (Some ((rd - od) / ns_per_day)%Z))
     out.
Proof.
  unfold clean_refunds. intros H Hraw Hrd Ho Hkey Hod Hle.
  apply result_bind_Ok in H as (dates & Hd & H).
  injection H as <- _.
  apply mapM_Forall2 in Hd.
  destruct (Forall2_zip_In _ _ _ raw Hd Hraw) as (y & Hzip & Hy).
  assert (y = Some rd) as -> by congruence.
  pose proof (merge_left_In_intro
                (fun rd0 : RawRefund * timestamp => raw_refund_order_id (fst rd0))
                order_id _ _ (raw, Some rd) o Hzip Ho Hkey) as Hm.
  apply in_map_iff.
  exists (mkRefund (raw_refund_id raw) (raw_refund_order_id raw) (Some rd)
                   (raw_reason raw) (Some od) None).
  split; [reflexivity|].
  apply filter_In. split.
  - apply in_map_iff. exists ((raw, Some rd), Some o). simpl.
    rewrite Hod. split; [reflexivity|exact Hm].
  - simpl. apply Z.leb_le. exact Hle.
Qed.

Lemma clean_refunds_keeps_valid_refunds_witness :
  In (mkRefund (Some 1%Z) (Some 1%Z) (Some (10 + 2 * ns_per_day)%Z)
               (Some "Damaged") (Some 10%Z)
               (Some ((10 + 2 * ns_per_day - 10) / ns_per_day)%Z))
     cleaned_refunds.
Proof.
  apply (clean_refunds_keeps_valid_refunds no_dates new_cleaner sample_refunds
           cleaned_orders cleaned_refunds
           (report_set new_cleaner "refunds_removed" 1)
           (mkRawRefund (Some 1%Z) (Some 1%Z)
                        (DTime (10 + 2 * ns_per_day)) (Some "Damaged"))
           (mkOrder 0 (Some 1%Z) (Some 1%Z) (Some 10%Z) (Some 10%Q) None 0)
           (10 + 2 * ns_per_day)%Z 10%Z).
  - vm_compute. reflexivity.
  - left. reflexivity.
  - reflexivity.
  - left. reflexivity.
  - reflexivity.
  - reflexivity.
  - vm_compute. discriminate.
Defined.

(** X10. When the orders table has no repeated order_id, [clean_refunds]
    returns at most as many refunds as it was given, and the count it
    reports as removed is never more than the number of rows it dropped
    (refunds without a date or without a dated matching order are dropped
    uncounted). *)
Theorem clean_refunds_report_bounds
        (parse_datetime : string -> option Z) (self : Cleaner)
        (df_refunds : list RawRefund) (df_orders : list Order)
        (out : list Refund) (self' : Cleaner) :
  NoDup (map order_id df_orders) ->
  clean_refunds parse_datetime self df_refunds df_orders = Ok (out, self') ->
  exists removed,
    cleaning_report self' !! "refunds_removed" = Some removed /\
    (0 <= removed)%Z /\
    (removed + Z.of_nat (length out) <= Z.of_nat (length df_refunds))%Z.
Proof.
  unfold clean_refunds. intros Hnd H.
  apply result_bind_Ok in H as (dates & Hd & H).
  injection H as <- <-.
  apply mapM_Forall2 in Hd.
  eexists. split; [apply lookup_insert_eq|].
  split; [unfold count_true; lia|].
  rewrite length_map, (merge_left_unique _ order_id _ _ Hnd).
  match goal with
  | |- context [List.filter _ ?rows] => pose proof (lt_ge_count rows) as Hcount
  end.
  rewrite !length_map, length_zip_with in Hcount.
  apply Forall2_length in Hd. lia.
Qed.

Lemma clean_refunds_report_bounds_witness :
  exists removed,
    cleaning_report (report_set new_cleaner "refunds_removed" 1)
      !! "refunds_removed" = Some removed /\
    (0 <= removed)%Z /\
    (removed + Z.of_nat (length cleaned_refunds)
     <= Z.of_nat (length sample_refunds))%Z.
Proof.
  apply (clean_refunds_report_bounds no_dates new_cleaner sample_refunds
           cleaned_orders cleaned_refunds
           (report_set new_cleaner "refunds_removed" 1)).
  - apply (bool_decide_unpack _). vm_compute. reflexivity.
  - vm_compute. reflexivity.
Defined.

(** Why X10 asks for unique order ids: one refund of an order listed twice
    comes out twice. *)
Example repeated_order_id_repeats_the_refund :
  exists out self',
    clean_refunds no_dates new_cleaner one_refund orders_listed_twice
      = Ok (out, self') /\
    length out = 2%nat.
Proof. do 2 eexists. split; vm_compute; reflexivity. Qed.

End CleanerProofs.

From Stdlib Require Import Lqa.

(** * Properties of the master table *)

Module MasterProofs.
Import Pandas Pipeline Spec PipelineSamples PipelineSpec.
Import PandasProofs MetricsProofs SessionProofs CleanerProofs.

(** *** Grouping and merging with a grouped frame *)

Lemma groupby_id_lookup {A} (key : A -> option Z) (df : list A) (k : Z) :
  groupby_id key df !! k =
    match List.filter (fun r => bool_decide (key r = Some k)) df with
    | [] => None
    | rows => Some rows
    end.
Proof.
  induction df as [|r df IH]; simpl; [apply lookup_empty|].
  fold (groupby_id key df).
  destruct (key r) as [k'|] eqn:Hkey.
  - destruct (decide (k' = k)) as [->|Hne].
    + rewrite lookup_insert_eq, bool_decide_eq_true_2 by reflexivity.
      rewrite IH.
      destruct (List.filter (fun r0 => bool_decide (key r0 = Some k)) df);
        reflexivity.
    + rewrite lookup_insert_ne by exact Hne.
      rewrite bool_decide_eq_false_2 by congruence. exact IH.
  - rewrite bool_decide_eq_false_2 by discriminate. exact IH.
Qed.

Lemma NoDup_some_keys {V} (m : gmap Z V) :
  NoDup (map (fun kv : Z * V => Some (fst kv)) (map_to_list m)).
Proof.
  rewrite <- (map_map fst Some (map_to_list m)).
  apply (NoDup_fmap_2 Some), NoDup_fst_map_to_list.
Qed.

Lemma find_map_to_list {V} (m : gmap Z V) (ok : option Z) :
  List.find (fun kv : Z * V => bool_decide (Some (fst kv) = ok)) (map_to_list m)
  = ok ≫= fun k => (fun v => (k, v)) <$> m !! k.
Proof.
  destruct (List.find _ _) as [[k' v]|] eqn:Hfind.
  - apply find_some in Hfind as [Hin Hk]. apply bool_decide_eq_true in Hk.
    simpl in Hk. subst ok. simpl.
    apply list_elem_of_In, elem_of_map_to_list in Hin. rewrite Hin. reflexivity.
  - destruct ok as [k|]; [|reflexivity]. simpl.
    destruct (m !! k) as [v|] eqn:Hlook; [|reflexivity].
    exfalso. apply elem_of_map_to_list, list_elem_of_In in Hlook.
    apply (find_none _ _ Hfind) in Hlook.
    apply bool_decide_eq_false in Hlook. apply Hlook. reflexivity.
Qed.

(** A left merge with a grouped frame is a lookup by key. *)
Lemma merge_grouped {A V} (key_l : A -> option Z) (left : list A) (m : gmap Z V) :
  merge_left key_l (fun kv : Z * V => Some (fst kv)) left (map_to_list m) =
    map (fun a => (a, key_l a ≫= fun k => (fun v => (k, v)) <$> m !! k)) left.
Proof.
  rewrite (merge_left_unique _ _ _ _ (NoDup_some_keys m)).
  apply map_ext. intros a. rewrite find_map_to_list. reflexivity.
Qed.

Lemma filter_map_swap' {A B} (f : A -> B) (p : B -> bool) (l : list A) :
  List.filter p (map f l) = map f (List.filter (fun a => p (f a)) l).
Proof.
  induction l as [|a l IH]; simpl; [reflexivity|].
  destruct (p (f a)); simpl; rewrite IH; reflexivity.
Qed.

Lemma existsb_filter {A} (p : A -> bool) (l : list A) :
  existsb p l = match List.filter p l with [] => false | _ => true end.
Proof.
  induction l as [|a l IH]; simpl; [reflexivity|].
  destruct (p a); simpl; [reflexivity|exact IH].
Qed.

Lemma refund_flag_lookup (df_refunds : list Refund) (o : Order) :
  default 0%Q
    (snd <$> (order_id o ≫= fun k =>
                (fun v => (k, v))
                  <$> ((fun _ : list Refund => 1%Q)
                         <$> groupby_id refund_order_id df_refunds) !! k))
  = refund_flag df_refunds o.
Proof.
  unfold refund_flag, has_refund.
  destruct (order_id o) as [oid|]; simpl; [|reflexivity].
  rewrite lookup_fmap, groupby_id_lookup, existsb_filter.
  destruct (List.filter _ df_refunds); reflexivity.
Qed.

(** The two merges of [create_master_dataset], row by row: one master row
    per session, built from that session's orders. *)
Lemma create_master_dataset_rows (df_sessions : list CleanSession)
      (df_orders : list Order) (df_refunds : list Refund) :
  create_master_dataset df_sessions df_orders df_refunds =
    map (master_row df_orders df_refunds) df_sessions.
Proof.
  unfold create_master_dataset.
  rewrite !merge_grouped, !map_map.
  apply map_ext. intros s. simpl.
  unfold master_row, session_orders.
  destruct (cs_session_id s) as [k|]; simpl; [|reflexivity].
  rewrite !lookup_fmap, !groupby_id_lookup, filter_map_swap'. simpl.
  destruct (List.filter (fun o => bool_decide (order_session_id o = Some k))
                        df_orders) as [|o rows]; [reflexivity|].
  cbn [map fmap option_fmap option_map mbind option_bind snd fst].
  rewrite !map_map. cbn [snd].
  rewrite (map_ext _ (refund_flag df_refunds)
             (fun o0 => refund_flag_lookup df_refunds o0)).
  rewrite (refund_flag_lookup df_refunds o).
  reflexivity.
Qed.

Lemma omap_nonempty {A B} (f : A -> option B) (l : list A) :
  (0 < length (omap f l))%nat <-> exists x, In x l /\ is_Some (f x).
Proof.
  induction l as [|a l IH]; simpl.
  - split; [lia|intros (x & [] & _)].
  - destruct (f a) as [b|] eqn:Hfa; simpl.
    + split; [|lia]. intros _. exists a. split; [left; reflexivity|].
      rewrite Hfa. eexists. reflexivity.
    + rewrite IH. split.
      * intros (x & Hx & Hs). exists x. auto.
      * intros (x & [<-|Hx] & Hs); [|eauto].
        rewrite Hfa in Hs. destruct Hs as [? [=]].
Qed.

Lemma Qlt_bool_count (n : nat) :
  Qlt_bool 0 (inject_Z (Z.of_nat n)) = true <-> (0 < n)%nat.
Proof.
  rewrite Qlt_bool_true. change 0%Q with (inject_Z 0).
  rewrite <- Zlt_Qlt. lia.
Qed.

(** The largest of a group of refund flags is 1 exactly when one of the
    orders has a refund. *)
Lemma max_of_flags (df_refunds : list Refund) (rows : list Order) (b : bool) :
  fold_left (fun acc x => if Qle_bool x acc then acc else x)
            (map (refund_flag df_refunds) rows) (if b then 1%Q else 0%Q)
  = if b || existsb (has_refund df_refunds) rows then 1%Q else 0%Q.
Proof.
  revert b. induction rows as [|o rows IH]; intros b; simpl.
  - rewrite orb_false_r. reflexivity.
  - change (refund_flag df_refunds o)
      with (if has_refund df_refunds o then 1%Q else 0%Q).
    destruct b, (has_refund df_refunds o); simpl.
    + apply (IH true).
    + apply (IH true).
    + apply (IH true).
    + apply (IH false).
Qed.

Lemma series_max_flags (df_refunds : list Refund) (o : Order) (rows : list Order) :
  series_max (map (refund_flag df_refunds) (o :: rows)) =
    Some (if existsb (has_refund df_refunds) (o :: rows) then 1%Q else 0%Q).
Proof.
  simpl. f_equal.
  change (refund_flag df_refunds o)
    with (if has_refund df_refunds o then 1%Q else 0%Q).
  apply (max_of_flags df_refunds rows (has_refund df_refunds o)).
Qed.

Section Master.
Variable df_sessions : list CleanSession.
Variable df_orders : list Order.
Variable df_refunds : list Refund.

Let master : list MasterRow :=
  create_master_dataset df_sessions df_orders df_refunds.

(** X11. The master table has exactly one row per session, in the order of
    the sessions table, however many orders or refunds a session has. *)
Theorem master_one_row_per_session :
  map mr_session master = df_sessions /\ length master = length df_sessions.
Proof.
  unfold master. rewrite create_master_dataset_rows.
  split; [|apply length_map].
  rewrite map_map. rewrite <- (map_id df_sessions) at 2.
  apply map_ext. intros s. unfold master_row.
  destruct (session_orders df_orders s); reflexivity.
Qed.

(** X12. A master row is marked converted exactly when its session has an
    order with an order_id; conversion_flag is 1 then and 0 otherwise;
    orders_in_session counts those orders and is missing when the session
    has no order at all. *)
Theorem master_conversion_flags (row : MasterRow) :
  In row master ->
  (mr_converted row = true <->
   exists o, In o (session_orders df_orders (mr_session row)) /\
             is_Some (order_id o)) /\
  mr_conversion_flag row = (if mr_converted row then 1 else 0)%Z /\
  mr_orders_in_session row =
    match session_orders df_orders (mr_session row) with
    | [] => None
    | rows => Some (inject_Z (Z.of_nat (length (omap order_id rows))))
    end.
Proof.
  unfold master. rewrite create_master_dataset_rows.
  intros Hrow. apply in_map_iff in Hrow as (s & <- & _).
  unfold master_row.
  destruct (session_orders df_orders s) as [|o rows] eqn:Hrows; simpl.
  - rewrite Hrows. split; [|split; reflexivity].
    split; [discriminate|]. intros (o & [] & _).
  - rewrite Hrows. split; [|split; reflexivity].
    rewrite Qlt_bool_count.
    apply (omap_nonempty order_id (o :: rows)).
Qed.

(** X13. was_refunded is 0 or 1 on every master row, and it is 1 exactly
    when one of the session's orders has an order_id that a refund names. *)
Theorem master_refund_flags (row : MasterRow) :
  In row master ->
  (mr_was_refunded row = Some 0%Q \/ mr_was_refunded row = Some 1%Q) /\
  (mr_was_refunded row = Some 1%Q <->
   exists o, In o (session_orders df_orders (mr_session row)) /\
             has_refund df_refunds o = true).
Proof.
  unfold master. rewrite create_master_dataset_rows.
  intros Hrow. apply in_map_iff in Hrow as (s & <- & _).
  unfold master_row.
  destruct (session_orders df_orders s) as [|o rows] eqn:Hrows.
  - simpl. rewrite Hrows. split; [left; reflexivity|].
    split; [discriminate|]. intros (o & [] & _).
  - cbn [mr_was_refunded mr_session]. rewrite Hrows, series_max_flags.
    cbn [default].
    destruct (existsb (has_refund df_refunds) (o :: rows)) eqn:Hex.
    + split; [right; reflexivity|]. split; [|reflexivity].
      intros _. apply existsb_exists in Hex. exact Hex.
    + split; [left; reflexivity|]. split; [discriminate|].
      intros Hsome. apply existsb_exists in Hsome. congruence.
Qed.
Lemma master_row_refund_le (s : CleanSession) :
  let row := master_row df_orders df_refunds s in
  (0 <= default 0 (mr_was_refunded row))%Q /\
  (default 0 (mr_was_refunded row) <= default 0 (mr_orders_in_session row))%Q.
Proof.
  unfold master_row.
  destruct (session_orders df_orders s) as [|o rows] eqn:Hrows.
  - simpl. split; apply Qle_refl.
  - cbn [mr_was_refunded mr_orders_in_session].
    rewrite series_max_flags. cbn [default].
    set (n := length (omap order_id (o :: rows))).
    assert (0 <= inject_Z (Z.of_nat n))%Q as Hn.
    { change (inject_Z 0 <= inject_Z (Z.of_nat n))%Q. rewrite <- Zle_Qle. lia. }
    destruct (existsb (has_refund df_refunds) (o :: rows)) eqn:Hex.
    + split; [discriminate|].
      apply existsb_exists in Hex as (o' & Ho' & Href).
      assert (0 < n)%nat as Hpos.
      { apply omap_nonempty. exists o'. split; [exact Ho'|].
        unfold has_refund in Href. destruct (order_id o'); [eauto|discriminate]. }
      change (inject_Z 1 <= inject_Z (Z.of_nat n))%Q. rewrite <- Zle_Qle. lia.
    + split; [apply Qle_refl|exact Hn].
Qed.

Lemma sum_float_le {A} (f g : A -> cell) (l : list A) :
  (forall x, In x l ->
     (0 <= default 0 (f x))%Q /\ (default 0 (f x) <= default 0 (g x))%Q) ->
  (0 <= sum_float (map f l))%Q /\
  (sum_float (map f l) <= sum_float (map g l))%Q.
Proof.
  induction l as [|a l IH]; intros Hall; simpl.
  - split; apply Qle_refl.
  - destruct IH as [IH0 IHle].
    { intros x Hx. apply Hall. right. exact Hx. }
    destruct (Hall a (or_introl eq_refl)) as [H0 Hle].
    destruct (f a) as [x|], (g a) as [y|]; simpl in *; split; lra.
Qed.

Lemma quality_rate_bounded (df : list Master) :
  (0 <= refunded_orders df)%Q ->
  (refunded_orders df <= total_orders df)%Q ->
  exists q, quality_metrics df = Ok q /\
            rate_in_unit_interval (overall_refund_rate q).
Proof.
  intros Hnonneg Hle.
  destruct (quality_metrics_Ok df) as (q & Hq & Hrate).
  exists q. split; [exact Hq|]. rewrite Hrate.
  destruct (Qlt_bool 0 (total_orders df)) eqn:Hpos.
  - apply Qlt_bool_true in Hpos. rewrite (np_true_divide_pos _ _ Hpos).
    simpl. apply ratio_in_unit_interval; assumption.
  - simpl. lia.
Qed.

(** X14. On a master table built by [create_master_dataset] the refunded
    sessions never outnumber the orders, so [quality_metrics] always
    returns an overall_refund_rate within [0, 1]. *)
Theorem pipeline_refund_rate_bounded :
  (0 <= refunded_orders (map as_master master))%Q /\
  (refunded_orders (map as_master master)
   <= total_orders (map as_master master))%Q /\
  exists q, quality_metrics (map as_master master) = Ok q /\
            rate_in_unit_interval (overall_refund_rate q).
Proof.
  assert ((0 <= refunded_orders (map as_master master))%Q /\
          (refunded_orders (map as_master master)
           <= total_orders (map as_master master))%Q) as [H0 Hle].
  { unfold refunded_orders, total_orders, master.
    rewrite create_master_dataset_rows, !map_map.
    apply (sum_float_le
             (fun s => mr_was_refunded (master_row df_orders df_refunds s))
             (fun s => mr_orders_in_session (master_row df_orders df_refunds s))).
    intros s _. apply master_row_refund_le. }
  split; [exact H0|]. split; [exact Hle|].
  apply quality_rate_bounded; assumption.
Qed.

Lemma converted_count (l : list CleanSession) :
  sum_int (map conversion_flag
             (map as_master (map (master_row df_orders df_refunds) l)))
  = Z.of_nat (length (List.filter mr_converted
                        (map (master_row df_orders df_refunds) l))).
Proof.
  induction l as [|s l IH]; simpl; [reflexivity|].
  rewrite IH.
  assert (mr_conversion_flag (master_row df_orders df_refunds s) =
          (if mr_converted (master_row df_orders df_refunds s) then 1 else 0)%Z)
    as Hflag.
  { unfold master_row. destruct (session_orders df_orders s); reflexivity. }
  rewrite Hflag.
  destruct (mr_converted (master_row df_orders df_refunds s)); simpl; lia.
Qed.

(** X15. On a master table built from at least one session
    [conversion_metrics] reports as total_conversions the number of
    converted sessions, and an overall_conversion_rate that is this number
    over the number of sessions, within [0, 1]. *)
Theorem pipeline_conversion_rate_bounded :
  df_sessions <> [] ->
  exists c q,
    conversion_metrics (map as_master master) = Ok c /\
    total_conversions c = Z.of_nat (length (List.filter mr_converted master)) /\
    (0 <= total_conversions c <= Z.of_nat (length df_sessions))%Z /\
    overall_conversion_rate c = NpFloat (Fin q) /\
    q = (inject_Z (total_conversions c)
         / inject_Z (Z.of_nat (length df_sessions)))%Q /\
    (0 <= q)%Q /\ (q <= 1)%Q.
Proof.
  intros Hne.
  assert (0 < length df_sessions)%nat as Hlen
    by (destruct df_sessions; [congruence|simpl; lia]).
  assert (length (List.filter mr_converted master) <= length df_sessions)%nat
    as Hconv.
  { etransitivity; [apply filter_length_le|].
    unfold master. rewrite create_master_dataset_rows, length_map. lia. }
  assert (sum_int (map conversion_flag (map as_master master))
          = Z.of_nat (length (List.filter mr_converted master))) as Hsum.
  { unfold master. rewrite create_master_dataset_rows. apply converted_count. }
  assert (py_len (map as_master master) = Z.of_nat (length df_sessions)) as Hpy.
  { unfold py_len, master.
    rewrite create_master_dataset_rows, !length_map. reflexivity. }
  assert (0 < inject_Z (Z.of_nat (length df_sessions)))%Q as Hpos.
  { change (inject_Z 0 < inject_Z (Z.of_nat (length df_sessions)))%Q.
    rewrite <- Zlt_Qlt. lia. }
  do 2 eexists. split; [apply conversion_metrics_Ok|].
  cbn [overall_conversion_rate total_conversions].
  rewrite Hsum, Hpy, (np_true_divide_pos _ _ Hpos).
  split; [reflexivity|]. split; [lia|]. split; [reflexivity|].
  split; [reflexivity|].
  apply ratio_in_unit_interval.
  - match goal with
    | |- (0 <= inject_Z ?z)%Q => change (inject_Z 0 <= inject_Z z)%Q
    end.
    rewrite <- Zle_Qle. lia.
  - rewrite <- Zle_Qle. lia.
  - exact Hpos.
Qed.
End Master.

Lemma master_conversion_flags_witness :
  In refunded_row (create_master_dataset clean_sample orders_sample cleaned_refunds) /\
  (mr_converted refunded_row = true <->
   exists o, In o (session_orders orders_sample (mr_session refunded_row)) /\
             is_Some (order_id o)) /\
  mr_conversion_flag refunded_row = (if mr_converted refunded_row then 1 else 0)%Z /\
  mr_orders_in_session refunded_row =
    match session_orders orders_sample (mr_session refunded_row) with
    | [] => None
    | rows => Some (inject_Z (Z.of_nat (length (omap order_id rows))))
    end.
Proof.
  assert (In refunded_row
            (create_master_dataset clean_sample orders_sample cleaned_refunds))
    as Hin by (vm_compute; left; reflexivity).
  split; [exact Hin|].
  exact (master_conversion_flags clean_sample orders_sample cleaned_refunds
           refunded_row Hin).
Defined.

Lemma master_refund_flags_witness :
  In refunded_row (create_master_dataset clean_sample orders_sample cleaned_refunds) /\
  (mr_was_refunded refunded_row = Some 0%Q \/
   mr_was_refunded refunded_row = Some 1%Q) /\
  (mr_was_refunded refunded_row = Some 1%Q <->
   exists o, In o (session_orders orders_sample (mr_session refunded_row)) /\
             has_refund cleaned_refunds o = true).
Proof.
  assert (In refunded_row
            (create_master_dataset clean_sample orders_sample cleaned_refunds))
    as Hin by (vm_compute; left; reflexivity).
  split; [exact Hin|].
  exact (master_refund_flags clean_sample orders_sample cleaned_refunds
           refunded_row Hin).
Defined.

Lemma pipeline_conversion_rate_bounded_witness :
  exists c q,
    conversion_metrics
      (map as_master
         (create_master_dataset clean_sample orders_sample cleaned_refunds)) = Ok c /\
    total_conversions c =
      Z.of_nat (length (List.filter mr_converted
        (create_master_dataset clean_sample orders_sample cleaned_refunds))) /\
    (0 <= total_conversions c <= Z.of_nat (length clean_sample))%Z /\
    overall_conversion_rate c = NpFloat (Fin q) /\
    q = (inject_Z (total_conversions c)
         / inject_Z (Z.of_nat (length clean_sample)))%Q /\
    (0 <= q)%Q /\ (q <= 1)%Q.
Proof.
  apply (pipeline_conversion_rate_bounded clean_sample orders_sample
           cleaned_refunds).
  discriminate.
Defined.

(** On the samples: three sessions, two converted, one refunded out of
    three orders. *)
Example pipeline_sample_rates :
  exists c q,
    conversion_metrics
      (map as_master
         (create_master_dataset clean_sample orders_sample cleaned_refunds)) = Ok c /\
    overall_conversion_rate c = NpFloat (Fin (2 # 3)) /\
    quality_metrics
      (map as_master
         (create_master_dataset clean_sample orders_sample cleaned_refunds)) = Ok q /\
    overall_refund_rate q = NpFloat (Fin (1 # 3)).
Proof. do 2 eexists. repeat split; vm_compute; reflexivity. Qed.

End MasterProofs.

(** * What the grouped metrics hold, key by key *)

Module GroupProofs.
Import Pandas Pipeline Spec PipelineSamples PipelineSpec DataExport.
Import PandasProofs MetricsProofs SessionProofs CleanerProofs MasterProofs.

Lemma value_counts_lookup `{Countable K} (col : list (option K)) (k : K) :
  value_counts col !! k =
    match length (List.filter (fun c => bool_decide (c = Some k)) col) with
    | O => None
    | S n => Some (S n)
    end.
Proof.
  induction col as [|c col IH]; simpl; [apply lookup_empty|].
  fold (value_counts col).
  destruct c as [k'|].
  - destruct (decide (k' = k)) as [->|Hne].
    + rewrite lookup_insert_eq, bool_decide_eq_true_2 by reflexivity.
      rewrite IH. simpl.
      destruct (length (List.filter (fun c => bool_decide (c = Some k)) col));
        reflexivity.
    + rewrite lookup_insert_ne by exact Hne.
      rewrite bool_decide_eq_false_2 by congruence. exact IH.
  - rewrite bool_decide_eq_false_2 by discriminate. exact IH.
Qed.

Lemma groupby_lookup {A} (key : A -> option string) (df : list A) (k : string) :
  groupby key df !! k =
    match List.filter (fun r => bool_decide (key r = Some k)) df with
    | [] => None
    | rows => Some rows
    end.
Proof.
  induction df as [|r df IH]; simpl; [apply lookup_empty|].
  fold (groupby key df).
  destruct (key r) as [k'|] eqn:Hkey.
  - destruct (decide (k' = k)) as [->|Hne].
    + rewrite lookup_insert_eq, bool_decide_eq_true_2 by reflexivity.
      rewrite IH.
      destruct (List.filter (fun r0 => bool_decide (key r0 = Some k)) df);
        reflexivity.
    + rewrite lookup_insert_ne by exact Hne.
      rewrite bool_decide_eq_false_2 by congruence. exact IH.
  - rewrite bool_decide_eq_false_2 by discriminate. exact IH.
Qed.

(** X16. In [traffic_metrics], sessions_by_channel (sessions_by_device)
    maps each traffic source (device type) to the number of sessions that
    have it, and has no entry for a value no session has. *)
Theorem traffic_counts_per_key (df_sessions : list Session) :
  exists t,
    traffic_metrics df_sessions = Ok t /\
    (forall source,
       sessions_by_channel t !! source =
         match length (List.filter
                         (fun s => bool_decide (traffic_source s = Some source))
                         df_sessions) with
         | O => None
         | S n => Some (S n)
         end) /\
    (forall device,
       sessions_by_device t !! device =
         match length (List.filter
                         (fun s => bool_decide (device_type s = Some device))
                         df_sessions) with
         | O => None
         | S n => Some (S n)
         end).
Proof.
  eexists. split; [apply traffic_metrics_Ok|]. simpl.
  split; intros k; rewrite value_counts_lookup, filter_map_swap', length_map;
    reflexivity.
Qed.

Lemma size_list_to_set_le (l : list Z) :
  (size (list_to_set l : gset Z) <= length l)%nat.
Proof.
  induction l as [|z l IH].
  - rewrite list_to_set_nil, size_empty. simpl. lia.
  - rewrite list_to_set_cons, size_union_alt, size_singleton.
    assert (size (list_to_set l ∖ {[z]} : gset Z)
            <= size (list_to_set l : gset Z))%nat as Hsub
      by (apply subseteq_size; set_solver).
    simpl. lia.
Qed.

Lemma nunique_le (col : list (option Z)) : (nunique col <= length col)%nat.
Proof.
  unfold nunique. etransitivity; [apply size_list_to_set_le|].
  induction col as [|c col IH]; simpl; [lia|].
  change (list_omap (option Z) Z id col) with (omap id col).
  destruct c; simpl; lia.
Qed.

Lemma count_true_map {A} (p : A -> bool) (l : list A) :
  count_true (map p l) = Z.of_nat (length (List.filter p l)).
Proof.
  unfold count_true. f_equal.
  induction l as [|a l IH]; simpl; [reflexivity|].
  destruct (p a); simpl; rewrite IH; reflexivity.
Qed.

(** X17. On a sessions table that is not empty, the bounce_rate of
    [traffic_metrics] is the share of sessions shorter than 5 seconds, a
    number within [0, 1], and unique_users never exceeds total_sessions. *)
Theorem traffic_rates_bounded (df_sessions : list Session) :
  df_sessions <> [] ->
  exists t q,
    traffic_metrics df_sessions = Ok t /\
    bounce_rate t = NpFloat (Fin q) /\
    q = (inject_Z (Z.of_nat (length (List.filter
                     (fun s => cell_lt (session_duration_clean s) 5) df_sessions)))
         / inject_Z (Z.of_nat (length df_sessions)))%Q /\
    (0 <= q)%Q /\ (q <= 1)%Q /\
    (unique_users t <= length df_sessions)%nat.
Proof.
  intros Hne.
  assert (0 < length df_sessions)%nat as Hlen
    by (destruct df_sessions; [congruence|simpl; lia]).
  assert (0 < inject_Z (Z.of_nat (length df_sessions)))%Q as Hpos.
  { change (inject_Z 0 < inject_Z (Z.of_nat (length df_sessions)))%Q.
    rewrite <- Zlt_Qlt. lia. }
  do 2 eexists. split; [apply traffic_metrics_Ok|].
  cbn [bounce_rate unique_users]. unfold py_len.
  rewrite count_true_map, (np_true_divide_pos _ _ Hpos).
  split; [reflexivity|]. split; [reflexivity|].
  pose proof (filter_length_le
                (fun s => cell_lt (session_duration_clean s) 5) df_sessions) as Hle.
  split; [|split].
  - apply ratio_in_unit_interval; [| |exact Hpos].
    + match goal with
      | |- (0 <= inject_Z ?z)%Q => change (inject_Z 0 <= inject_Z z)%Q
      end.
      rewrite <- Zle_Qle. lia.
    + rewrite <- Zle_Qle. lia.
  - apply ratio_in_unit_interval; [| |exact Hpos].
    + match goal with
      | |- (0 <= inject_Z ?z)%Q => change (inject_Z 0 <= inject_Z z)%Q
      end.
      rewrite <- Zle_Qle. lia.
    + rewrite <- Zle_Qle. lia.
  - etransitivity; [apply nunique_le|]. rewrite length_map. lia.
Qed.

Lemma traffic_rates_bounded_witness :
  exists t q,
    traffic_metrics sample_sessions = Ok t /\
    bounce_rate t = NpFloat (Fin q) /\
    q = (inject_Z (Z.of_nat (length (List.filter
                     (fun s => cell_lt (session_duration_clean s) 5) sample_sessions)))
         / inject_Z (Z.of_nat (length sample_sessions)))%Q /\
    (0 <= q)%Q /\ (q <= 1)%Q /\
    (unique_users t <= length sample_sessions)%nat.
Proof. apply (traffic_rates_bounded sample_sessions). discriminate. Defined.

(** X18. In [conversion_metrics], conversion_by_channel
    (conversion_by_device) holds for each traffic source (device type) the
    sum of the conversion flags and the number of its sessions, and nothing
    for a value no session has. *)
Theorem conversion_by_group (df_master : list Master) :
  exists c,
    conversion_metrics df_master = Ok c /\
    (forall source,
       conversion_by_channel c !! source =
         match List.filter (fun r => bool_decide (m_traffic_source r = Some source))
                           df_master with
         | [] => None
         | rows => Some (sum_int (map conversion_flag rows), length rows)
         end) /\
    (forall device,
       conversion_by_device c !! device =
         match List.filter (fun r => bool_decide (m_device_type r = Some device))
                           df_master with
         | [] => None
         | rows => Some (sum_int (map conversion_flag rows), length rows)
         end).
Proof.
  eexists. split; [apply conversion_metrics_Ok|]. simpl.
  split; intros k; unfold sum_count; rewrite lookup_fmap, groupby_lookup;
    destruct (List.filter _ df_master); reflexivity.
Qed.

Lemma filter_twice {A} (p q : A -> bool) (l : list A) :
  List.filter p (List.filter q l) = List.filter (fun x => q x && p x) l.
Proof.
  induction l as [|a l IH]; simpl; [reflexivity|].
  destruct (q a); simpl; [|exact IH]. destruct (p a); rewrite IH; reflexivity.
Qed.

(** X19. In [quality_metrics], refund_rate_by_category holds for each
    product category the mean of was_refunded over its sessions (nothing
    for a category no session has), and at_risk_segments counts, for each
    pair of traffic source and device type, the sessions with
    was_refunded = 1 that have both. *)
Theorem quality_by_group (df_master : list Master) :
  exists q,
    quality_metrics df_master = Ok q /\
    (forall category,
       refund_rate_by_category q !! category =
         match List.filter
                 (fun r => bool_decide (m_product_category r = Some category))
                 df_master with
         | [] => None
         | rows => Some (mean (map was_refunded rows))
         end) /\
    (forall source device,
       at_risk_segments q !! (source, device) =
         match length (List.filter
                 (fun r => cell_eq (was_refunded r) 1
                           && bool_decide (segment r = Some (source, device)))
                 df_master) with
         | O => None
         | S n => Some (S n)
         end).
Proof.
  unfold quality_metrics. rewrite truediv_numpy_int.
  destruct (gt_zero (NpFloat (Fin (total_orders df_master)))).
  - rewrite truediv_numpy_float. eexists. split; [reflexivity|]. simpl. split.
    + intros k. rewrite lookup_fmap, groupby_lookup.
      destruct (List.filter _ df_master); reflexivity.
    + intros source device.
      rewrite value_counts_lookup, filter_map_swap', length_map, filter_twice.
      reflexivity.
  - eexists. split; [reflexivity|]. simpl. split.
    + intros k. rewrite lookup_fmap, groupby_lookup.
      destruct (List.filter _ df_master); reflexivity.
    + intros source device.
      rewrite value_counts_lookup, filter_map_swap', length_map, filter_twice.
      reflexivity.
Qed.

(** *** The exported funnel *)

Lemma filter_length_mono {A} (p q : A -> bool) (l : list A) :
  (forall x, In x l -> p x = true -> q x = true) ->
  (length (List.filter p l) <= length (List.filter q l))%nat.
Proof.
  induction l as [|a l IH]; intros Himp; simpl; [lia|].
  assert (length (List.filter p l) <= length (List.filter q l))%nat as Hrest
    by (apply IH; intros x Hx; apply Himp; right; exact Hx).
  destruct (p a) eqn:Hp.
  - rewrite (Himp a (or_introl eq_refl) Hp). simpl. lia.
  - destruct (q a); simpl; lia.
Qed.

(** X20. For a master table built by [create_master_dataset] the funnel
    that [prepare_dashboard_data] exports has Sessions = the number of
    sessions, Browsed and Added to Cart not above Sessions, and Purchased
    not above Added to Cart. *)
Theorem exported_funnel_bounds (df_sessions : list CleanSession)
        (df_orders : list Order) (df_refunds : list Refund) :
  exists browsed carted purchased,
    funnel_values
      (map as_master (create_master_dataset df_sessions df_orders df_refunds))
    = [Z.of_nat (length df_sessions); browsed; carted; purchased] /\
    (0 <= browsed <= Z.of_nat (length df_sessions))%Z /\
    (0 <= carted <= Z.of_nat (length df_sessions))%Z /\
    (0 <= purchased <= carted)%Z.
Proof.
  rewrite create_master_dataset_rows.
  unfold funnel_values, py_len. do 3 eexists.
  rewrite converted_count, !length_map.
  split; [reflexivity|].
  rewrite !filter_map_swap', !length_map.
  split; [|split].
  - pose proof (filter_length_le
      (fun a => cell_gt (m_session_duration_clean
                           (as_master (master_row df_orders df_refunds a))) 5)
      df_sessions). lia.
  - pose proof (filter_length_le
      (fun a => bool_decide (is_Some (total_order_value
                           (as_master (master_row df_orders df_refunds a)))))
      df_sessions). lia.
  - split; [lia|]. apply Nat2Z.inj_le.
    apply filter_length_mono. intros s _.
    unfold master_row.
    destruct (session_orders df_orders s); simpl; [discriminate|].
    intros _. reflexivity.
Qed.

(** Browsed and Added to Cart are not ordered: a three-second session
    with an order is in the cart stage and not in the browsed stage. *)
Example exported_funnel_can_rise :
  funnel_values quick_buyer = [1; 0; 1; 1]%Z.
Proof. vm_compute. reflexivity. Qed.

End GroupProofs.

(** * Properties of the navigation, the channel selector and a good fetch *)

Module UiProofs.
Import JS Dashboard Api Spec Ui ApiSamples DashboardProofs ApiProofs.

Lemma derive_filtered NumberToString (d : Datasets) (st : UiState) (r : Derived) :
  derive NumberToString d st = Ok r ->
  filteredChannelData r = channels_shown d (selectedChannel st) /\
  filteredCategoryData r = categories_shown d (selectedCategory st).
Proof.
  unfold derive, mbind, result_bind. intros H.
  apply rbind_Ok in H as (first & _ & H).
  apply rbind_Ok in H as (last & _ & H).
  injection H as <-. split; reflexivity.
Qed.

Lemma derive_state_free NumberToString (d : Datasets) (st st' : UiState)
      (r : Derived) :
  derive NumberToString d st = Ok r ->
  exists r', derive NumberToString d st' = Ok r' /\ kpis r' = kpis r.
Proof.
  unfold derive, mbind, result_bind. intros H.
  apply rbind_Ok in H as (first & Hf & H).
  apply rbind_Ok in H as (last & Hl & H).
  injection H as <-. rewrite Hf. simpl. rewrite Hl. simpl.
  eexists. split; reflexivity.
Qed.

(** X21. The channel list always agrees with the selector: a channel is
    listed under Performance Metrics exactly when the "All Channels" button
    or its own button is the highlighted one. *)
Theorem channel_list_matches_highlight NumberToString
        (d : Datasets) (st : UiState) (r : Derived) (channel : ChannelRow) :
  derive NumberToString d st = Ok r ->
  In channel (channelData d) ->
  (In channel (filteredChannelData r) <->
   allChannelsHighlighted st = true \/ channelHighlighted st channel = true).
Proof.
  intros Hr Hin. destruct (derive_filtered _ _ _ _ Hr) as [-> _].
  unfold channels_shown, allChannelsHighlighted, channelHighlighted.
  destruct (selectedChannel st) as [[|a sel]|]; cbn [truthy].
  - split; [left; reflexivity|intros _; exact Hin].
  - rewrite <- list_elem_of_In, list_elem_of_filter, list_elem_of_In.
    split.
    + intros [Hname _]. right. rewrite Hname. apply String.eqb_refl.
    + intros [Hf|Heq]; [discriminate|].
      apply String.eqb_eq in Heq. split; [symmetry; exact Heq|exact Hin].
  - split; [left; reflexivity|intros _; exact Hin].
Qed.

Lemma channel_list_matches_highlight_witness :
  exists r,
    derive (fun _ => "") generated
           (clickChannel (mkChannel "Social" 12340 98 1.8
                                    BEARCART_COLORS.channels_social)
                         initialState) = Ok r /\
    (In (mkChannel "Social" 12340 98 1.8 BEARCART_COLORS.channels_social)
        (filteredChannelData r) <->
     allChannelsHighlighted
       (clickChannel (mkChannel "Social" 12340 98 1.8
                                BEARCART_COLORS.channels_social) initialState) = true \/
     channelHighlighted
       (clickChannel (mkChannel "Social" 12340 98 1.8
                                BEARCART_COLORS.channels_social) initialState)
       (mkChannel "Social" 12340 98 1.8 BEARCART_COLORS.channels_social) = true).
Proof.
  eexists. split; [reflexivity|].
  apply (channel_list_matches_highlight (fun _ => "") generated).
  - reflexivity.
  - right. right. left. reflexivity.
Defined.

Lemma filter_unique_name (l : list ChannelRow) (channel : ChannelRow) :
  NoDup (map channel_name l) -> In channel l ->
  filter (fun item => channel_name item = channel_name channel) l = [channel].
Proof.
  induction l as [|a l IH]; simpl; [intros _ []|].
  intros Hnd. apply NoDup_cons in Hnd as [Hnotin Hnd].
  intros [->|Hin].
  - rewrite filter_cons_True by reflexivity. f_equal.
    destruct (filter (fun item => channel_name item = channel_name channel) l)
      as [|b rest] eqn:Hf; [reflexivity|].
    exfalso. apply Hnotin.
    assert (b ∈ filter (fun item => channel_name item = channel_name channel) l)
      as Hb by (rewrite Hf; left).
    apply list_elem_of_filter in Hb as [Hname Hb].
    rewrite <- Hname. apply list_elem_of_In, in_map, list_elem_of_In. exact Hb.
  - rewrite filter_cons_False.
    + apply IH; assumption.
    + intros Hname. apply Hnotin. rewrite Hname.
      apply list_elem_of_In, in_map. exact Hin.
Qed.

(** X22. When the channel names are distinct, clicking a channel whose
    name is not empty lists that channel alone, clicking "All Channels"
    lists every channel again, and neither click changes a KPI. *)
Theorem clicking_a_channel_lists_it NumberToString
        (d : Datasets) (st : UiState) (r0 : Derived) (channel : ChannelRow) :
  NoDup (map channel_name (channelData d)) ->
  In channel (channelData d) ->
  channel_name channel <> "" ->
  derive NumberToString d st = Ok r0 ->
  exists r_one r_all,
    derive NumberToString d (clickChannel channel st) = Ok r_one /\
    filteredChannelData r_one = [channel] /\
    kpis r_one = kpis r0 /\
    derive NumberToString d (clickAllChannels (clickChannel channel st)) = Ok r_all /\
    filteredChannelData r_all = channelData d /\
    kpis r_all = kpis r0.
Proof.
  intros Hnd Hin Hname Hr0.
  destruct (derive_state_free _ d st (clickChannel channel st) r0 Hr0)
    as (r1 & Hr1 & Hk1).
  destruct (derive_state_free _ d st
              (clickAllChannels (clickChannel channel st)) r0 Hr0)
    as (r2 & Hr2 & Hk2).
  exists r1, r2. split; [exact Hr1|]. split; [|split; [exact Hk1|]].
  - destruct (derive_filtered _ _ _ _ Hr1) as [-> _].
    unfold channels_shown, clickChannel. simpl.
    destruct (channel_name channel) as [|a name] eqn:Hn; [congruence|].
    simpl. rewrite <- Hn. apply filter_unique_name; assumption.
  - split; [exact Hr2|]. split; [|exact Hk2].
    destruct (derive_filtered _ _ _ _ Hr2) as [-> _]. reflexivity.
Qed.

Lemma clicking_a_channel_lists_it_witness :
  exists r0,
    derive (fun _ => "") generated initialState = Ok r0 /\
    exists r_one r_all,
      derive (fun _ => "") generated
             (clickChannel (mkChannel "Organic" 28450 342 4.2
                                      BEARCART_COLORS.channels_organic)
                           initialState) = Ok r_one /\
      filteredChannelData r_one =
        [mkChannel "Organic" 28450 342 4.2 BEARCART_COLORS.channels_organic] /\
      kpis r_one = kpis r0 /\
      derive (fun _ => "") generated
             (clickAllChannels
                (clickChannel (mkChannel "Organic" 28450 342 4.2
                                         BEARCART_COLORS.channels_organic)
                              initialState)) = Ok r_all /\
      filteredChannelData r_all = channelData generated /\
      kpis r_all = kpis r0.
Proof.
  eexists. split; [reflexivity|].
  apply (clicking_a_channel_lists_it (fun _ => "") generated initialState).
  - apply (bool_decide_unpack _). vm_compute. reflexivity.
  - left. reflexivity.
  - discriminate.
  - reflexivity.
Defined.

(** The empty name is the edge X22 excludes: selecting it counts as no
    selection and every channel stays listed. *)
Example empty_name_selects_everything NumberToString (d : Datasets) (r : Derived) :
  derive NumberToString d
         (dispatch initialState (setSelectedChannel (Some ""))) = Ok r ->
  filteredChannelData r = channelData d.
Proof. intros Hr. destruct (derive_filtered _ _ _ _ Hr) as [-> _]. reflexivity. Qed.

Lemma no_panel_for (id : string) (panels : list string) :
  ~ In id panels -> List.filter (fun p => String.eqb id p) panels = [].
Proof.
  induction panels as [|p ps IH]; intros Hnot; simpl; [reflexivity|].
  destruct (String.eqb id p) eqn:Heq.
  - apply String.eqb_eq in Heq. exfalso. apply Hnot. left. symmetry. exact Heq.
  - apply IH. intros Hin. apply Hnot. right. exact Hin.
Qed.

(** X23. Clicking a sidebar entry makes it the active tab and closes the
    mobile menu, leaves the time range and both filters as they were, marks
    that entry alone as active, and shows exactly one panel, its own (none
    for an id that has no panel). *)
Theorem nav_click_opens_one_panel (id : string) (st : UiState) :
  let st' := navClick id st in
  activeTab st' = id /\
  mobileOpen st' = false /\
  timeRange st' = timeRange st /\
  selectedChannel st' = selectedChannel st /\
  selectedCategory st' = selectedCategory st /\
  (forall item, navActive st' item = true <-> item = id) /\
  (In id navItems -> visiblePanels st' = [id]) /\
  (~ In id tabPanels -> visiblePanels st' = []).
Proof.
  simpl. repeat (split; [reflexivity|]).
  split; [|split].
  - intros item. unfold navActive. simpl. rewrite String.eqb_eq.
    split; congruence.
  - intros Hin. unfold navItems in Hin. simpl in Hin.
    repeat (destruct Hin as [<-|Hin]; [vm_compute; reflexivity|]).
    destruct Hin.
  - intros Hnot. apply (no_panel_for id tabPanels Hnot).
Qed.

(** X24. When the response is ok, [getDashboardData] resolves with the
    parsed body and logs nothing; if the body does not parse, the parse
    error is logged once and re-thrown.  In both cases one fetch is issued
    and the answer does not depend on [text()] or on [JSON.parse]. *)
Theorem ok_response_returns_body
        (network : nat -> string -> result Error Response)
        (JSON_parse : string -> result Error JsVal)
        (ToString : JsVal -> string) (response : Response) :
  network 0%nat dashboard_url = Ok response ->
  ok response = true ->
  apiService_getDashboardData network JSON_parse ToString =
    (json response,
     Fetched dashboard_url ::
       match json response with
       | Ok _ => []
       | Raise e => [ConsoleError log_label e]
       end).
Proof.
  intros Hnet Hok.
  pose proof (run_cases network JSON_parse ToString) as H.
  rewrite Hnet, Hok in H.
  destruct (json response); exact H.
Qed.

Lemma ok_response_returns_body_witness :
  apiService_getDashboardData (always ok_response) parse_detail show =
    (Ok dashboard_body, [Fetched dashboard_url]).
Proof.
  apply (ok_response_returns_body (always ok_response) parse_detail show
           ok_response); reflexivity.
Defined.

End UiProofs.
